(** * Safety control plane of the power-management firmware

    A shallow embedding of the C sources under [firmware/src] and of
    [firmware/include/safety_types.h], followed by the properties of the
    specification that were checked against them.

    Conventions of the embedding.
    - Every file-scope variable of a translation unit becomes a field of
      a record; a C function becomes a function from the record to its
      return value and the updated record.
    - Unsigned C integers are values of [Z]; every operation that can leave
      the range of its type is followed by the wrap of that type.
    - [safety_state_t] and [fault_type_t] are stored in one byte: their
      enumerators all fit in [0 .. 0xFF], the specification's dual-rail
      byte is a pair of 8-bit words, and the Cortex-M4 EABI target of the
      sources packs such enumerations into a byte.  The complement
      [~x] stored into such a field is therefore [not8 x].
    - Output pointers are taken to be non-null; the value written through
      one is returned next to the C return value ([None]: nothing was
      written). *)

From Stdlib Require Import ZArith List Bool Lia.
Import ListNotations.
Open Scope Z_scope.

(* ------------------------------------------------------------------ *)
(** ** Machine words *)

Definition wrap8 (x : Z) : Z := x mod 256.
Definition wrap16 (x : Z) : Z := x mod 65536.
Definition wrap32 (x : Z) : Z := x mod 4294967296.

(** [~x] truncated to [uint8_t]. *)
Definition not8 (x : Z) : Z := wrap8 (Z.lnot x).

(** C truth value of an integer used as a condition. *)
Definition truthy (x : Z) : bool := negb (x =? 0).

(* ------------------------------------------------------------------ *)
(** ** safety_types.h *)

Definition SAFETY_STATE_INIT : Z := 0x55.
Definition SAFETY_STATE_NORMAL : Z := 0xAA.
Definition SAFETY_STATE_FAULT : Z := 0xCC.
Definition SAFETY_STATE_SAFE_STATE : Z := 0x33.
Definition SAFETY_STATE_RECOVERY : Z := 0x99.
Definition SAFETY_STATE_INVALID : Z := 0xFF.

Definition FAULT_TYPE_NONE : Z := 0x00.
Definition FAULT_TYPE_VDD : Z := 0x01.
Definition FAULT_TYPE_CLK : Z := 0x02.
Definition FAULT_TYPE_MEM_ECC : Z := 0x04.
Definition FAULT_TYPE_MULTIPLE : Z := 0x07.
Definition FAULT_TYPE_INVALID : Z := 0xFF.

Definition RECOVERY_PENDING : Z := 0x00.
Definition RECOVERY_SUCCESS : Z := 0xAA.
Definition RECOVERY_FAILED : Z := 0x55.
Definition RECOVERY_TIMEOUT : Z := 0xCC.
Definition RECOVERY_INVALID : Z := 0xFF.

Record fault_flags_t := mk_fault_flags {
  pwr_fault : Z;
  pwr_fault_cmp : Z;
  clk_fault : Z;
  clk_fault_cmp : Z;
  mem_fault : Z;
  mem_fault_cmp : Z
}.

Record safety_status_t := mk_safety_status {
  current_state : Z;
  current_state_cmp : Z;
  active_faults : Z;
  active_faults_cmp : Z;
  recovery_status : Z;
  fault_count : Z;
  timestamp_ms : Z;
  fault_flags : fault_flags_t
}.

Record fault_statistics_t := mk_fault_statistics {
  vdd_faults_detected : Z;
  vdd_faults_undetected : Z;
  clk_faults_detected : Z;
  clk_faults_undetected : Z;
  mem_faults_detected : Z;
  mem_faults_undetected : Z;
  recovery_successes : Z;
  recovery_failures : Z;
  uptime_ms : Z;
  last_update_ms : Z
}.

(** The macros [VERIFY_FAULT_FLAG] and [VERIFY_STATE]. *)
Definition VERIFY_FAULT_FLAG (flag cmp_flag : Z) : bool :=
  Z.lxor flag cmp_flag =? 0xFF.

Definition VERIFY_STATE (state state_cmp : Z) : bool :=
  Z.lxor state state_cmp =? 0xFF.

(** Modelled from the spec: [safety_result_t] is used by the clock
    sources but declared in a header that is not part of the tree; its
    four values are the result taxonomy of the specification. *)
Inductive safety_result_t :=
| SAFETY_OK
| SAFETY_PENDING
| SAFETY_ERROR
| SAFETY_DCLS_ERROR.

(* ------------------------------------------------------------------ *)
(** ** safety_fsm.c *)

Record fsm_t := mk_fsm {
  g_safety_status : safety_status_t;
  g_fsm_initialized : bool
}.

(** Field updates of the status word. *)
Definition set_state (st cmp : Z) (g : safety_status_t) : safety_status_t :=
  mk_safety_status st cmp (active_faults g) (active_faults_cmp g)
    (recovery_status g) (fault_count g) (timestamp_ms g) (fault_flags g).

Definition set_active (a cmp : Z) (g : safety_status_t) : safety_status_t :=
  mk_safety_status (current_state g) (current_state_cmp g) a cmp
    (recovery_status g) (fault_count g) (timestamp_ms g) (fault_flags g).

Definition set_recovery (r : Z) (g : safety_status_t) : safety_status_t :=
  mk_safety_status (current_state g) (current_state_cmp g)
    (active_faults g) (active_faults_cmp g)
    r (fault_count g) (timestamp_ms g) (fault_flags g).

Definition set_fault_count (c : Z) (g : safety_status_t) : safety_status_t :=
  mk_safety_status (current_state g) (current_state_cmp g)
    (active_faults g) (active_faults_cmp g)
    (recovery_status g) c (timestamp_ms g) (fault_flags g).

Definition set_timestamp (t : Z) (g : safety_status_t) : safety_status_t :=
  mk_safety_status (current_state g) (current_state_cmp g)
    (active_faults g) (active_faults_cmp g)
    (recovery_status g) (fault_count g) t (fault_flags g).

Definition set_flags (f : fault_flags_t) (g : safety_status_t) : safety_status_t :=
  mk_safety_status (current_state g) (current_state_cmp g)
    (active_faults g) (active_faults_cmp g)
    (recovery_status g) (fault_count g) (timestamp_ms g) f.

Definition set_pwr (v c : Z) (f : fault_flags_t) : fault_flags_t :=
  mk_fault_flags v c (clk_fault f) (clk_fault_cmp f) (mem_fault f) (mem_fault_cmp f).

Definition set_clk (v c : Z) (f : fault_flags_t) : fault_flags_t :=
  mk_fault_flags (pwr_fault f) (pwr_fault_cmp f) v c (mem_fault f) (mem_fault_cmp f).

Definition set_mem (v c : Z) (f : fault_flags_t) : fault_flags_t :=
  mk_fault_flags (pwr_fault f) (pwr_fault_cmp f) (clk_fault f) (clk_fault_cmp f) v c.

Definition with_status (g : safety_status_t) (s : fsm_t) : fsm_t :=
  mk_fsm g (g_fsm_initialized s).

(** The static initialisers of the translation unit. *)
Definition fsm_boot : fsm_t :=
  mk_fsm
    (mk_safety_status
       SAFETY_STATE_INIT (not8 SAFETY_STATE_INIT)
       FAULT_TYPE_NONE (not8 FAULT_TYPE_NONE)
       RECOVERY_PENDING 0 0
       (mk_fault_flags 0x00 0xFF 0x00 0xFF 0x00 0xFF))
    false.

Definition g_transition_matrix : list (list bool) :=
  [ (* From INIT *)       [false; true;  false; false; false; false];
    (* From NORMAL *)     [false; true;  true;  true;  false; false];
    (* From FAULT *)      [false; false; true;  true;  true;  false];
    (* From SAFE_STATE *) [false; false; false; true;  true;  false];
    (* From RECOVERY *)   [false; true;  true;  true;  true;  false];
    (* From INVALID *)    [false; false; false; false; false; false] ].

Definition fsm_state_to_index (state : Z) : nat :=
  if state =? SAFETY_STATE_INIT then 0%nat
  else if state =? SAFETY_STATE_NORMAL then 1%nat
  else if state =? SAFETY_STATE_FAULT then 2%nat
  else if state =? SAFETY_STATE_SAFE_STATE then 3%nat
  else if state =? SAFETY_STATE_RECOVERY then 4%nat
  else if state =? SAFETY_STATE_INVALID then 5%nat
  else 5%nat.

(** [g_transition_matrix[i][j]]; both indices come from
    [fsm_state_to_index] and are below 6. *)
Definition matrix_at (i j : nat) : bool :=
  nth j (nth i g_transition_matrix []) false.

Definition fsm_init (s : fsm_t) : bool * fsm_t :=
  if g_fsm_initialized s then (false, s)
  else
    let g := g_safety_status s in
    let g := set_state SAFETY_STATE_INIT (not8 SAFETY_STATE_INIT) g in
    let g := set_active FAULT_TYPE_NONE (not8 FAULT_TYPE_NONE) g in
    let g := set_flags (mk_fault_flags 0x00 0xFF 0x00 0xFF 0x00 0xFF) g in
    let g := set_fault_count 0 g in
    let g := set_recovery RECOVERY_PENDING g in
    let g := set_timestamp 0 g in
    (true, mk_fsm g true).

Definition fsm_transition (next_state : Z) (s : fsm_t) : bool * fsm_t :=
  if negb (g_fsm_initialized s) then (false, s)
  else
    let g := g_safety_status s in
    let current_idx := fsm_state_to_index (current_state g) in
    let next_idx := fsm_state_to_index next_state in
    if negb (matrix_at current_idx next_idx) then
      (false,
       with_status
         (set_state SAFETY_STATE_INVALID (not8 SAFETY_STATE_INVALID) g) s)
    else
      let g := set_state next_state (not8 next_state) g in
      let g := set_timestamp 0 g in
      (true, with_status g s).

Definition fsm_get_state (s : fsm_t) : Z :=
  let current := current_state (g_safety_status s) in
  let complement := current_state_cmp (g_safety_status s) in
  if negb (Z.lxor current complement =? 0xFF) then SAFETY_STATE_INVALID
  else current.

Definition fsm_get_status (s : fsm_t) : bool * option safety_status_t :=
  let g := g_safety_status s in
  if negb (Z.lxor (current_state g) (current_state_cmp g) =? 0xFF) then
    (false, None)
  else if negb (Z.lxor (active_faults g) (active_faults_cmp g) =? 0xFF) then
    (false, None)
  else (true, Some g).

Definition fsm_aggregate_faults (s : fsm_t) : bool * fsm_t :=
  let aggregated := FAULT_TYPE_NONE in
  let current_state := fsm_get_state s in
  if current_state =? SAFETY_STATE_INVALID then (false, s)
  else
    let f := fault_flags (g_safety_status s) in
    if negb (VERIFY_FAULT_FLAG (pwr_fault f) (pwr_fault_cmp f)) then (false, s)
    else
      let aggregated :=
        if truthy (pwr_fault f) then Z.lor aggregated FAULT_TYPE_VDD
        else aggregated in
      if negb (VERIFY_FAULT_FLAG (clk_fault f) (clk_fault_cmp f)) then (false, s)
      else
        let aggregated :=
          if truthy (clk_fault f) then Z.lor aggregated FAULT_TYPE_CLK
          else aggregated in
        if negb (VERIFY_FAULT_FLAG (mem_fault f) (mem_fault_cmp f)) then (false, s)
        else
          let aggregated :=
            if truthy (mem_fault f) then Z.lor aggregated FAULT_TYPE_MEM_ECC
            else aggregated in
          let s :=
            with_status
              (set_active aggregated (not8 aggregated) (g_safety_status s)) s in
          if negb (aggregated =? FAULT_TYPE_NONE) then
            let s :=
              with_status
                (set_fault_count
                   (wrap16 (fault_count (g_safety_status s) + 1))
                   (g_safety_status s)) s in
            if current_state =? SAFETY_STATE_NORMAL then
              fsm_transition SAFETY_STATE_FAULT s
            else (true, s)
          else (true, s).

Definition fsm_clear_faults (faults_to_clear : Z) (s : fsm_t) : bool * fsm_t :=
  let f := fault_flags (g_safety_status s) in
  let f :=
    if truthy (Z.land faults_to_clear FAULT_TYPE_VDD)
    then set_pwr 0x00 0xFF f else f in
  let f :=
    if truthy (Z.land faults_to_clear FAULT_TYPE_CLK)
    then set_clk 0x00 0xFF f else f in
  let f :=
    if truthy (Z.land faults_to_clear FAULT_TYPE_MEM_ECC)
    then set_mem 0x00 0xFF f else f in
  fsm_aggregate_faults (with_status (set_flags f (g_safety_status s)) s).

Definition fsm_set_recovery_status (result : Z) (s : fsm_t) : fsm_t :=
  with_status (set_recovery result (g_safety_status s)) s.

Definition fsm_get_recovery_status (s : fsm_t) : Z :=
  recovery_status (g_safety_status s).

(** Status words with a given flag pair: [with_pwr_fault v s] is [s]
    with [pwr_fault] and [pwr_fault_cmp] holding [v] and [~v], and
    likewise for the clock and the memory pair.  They write down the
    states in which the functions that read the flags are examined, and
    translate no function of the sources: [g_safety_status] is static
    to [safety_fsm.c], whose only stores to the flags write 0x00 / 0xFF
    ([fsm_init], [fsm_clear_faults]), and the handlers of
    [interrupt_handler.c] store nothing (see [fault_isr_handler]
    below).  The flag fields are volatile bytes; a state with an
    asserted pair is one that the readers may be handed, not one that a
    call sequence of these files produces. *)
Definition with_pwr_fault (v : Z) (s : fsm_t) : fsm_t :=
  let g := g_safety_status s in
  with_status (set_flags (set_pwr v (not8 v) (fault_flags g)) g) s.

Definition with_clk_fault (v : Z) (s : fsm_t) : fsm_t :=
  let g := g_safety_status s in
  with_status (set_flags (set_clk v (not8 v) (fault_flags g)) g) s.

Definition with_mem_fault (v : Z) (s : fsm_t) : fsm_t :=
  let g := g_safety_status s in
  with_status (set_flags (set_mem v (not8 v) (fault_flags g)) g) s.

(* ------------------------------------------------------------------ *)
(** ** fault_aggregator.c *)

Record aggregator_t := mk_aggregator {
  g_aggregator_busy : bool;
  vdd_priority : Z;
  clk_priority : Z;
  mem_priority : Z;
  g_last_aggregation_ms : Z;
  g_aggregation_attempts : Z
}.

Definition aggregator_boot : aggregator_t :=
  mk_aggregator false 1 2 3 0 0.

Definition set_busy (b : bool) (a : aggregator_t) : aggregator_t :=
  mk_aggregator b (vdd_priority a) (clk_priority a) (mem_priority a)
    (g_last_aggregation_ms a) (g_aggregation_attempts a).

Definition set_attempts (n : Z) (a : aggregator_t) : aggregator_t :=
  mk_aggregator (g_aggregator_busy a) (vdd_priority a) (clk_priority a)
    (mem_priority a) (g_last_aggregation_ms a) n.

Definition set_last_aggregation (t : Z) (a : aggregator_t) : aggregator_t :=
  mk_aggregator (g_aggregator_busy a) (vdd_priority a) (clk_priority a)
    (mem_priority a) t (g_aggregation_attempts a).

(** Result of [fault_aggregate]: the C return value, the value written
    through [aggregated_faults] if any, and both updated units. *)
Record aggregate_result := mk_aggregate_result {
  agg_ret : bool;
  agg_out : option Z;
  agg_unit : aggregator_t;
  agg_fsm : fsm_t
}.

Definition fault_aggregate (a : aggregator_t) (s : fsm_t) : aggregate_result :=
  let result := FAULT_TYPE_NONE in
  if g_aggregator_busy a then mk_aggregate_result false None a s
  else
    let a := set_busy true a in
    let a := set_attempts (wrap32 (g_aggregation_attempts a + 1)) a in
    match fsm_get_status s with
    | (true, Some current_status) =>
      let f := fault_flags current_status in
      if negb (VERIFY_FAULT_FLAG (pwr_fault f) (pwr_fault_cmp f)) then
        mk_aggregate_result false None (set_busy false a) s
      else
        let result :=
          if truthy (pwr_fault f) then Z.lor result FAULT_TYPE_VDD
          else result in
        if negb (VERIFY_FAULT_FLAG (clk_fault f) (clk_fault_cmp f)) then
          mk_aggregate_result false None (set_busy false a) s
        else
          let result :=
            if truthy (clk_fault f) then Z.lor result FAULT_TYPE_CLK
            else result in
          if negb (VERIFY_FAULT_FLAG (mem_fault f) (mem_fault_cmp f)) then
            mk_aggregate_result false None (set_busy false a) s
          else
            let result :=
              if truthy (mem_fault f) then Z.lor result FAULT_TYPE_MEM_ECC
              else result in
            let highest_priority_fault :=
              if truthy (Z.land result FAULT_TYPE_VDD) then FAULT_TYPE_VDD
              else if truthy (Z.land result FAULT_TYPE_CLK) then FAULT_TYPE_CLK
              else if truthy (Z.land result FAULT_TYPE_MEM_ECC)
                   then FAULT_TYPE_MEM_ECC
              else FAULT_TYPE_NONE in
            let '(ok, s') := fsm_aggregate_faults s in
            if negb ok then
              mk_aggregate_result false (Some highest_priority_fault)
                (set_busy false a) s'
            else
              let a := set_last_aggregation 0 a in
              mk_aggregate_result true (Some highest_priority_fault)
                (set_busy false a) s'
    | _ => mk_aggregate_result false None (set_busy false a) s
    end.

(** Returns the fault type and the value written through [priority]. *)
Definition fault_get_highest_priority (s : fsm_t) : Z * Z :=
  match fsm_get_status s with
  | (true, Some status) =>
    if negb (Z.land (active_faults status) FAULT_TYPE_VDD =? 0) then
      (FAULT_TYPE_VDD, 1)
    else if negb (Z.land (active_faults status) FAULT_TYPE_CLK =? 0) then
      (FAULT_TYPE_CLK, 2)
    else if negb (Z.land (active_faults status) FAULT_TYPE_MEM_ECC =? 0) then
      (FAULT_TYPE_MEM_ECC, 3)
    else (FAULT_TYPE_NONE, 0)
  | _ => (FAULT_TYPE_INVALID, 0xFF)
  end.

Definition fault_has_multiple_active (s : fsm_t) : bool :=
  match fsm_get_status s with
  | (true, Some status) =>
    let fault_count := 0 in
    let fault_count :=
      if negb (Z.land (active_faults status) FAULT_TYPE_VDD =? 0)
      then fault_count + 1 else fault_count in
    let fault_count :=
      if negb (Z.land (active_faults status) FAULT_TYPE_CLK =? 0)
      then fault_count + 1 else fault_count in
    let fault_count :=
      if negb (Z.land (active_faults status) FAULT_TYPE_MEM_ECC =? 0)
      then fault_count + 1 else fault_count in
    1 <? fault_count
  | _ => false
  end.

Definition fault_get_all_active (s : fsm_t) : Z :=
  match fsm_get_status s with
  | (true, Some status) => active_faults status
  | _ => FAULT_TYPE_INVALID
  end.

Definition fault_is_active (fault_to_check : Z) (s : fsm_t) : bool :=
  negb (Z.land (fault_get_all_active s) fault_to_check =? 0).

Definition fault_aggregator_reset (faults_to_clear : Z)
    (a : aggregator_t) (s : fsm_t) : bool * aggregator_t * fsm_t :=
  if g_aggregator_busy a then (false, a, s)
  else
    let '(ok, s') := fsm_clear_faults faults_to_clear s in
    (ok, set_busy false a, s').

(* ------------------------------------------------------------------ *)
(** ** fault_statistics.c *)

Record stats_t := mk_stats {
  g_fault_stats : fault_statistics_t;
  g_stats_locked : bool
}.

Definition stats_boot : stats_t :=
  mk_stats (mk_fault_statistics 0 0 0 0 0 0 0 0 0 0) false.

Definition set_detected (ft v : Z) (g : fault_statistics_t) : fault_statistics_t :=
  mk_fault_statistics
    (if ft =? FAULT_TYPE_VDD then v else vdd_faults_detected g)
    (vdd_faults_undetected g)
    (if ft =? FAULT_TYPE_CLK then v else clk_faults_detected g)
    (clk_faults_undetected g)
    (if ft =? FAULT_TYPE_MEM_ECC then v else mem_faults_detected g)
    (mem_faults_undetected g)
    (recovery_successes g) (recovery_failures g) (uptime_ms g)
    (last_update_ms g).

Definition set_undetected (ft v : Z) (g : fault_statistics_t) : fault_statistics_t :=
  mk_fault_statistics
    (vdd_faults_detected g)
    (if ft =? FAULT_TYPE_VDD then v else vdd_faults_undetected g)
    (clk_faults_detected g)
    (if ft =? FAULT_TYPE_CLK then v else clk_faults_undetected g)
    (mem_faults_detected g)
    (if ft =? FAULT_TYPE_MEM_ECC then v else mem_faults_undetected g)
    (recovery_successes g) (recovery_failures g) (uptime_ms g)
    (last_update_ms g).

Definition set_recovery_successes (v : Z) (g : fault_statistics_t) :=
  mk_fault_statistics
    (vdd_faults_detected g) (vdd_faults_undetected g)
    (clk_faults_detected g) (clk_faults_undetected g)
    (mem_faults_detected g) (mem_faults_undetected g)
    v (recovery_failures g) (uptime_ms g) (last_update_ms g).

Definition set_recovery_failures (v : Z) (g : fault_statistics_t) :=
  mk_fault_statistics
    (vdd_faults_detected g) (vdd_faults_undetected g)
    (clk_faults_detected g) (clk_faults_undetected g)
    (mem_faults_detected g) (mem_faults_undetected g)
    (recovery_successes g) v (uptime_ms g) (last_update_ms g).

Definition set_uptime (v : Z) (g : fault_statistics_t) :=
  mk_fault_statistics
    (vdd_faults_detected g) (vdd_faults_undetected g)
    (clk_faults_detected g) (clk_faults_undetected g)
    (mem_faults_detected g) (mem_faults_undetected g)
    (recovery_successes g) (recovery_failures g) v (last_update_ms g).

Definition set_last_update (v : Z) (g : fault_statistics_t) :=
  mk_fault_statistics
    (vdd_faults_detected g) (vdd_faults_undetected g)
    (clk_faults_detected g) (clk_faults_undetected g)
    (mem_faults_detected g) (mem_faults_undetected g)
    (recovery_successes g) (recovery_failures g) (uptime_ms g) v.

(** The [switch (fault_type)] of the recorders and of the DC calculator:
    the pair of counters of a source, [None] in the [default] branch. *)
Definition counters_of (fault_type : Z) (g : fault_statistics_t) : option (Z * Z) :=
  if fault_type =? FAULT_TYPE_VDD then
    Some (vdd_faults_detected g, vdd_faults_undetected g)
  else if fault_type =? FAULT_TYPE_CLK then
    Some (clk_faults_detected g, clk_faults_undetected g)
  else if fault_type =? FAULT_TYPE_MEM_ECC then
    Some (mem_faults_detected g, mem_faults_undetected g)
  else None.

Definition fault_stats_record_detected (fault_type : Z) (st : stats_t)
  : bool * stats_t :=
  if g_stats_locked st then (false, st)
  else
    match counters_of fault_type (g_fault_stats st) with
    | Some (d, _) =>
      let g := set_detected fault_type (wrap32 (d + 1)) (g_fault_stats st) in
      (true, mk_stats (set_last_update 0 g) false)
    | None => (false, mk_stats (g_fault_stats st) false)
    end.

Definition fault_stats_record_undetected (fault_type : Z) (st : stats_t)
  : bool * stats_t :=
  if g_stats_locked st then (false, st)
  else
    match counters_of fault_type (g_fault_stats st) with
    | Some (_, u) =>
      let g := set_undetected fault_type (wrap32 (u + 1)) (g_fault_stats st) in
      (true, mk_stats (set_last_update 0 g) false)
    | None => (false, mk_stats (g_fault_stats st) false)
    end.

Definition fault_stats_record_recovery_success (st : stats_t) : bool * stats_t :=
  if g_stats_locked st then (false, st)
  else
    let g := g_fault_stats st in
    let g := set_recovery_successes (wrap32 (recovery_successes g + 1)) g in
    (true, mk_stats (set_last_update 0 g) false).

Definition fault_stats_record_recovery_failure (st : stats_t) : bool * stats_t :=
  if g_stats_locked st then (false, st)
  else
    let g := g_fault_stats st in
    let g := set_recovery_failures (wrap32 (recovery_failures g + 1)) g in
    (true, mk_stats (set_last_update 0 g) false).

(** Returns the C return value and the byte stored through [dc_percent]. *)
Definition fault_stats_calculate_dc (fault_type : Z) (st : stats_t)
  : bool * option Z :=
  match counters_of fault_type (g_fault_stats st) with
  | None => (false, None)
  | Some (detected, undetected) =>
    let total := wrap32 (detected + undetected) in
    if total =? 0 then (true, Some 0)
    else
      let dc_percent := wrap8 (wrap32 (detected * 100) / total) in
      let dc_percent := if 100 <? dc_percent then 100 else dc_percent in
      (true, Some dc_percent)
  end.

Definition fault_stats_calculate_overall_dc (st : stats_t) : bool * option Z :=
  match fault_stats_calculate_dc FAULT_TYPE_VDD st,
        fault_stats_calculate_dc FAULT_TYPE_CLK st,
        fault_stats_calculate_dc FAULT_TYPE_MEM_ECC st with
  | (true, Some vdd_dc), (true, Some clk_dc), (true, Some mem_dc) =>
    let total_dc := wrap16 (vdd_dc + clk_dc + mem_dc) in
    (true, Some (wrap8 (total_dc / 3)))
  | _, _, _ => (false, None)
  end.

Definition fault_stats_get_total_faults (st : stats_t) : Z :=
  let g := g_fault_stats st in
  wrap32 (wrap32 (vdd_faults_detected g + clk_faults_detected g)
          + mem_faults_detected g).

Definition fault_stats_update_uptime (uptime : Z) (st : stats_t) : bool * stats_t :=
  if g_stats_locked st then (false, st)
  else (true, mk_stats (set_uptime uptime (g_fault_stats st)) false).

(** Returns the C return value and the 16-bit value stored through [fph]. *)
Definition fault_stats_get_fault_rate_per_hour (st : stats_t) : bool * option Z :=
  let total_faults := fault_stats_get_total_faults st in
  let uptime_hours := uptime_ms (g_fault_stats st) / (1000 * 60 * 60) in
  if uptime_hours =? 0 then (true, Some 0)
  else
    (true,
     Some (wrap16 (wrap32 (total_faults * 3600) / uptime_ms (g_fault_stats st)))).

(* ------------------------------------------------------------------ *)
(** ** clk_event_handler.c *)

Record clk_handler_t := mk_clk_handler {
  clk_fault_event_count : Z;
  clk_fault_flag : Z;
  clk_fault_flag_complement : Z;
  clk_loss_timestamp : Z;
  clk_isr_nesting_level : Z
}.

Definition CLK_ISR_MAX_NESTING : Z := 8.
Definition CLK_FAULT_FLAG_NOMINAL : Z := 0x00.
Definition CLK_FAULT_FLAG_NOMINAL_COMPLEMENT : Z := 0xFF.

Definition clk_handler_boot : clk_handler_t :=
  mk_clk_handler 0 0 0xFF 0 0.

Definition clk_set_count (v : Z) (s : clk_handler_t) : clk_handler_t :=
  mk_clk_handler v (clk_fault_flag s) (clk_fault_flag_complement s)
    (clk_loss_timestamp s) (clk_isr_nesting_level s).

Definition clk_set_flag (v : Z) (s : clk_handler_t) : clk_handler_t :=
  mk_clk_handler (clk_fault_event_count s) v (clk_fault_flag_complement s)
    (clk_loss_timestamp s) (clk_isr_nesting_level s).

Definition clk_set_complement (v : Z) (s : clk_handler_t) : clk_handler_t :=
  mk_clk_handler (clk_fault_event_count s) (clk_fault_flag s) v
    (clk_loss_timestamp s) (clk_isr_nesting_level s).

Definition clk_set_timestamp (v : Z) (s : clk_handler_t) : clk_handler_t :=
  mk_clk_handler (clk_fault_event_count s) (clk_fault_flag s)
    (clk_fault_flag_complement s) v (clk_isr_nesting_level s).

Definition clk_set_nesting (v : Z) (s : clk_handler_t) : clk_handler_t :=
  mk_clk_handler (clk_fault_event_count s) (clk_fault_flag s)
    (clk_fault_flag_complement s) (clk_loss_timestamp s) v.

Definition clk_event_handler_init (s : clk_handler_t)
  : safety_result_t * clk_handler_t :=
  let s := clk_set_count 0 s in
  let s := clk_set_timestamp 0 s in
  let s := clk_set_nesting 0 s in
  let s := clk_set_flag CLK_FAULT_FLAG_NOMINAL s in
  let s := clk_set_complement CLK_FAULT_FLAG_NOMINAL_COMPLEMENT s in
  if negb (Z.lxor (clk_fault_flag s) (clk_fault_flag_complement s) =? 0xFF)
  then (SAFETY_ERROR, s)
  else (SAFETY_OK, s).

(** Returns the result code and the boolean stored through
    [out_fault_detected]. *)
Definition clk_event_handler_get_fault_flag (s : clk_handler_t)
  : safety_result_t * option bool :=
  let fault_copy := clk_fault_flag s in
  let complement_copy := clk_fault_flag_complement s in
  if negb (Z.lxor fault_copy complement_copy =? 0xFF) then
    (SAFETY_DCLS_ERROR, Some false)
  else (SAFETY_OK, Some (negb (fault_copy =? 0))).

Definition clk_event_handler_clear_fault (s : clk_handler_t)
  : safety_result_t * clk_handler_t :=
  let s := clk_set_flag CLK_FAULT_FLAG_NOMINAL s in
  let s := clk_set_complement CLK_FAULT_FLAG_NOMINAL_COMPLEMENT s in
  if negb (Z.lxor (clk_fault_flag s) (clk_fault_flag_complement s) =? 0xFF)
  then (SAFETY_ERROR, s)
  else (SAFETY_OK, s).

(** The ISR run from entry to exit without being preempted. *)
Definition clk_event_handler_clk_loss_isr (s : clk_handler_t) : clk_handler_t :=
  let s := clk_set_nesting (wrap8 (clk_isr_nesting_level s + 1)) s in
  if CLK_ISR_MAX_NESTING <? clk_isr_nesting_level s then
    let s := clk_set_flag 0xFF s in
    let s := clk_set_complement 0xFF s in
    clk_set_nesting CLK_ISR_MAX_NESTING s
  else
    let s := clk_set_flag 0x01 s in
    let s := clk_set_complement (not8 (clk_fault_flag s)) s in
    let s :=
      if clk_fault_event_count s <? 0xFFFFFFFF
      then clk_set_count (clk_fault_event_count s + 1) s else s in
    let s := clk_set_timestamp (clk_fault_event_count s) s in
    clk_set_nesting (wrap8 (clk_isr_nesting_level s - 1)) s.

(** The same ISR statement by statement, for nested invocations: the
    statement at program point [pc] is executed, and the next program
    point is returned ([None]: the invocation returns). *)
Definition clk_isr_stmt (pc : nat) (s : clk_handler_t)
  : clk_handler_t * option nat :=
  match pc with
  | 0%nat => (clk_set_nesting (wrap8 (clk_isr_nesting_level s + 1)) s, Some 1%nat)
  | 1%nat =>
    if CLK_ISR_MAX_NESTING <? clk_isr_nesting_level s then
      (clk_set_nesting CLK_ISR_MAX_NESTING
         (clk_set_complement 0xFF (clk_set_flag 0xFF s)), None)
    else (s, Some 2%nat)
  | 2%nat => (clk_set_flag 0x01 s, Some 3%nat)
  | 3%nat => (clk_set_complement (not8 (clk_fault_flag s)) s, Some 4%nat)
  | 4%nat =>
    (if clk_fault_event_count s <? 0xFFFFFFFF
     then clk_set_count (clk_fault_event_count s + 1) s else s, Some 5%nat)
  | 5%nat => (clk_set_timestamp (clk_fault_event_count s) s, Some 6%nat)
  | 6%nat => (clk_set_nesting (wrap8 (clk_isr_nesting_level s - 1)) s, None)
  | _ => (s, None)
  end.

(** Program points at which an invocation has incremented the nesting
    counter and not yet given it back. *)
Definition clk_isr_held (pc : nat) : bool :=
  match pc with
  | 1%nat | 2%nat | 3%nat | 4%nat | 5%nat | 6%nat => true
  | _ => false
  end.

(* ------------------------------------------------------------------ *)
(** ** ecc_handler.c *)

Definition ECC_ISR_NESTING_MAX : Z := 8.

Record mem_fault_state_t := mk_mem_fault_state {
  mem_fault_flag : Z;
  mem_fault_flag_complement : Z;
  mem_isr_nesting_count : Z;
  mem_fault_event_count : Z
}.

Record ecc_handler_state_t := mk_ecc_handler_state {
  handler_enabled : bool;
  total_sbe_events : Z;
  total_mbe_events : Z;
  last_error_type : Z;
  last_error_position : Z;
  last_error_timestamp : Z
}.

Record ecc_t := mk_ecc {
  mem_fault_state : mem_fault_state_t;
  ecc_handler_state : ecc_handler_state_t
}.

Definition mem_set_flag (v : Z) (e : ecc_t) : ecc_t :=
  let m := mem_fault_state e in
  mk_ecc (mk_mem_fault_state v (mem_fault_flag_complement m)
            (mem_isr_nesting_count m) (mem_fault_event_count m))
         (ecc_handler_state e).

Definition mem_set_complement (v : Z) (e : ecc_t) : ecc_t :=
  let m := mem_fault_state e in
  mk_ecc (mk_mem_fault_state (mem_fault_flag m) v
            (mem_isr_nesting_count m) (mem_fault_event_count m))
         (ecc_handler_state e).

Definition mem_set_nesting (v : Z) (e : ecc_t) : ecc_t :=
  let m := mem_fault_state e in
  mk_ecc (mk_mem_fault_state (mem_fault_flag m) (mem_fault_flag_complement m)
            v (mem_fault_event_count m))
         (ecc_handler_state e).

Definition mem_set_count (v : Z) (e : ecc_t) : ecc_t :=
  let m := mem_fault_state e in
  mk_ecc (mk_mem_fault_state (mem_fault_flag m) (mem_fault_flag_complement m)
            (mem_isr_nesting_count m) v)
         (ecc_handler_state e).

Definition ecc_set_timestamp (v : Z) (e : ecc_t) : ecc_t :=
  let h := ecc_handler_state e in
  mk_ecc (mem_fault_state e)
         (mk_ecc_handler_state (handler_enabled h) (total_sbe_events h)
            (total_mbe_events h) (last_error_type h) (last_error_position h) v).

Definition mem_flag (e : ecc_t) : Z := mem_fault_flag (mem_fault_state e).
Definition mem_complement (e : ecc_t) : Z :=
  mem_fault_flag_complement (mem_fault_state e).
Definition mem_nesting (e : ecc_t) : Z :=
  mem_isr_nesting_count (mem_fault_state e).
Definition mem_count (e : ecc_t) : Z :=
  mem_fault_event_count (mem_fault_state e).

Definition ecc_handler_init (e : ecc_t) : bool * ecc_t :=
  (true,
   mk_ecc (mk_mem_fault_state 0x00 0xFF 0 0)
          (mk_ecc_handler_state true 0 0 0 0 0)).

(** The ISR run from entry to exit without being preempted. *)
Definition ecc_fault_isr (e : ecc_t) : ecc_t :=
  if ECC_ISR_NESTING_MAX <=? mem_nesting e then
    let e := mem_set_flag 0xFF e in
    mem_set_complement 0x00 e
  else
    let e := mem_set_nesting (wrap8 (mem_nesting e + 1)) e in
    let e := mem_set_flag 0x01 e in
    let e := mem_set_complement 0xFE e in
    let e := mem_set_count (wrap32 (mem_count e + 1)) e in
    let e := if mem_count e =? 0 then mem_set_count 0xFFFFFFFF e else e in
    let timestamp := 0 in
    let e := ecc_set_timestamp timestamp e in
    mem_set_nesting (wrap8 (mem_nesting e - 1)) e.

(** The same ISR statement by statement. *)
Definition ecc_isr_stmt (pc : nat) (e : ecc_t) : ecc_t * option nat :=
  match pc with
  | 0%nat =>
    if ECC_ISR_NESTING_MAX <=? mem_nesting e then
      (mem_set_complement 0x00 (mem_set_flag 0xFF e), None)
    else (e, Some 1%nat)
  | 1%nat => (mem_set_nesting (wrap8 (mem_nesting e + 1)) e, Some 2%nat)
  | 2%nat => (mem_set_flag 0x01 e, Some 3%nat)
  | 3%nat => (mem_set_complement 0xFE e, Some 4%nat)
  | 4%nat => (mem_set_count (wrap32 (mem_count e + 1)) e, Some 5%nat)
  | 5%nat =>
    (if mem_count e =? 0 then mem_set_count 0xFFFFFFFF e else e, Some 6%nat)
  | 6%nat => (ecc_set_timestamp 0 e, Some 7%nat)
  | 7%nat => (mem_set_nesting (wrap8 (mem_nesting e - 1)) e, None)
  | _ => (e, None)
  end.

Definition ecc_isr_held (pc : nat) : bool :=
  match pc with
  | 2%nat | 3%nat | 4%nat | 5%nat | 6%nat | 7%nat => true
  | _ => false
  end.

Definition ecc_fault_is_active (e : ecc_t) : bool :=
  let check := Z.lxor (mem_flag e) (mem_complement e) in
  if negb (check =? 0xFF) then false
  else negb (mem_flag e =? 0x00).

Definition ecc_fault_clear (e : ecc_t) : bool * ecc_t :=
  if negb (ecc_fault_is_active e) then (false, e)
  else
    let e := mem_set_flag 0x00 e in
    let e := mem_set_complement 0xFF e in
    let check := Z.lxor (mem_flag e) (mem_complement e) in
    (check =? 0xFF, e).

Definition ecc_fault_detect_corruption (e : ecc_t) : bool :=
  let check := Z.lxor (mem_flag e) (mem_complement e) in
  negb (check =? 0xFF).

Definition ecc_fault_get_reentry_count (e : ecc_t) : Z := mem_nesting e.

(* ------------------------------------------------------------------ *)
(** ** Nested interrupt invocations

    A handler is a table of statements ([clk_isr_stmt], [ecc_isr_stmt]).
    The interrupted invocations form a stack of program points; an
    interrupt pushes a new invocation at its entry, and otherwise the
    innermost invocation executes its next statement. *)

Inductive isr_event :=
| Interrupt   (* the handler is entered again, on top of the others *)
| Advance.    (* the innermost invocation executes one statement *)

Section NestedInvocations.
Variable St : Type.
Variable stmt : nat -> St -> St * option nat.

Definition isr_exec1 (e : isr_event) (m : St * list nat) : St * list nat :=
  match e, m with
  | Interrupt, (s, stack) => (s, 0%nat :: stack)
  | Advance, (s, []) => (s, [])
  | Advance, (s, pc :: stack) =>
    match stmt pc s with
    | (s', Some pc') => (s', pc' :: stack)
    | (s', None) => (s', stack)
    end
  end.

Fixpoint isr_exec (evs : list isr_event) (m : St * list nat) : St * list nat :=
  match evs with
  | [] => m
  | e :: evs => isr_exec evs (isr_exec1 e m)
  end.

(** No more than [d] invocations are ever live during the run. *)
Fixpoint depth_within (d : nat) (evs : list isr_event) (m : St * list nat)
  : bool :=
  (length (snd m) <=? d)%nat &&
  match evs with
  | [] => true
  | e :: evs => depth_within d evs (isr_exec1 e m)
  end.

(** One invocation run to its return, given enough fuel. *)
Fixpoint isr_run (fuel : nat) (pc : nat) (s : St) : option St :=
  match fuel with
  | O => None
  | S fuel =>
    match stmt pc s with
    | (s', Some pc') => isr_run fuel pc' s'
    | (s', None) => Some s'
    end
  end.
End NestedInvocations.

Arguments isr_exec1 {St} stmt e m.
Arguments isr_exec {St} stmt evs m.
Arguments depth_within {St} stmt d evs m.
Arguments isr_run {St} stmt fuel pc s.

(* ------------------------------------------------------------------ *)
(** ** clk_monitor_service.c *)

Definition CLK_SERVICE_STATE_IDLE : Z := 0x00.
Definition CLK_SERVICE_STATE_FAULT_ACTIVE : Z := 0x01.
Definition CLK_SERVICE_STATE_RECOVERY_PENDING : Z := 0x02.
Definition CLK_SERVICE_STATE_RECOVERY_CONFIRMED : Z := 0x03.

(** [clk_service_config]. *)
Definition recovery_timeout_ticks : Z := 10.
Definition stability_check_duration : Z := 5.

Record clk_service_t := mk_clk_service {
  clk_service_state : Z;
  clk_recovery_timeout_counter : Z;
  clk_stability_counter : Z;
  clk_recovery_attempts : Z;
  tick_count : Z   (* the function-local [static] of [clk_service_task] *)
}.

Definition clk_service_boot : clk_service_t := mk_clk_service 0 0 0 0 0.

Definition svc_set_state (v : Z) (s : clk_service_t) : clk_service_t :=
  mk_clk_service v (clk_recovery_timeout_counter s) (clk_stability_counter s)
    (clk_recovery_attempts s) (tick_count s).

Definition svc_set_timeout (v : Z) (s : clk_service_t) : clk_service_t :=
  mk_clk_service (clk_service_state s) v (clk_stability_counter s)
    (clk_recovery_attempts s) (tick_count s).

Definition svc_set_stability (v : Z) (s : clk_service_t) : clk_service_t :=
  mk_clk_service (clk_service_state s) (clk_recovery_timeout_counter s) v
    (clk_recovery_attempts s) (tick_count s).

Definition svc_set_attempts (v : Z) (s : clk_service_t) : clk_service_t :=
  mk_clk_service (clk_service_state s) (clk_recovery_timeout_counter s)
    (clk_stability_counter s) v (tick_count s).

Definition svc_set_tick (v : Z) (s : clk_service_t) : clk_service_t :=
  mk_clk_service (clk_service_state s) (clk_recovery_timeout_counter s)
    (clk_stability_counter s) (clk_recovery_attempts s) v.

Definition clk_service_init (s : clk_service_t) : safety_result_t * clk_service_t :=
  let s := svc_set_state CLK_SERVICE_STATE_IDLE s in
  let s := svc_set_timeout 0 s in
  let s := svc_set_stability 0 s in
  let s := svc_set_attempts 0 s in
  (SAFETY_OK, s).

Definition clk_service_handle_fault (s : clk_service_t)
  : safety_result_t * clk_service_t :=
  if negb (clk_service_state s =? CLK_SERVICE_STATE_IDLE) then (SAFETY_OK, s)
  else
    let s := svc_set_state CLK_SERVICE_STATE_FAULT_ACTIVE s in
    let s := svc_set_timeout 0 s in
    let s := svc_set_stability 0 s in
    let s := svc_set_attempts (wrap32 (clk_recovery_attempts s + 1)) s in
    (SAFETY_OK, s).

Definition clk_service_request_recovery (s : clk_service_t)
  : safety_result_t * clk_service_t :=
  if clk_service_state s =? CLK_SERVICE_STATE_IDLE then (SAFETY_OK, s)
  else if clk_service_state s =? CLK_SERVICE_STATE_RECOVERY_CONFIRMED then
    (SAFETY_OK, svc_set_state CLK_SERVICE_STATE_IDLE s)
  else if (clk_service_state s =? CLK_SERVICE_STATE_RECOVERY_PENDING)
          || (clk_service_state s =? CLK_SERVICE_STATE_FAULT_ACTIVE) then
    (SAFETY_PENDING, s)
  else (SAFETY_ERROR, s).

Definition clk_service_get_state (s : clk_service_t) : Z := clk_service_state s.

(** The [switch (clk_service_state)] of [clk_service_task], given the
    value of [clk_fault_asserted] for this tick. *)
Definition clk_service_switch (clk_fault_asserted : bool) (s : clk_service_t)
  : clk_service_t :=
  if clk_service_state s =? CLK_SERVICE_STATE_IDLE then
    if clk_fault_asserted then
      let s := svc_set_state CLK_SERVICE_STATE_FAULT_ACTIVE s in
      let s := svc_set_timeout 0 s in
      svc_set_stability 0 s
    else s
  else if clk_service_state s =? CLK_SERVICE_STATE_FAULT_ACTIVE then
    let s := svc_set_timeout (wrap32 (clk_recovery_timeout_counter s + 1)) s in
    if recovery_timeout_ticks <=? clk_recovery_timeout_counter s then
      let s := svc_set_state CLK_SERVICE_STATE_IDLE s in
      svc_set_timeout 0 s
    else if negb clk_fault_asserted then
      let s := svc_set_state CLK_SERVICE_STATE_RECOVERY_PENDING s in
      svc_set_stability 0 s
    else s
  else if clk_service_state s =? CLK_SERVICE_STATE_RECOVERY_PENDING then
    if clk_fault_asserted then
      let s := svc_set_state CLK_SERVICE_STATE_FAULT_ACTIVE s in
      let s := svc_set_timeout 0 s in
      svc_set_stability 0 s
    else
      let s := svc_set_stability (wrap32 (clk_stability_counter s + 1)) s in
      if stability_check_duration <=? clk_stability_counter s then
        svc_set_state CLK_SERVICE_STATE_RECOVERY_CONFIRMED s
      else s
  else if clk_service_state s =? CLK_SERVICE_STATE_RECOVERY_CONFIRMED then
    if clk_fault_asserted then
      let s := svc_set_state CLK_SERVICE_STATE_FAULT_ACTIVE s in
      let s := svc_set_timeout 0 s in
      svc_set_stability 0 s
    else s
  else svc_set_state CLK_SERVICE_STATE_IDLE s.

(** [clk_service_task] as it is written: the hardware read is a
    placeholder that reports the fault for the first five calls. *)
Definition clk_service_task (s : clk_service_t) : clk_service_t :=
  let s := svc_set_tick (wrap32 (tick_count s + 1)) s in
  let clk_fault_asserted := if 5 <? tick_count s then false else true in
  clk_service_switch clk_fault_asserted s.

(** [clk_service_task] with the placeholder replaced by the value [hw]
    read from the clock watchdog, as its comment asks for. *)
Definition clk_service_task_hw (hw : bool) (s : clk_service_t) : clk_service_t :=
  let s := svc_set_tick (wrap32 (tick_count s + 1)) s in
  clk_service_switch hw s.

(* ------------------------------------------------------------------ *)
(** ** The firmware image: the translation units side by side *)




(** Task-context operations of the safety FSM, for sequences of calls. *)
Inductive fsm_op :=
| OpInit
| OpTransition (next_state : Z)
| OpAggregate
| OpClear (faults_to_clear : Z).

Definition fsm_apply (op : fsm_op) (s : fsm_t) : fsm_t :=
  match op with
  | OpInit => snd (fsm_init s)
  | OpTransition n => snd (fsm_transition n s)
  | OpAggregate => snd (fsm_aggregate_faults s)
  | OpClear m => snd (fsm_clear_faults m s)
  end.

Fixpoint fsm_run (ops : list fsm_op) (s : fsm_t) : fsm_t :=
  match ops with
  | [] => s
  | op :: ops => fsm_run ops (fsm_apply op s)
  end.

(** The set of asserted sources encoded by the three flag bytes. *)
Definition flags_or (f : fault_flags_t) : Z :=
  Z.lor (Z.lor (if truthy (pwr_fault f) then FAULT_TYPE_VDD else 0)
               (if truthy (clk_fault f) then FAULT_TYPE_CLK else 0))
        (if truthy (mem_fault f) then FAULT_TYPE_MEM_ECC else 0).

(** A dual-rail byte is well formed. *)
Definition drb_ok (v c : Z) : Prop := Z.lxor v c = 0xFF.

(** The latched encoding of INVALID in the status word. *)
Definition invalid_latched (s : fsm_t) : Prop :=
  g_fsm_initialized s = true /\
  current_state (g_safety_status s) = SAFETY_STATE_INVALID /\
  current_state_cmp (g_safety_status s) = not8 SAFETY_STATE_INVALID.

(** Number of live invocations that hold a unit of the nesting counter. *)
Fixpoint held_count (held : nat -> bool) (stack : list nat) : Z :=
  match stack with
  | [] => 0
  | pc :: stack => Z.b2z (held pc) + held_count held stack
  end.

(** [n] nested entries of a handler, each preempted after it has
    executed [k] statements. *)
Fixpoint nested_entries (k : nat) (n : nat) : list isr_event :=
  match n with
  | O => []
  | S n => Interrupt :: repeat Advance k ++ nested_entries k n
  end.

(* ------------------------------------------------------------------ *)
(** ** fault_aggregator.c, continued *)

Definition set_priorities (v c m : Z) (a : aggregator_t) : aggregator_t :=
  mk_aggregator (g_aggregator_busy a) v c m
    (g_last_aggregation_ms a) (g_aggregation_attempts a).

Definition fault_set_priorities (vdd_priority clk_priority mem_priority : Z)
    (a : aggregator_t) : bool * aggregator_t :=
  if (vdd_priority <? 1) || (3 <? vdd_priority) ||
     (clk_priority <? 1) || (3 <? clk_priority) ||
     (mem_priority <? 1) || (3 <? mem_priority) then (false, a)
  else if g_aggregator_busy a then (false, a)
  else (true, set_priorities vdd_priority clk_priority mem_priority a).

(** Returns the C return value and the three bytes stored through the
    output pointers. *)
Definition fault_get_priorities (a : aggregator_t) : bool * option (Z * Z * Z) :=
  (true, Some (vdd_priority a, clk_priority a, mem_priority a)).

Definition fault_get_aggregation_count (a : aggregator_t) : Z :=
  g_aggregation_attempts a.

(* ------------------------------------------------------------------ *)
(** ** fault_statistics.c, continued *)

Definition fault_stats_get_recovery_success_rate (st : stats_t)
  : bool * option Z :=
  let g := g_fault_stats st in
  let total_attempts := wrap32 (recovery_successes g + recovery_failures g) in
  if total_attempts =? 0 then (true, Some 0)
  else
    let success_rate :=
      wrap8 (wrap32 (recovery_successes g * 100) / total_attempts) in
    let success_rate := if 100 <? success_rate then 100 else success_rate in
    (true, Some success_rate).

Definition fault_stats_reset (st : stats_t) : bool * stats_t :=
  if g_stats_locked st then (false, st)
  else (true, mk_stats (mk_fault_statistics 0 0 0 0 0 0 0 0 0 0) false).

(* ------------------------------------------------------------------ *)
(** ** ecc_handler.c, continued *)

Definition ecc_fault_get_event_count (e : ecc_t) : Z := mem_count e.

Definition ecc_fault_get_sbe_count (e : ecc_t) : Z :=
  total_sbe_events (ecc_handler_state e).

Definition ecc_fault_get_mbe_count (e : ecc_t) : Z :=
  total_mbe_events (ecc_handler_state e).

Definition ecc_fault_get_last_error_type (e : ecc_t) : Z :=
  last_error_type (ecc_handler_state e).

Definition ecc_fault_record_sbe (e : ecc_t) : bool * ecc_t :=
  let h := ecc_handler_state e in
  let sbe :=
    if total_sbe_events h <? 0xFFFF then total_sbe_events h + 1
    else total_sbe_events h in
  (true,
   mk_ecc (mem_fault_state e)
     (mk_ecc_handler_state (handler_enabled h) sbe (total_mbe_events h)
        1 (last_error_position h) (last_error_timestamp h))).

Definition ecc_fault_record_mbe (e : ecc_t) : bool * ecc_t :=
  let h := ecc_handler_state e in
  let mbe :=
    if total_mbe_events h <? 0xFFFF then total_mbe_events h + 1
    else total_mbe_events h in
  (true,
   mk_ecc (mem_fault_state e)
     (mk_ecc_handler_state (handler_enabled h) (total_sbe_events h) mbe
        2 (last_error_position h) (last_error_timestamp h))).

Definition ecc_handler_is_enabled (e : ecc_t) : bool :=
  handler_enabled (ecc_handler_state e).

Definition ecc_handler_set_enable (enable : bool) (e : ecc_t) : ecc_t :=
  let h := ecc_handler_state e in
  mk_ecc (mem_fault_state e)
    (mk_ecc_handler_state enable (total_sbe_events h) (total_mbe_events h)
       (last_error_type h) (last_error_position h) (last_error_timestamp h)).

(* ------------------------------------------------------------------ *)
(** ** clk_monitor_service.c, continued *)

Definition clk_service_get_recovery_attempts (s : clk_service_t) : Z :=
  clk_recovery_attempts s.

Definition clk_service_reset_statistics (s : clk_service_t)
  : safety_result_t * clk_service_t :=
  (SAFETY_OK, svc_set_attempts 0 s).

(** Calls into the clock recovery service, for sequences of calls; a
    tick carries the value read from the clock watchdog. *)
Inductive clk_service_op :=
| SvcInit
| SvcHandleFault
| SvcRequestRecovery
| SvcResetStatistics
| SvcTick (hw : bool).

Definition clk_service_apply (op : clk_service_op) (s : clk_service_t)
  : clk_service_t :=
  match op with
  | SvcInit => snd (clk_service_init s)
  | SvcHandleFault => snd (clk_service_handle_fault s)
  | SvcRequestRecovery => snd (clk_service_request_recovery s)
  | SvcResetStatistics => snd (clk_service_reset_statistics s)
  | SvcTick hw => clk_service_task_hw hw s
  end.

Fixpoint clk_service_run (ops : list clk_service_op) (s : clk_service_t)
  : clk_service_t :=
  match ops with
  | [] => s
  | op :: ops => clk_service_run ops (clk_service_apply op s)
  end.

(** The bounds the service keeps on its state word and its counters. *)
Definition clk_service_bounded (s : clk_service_t) : Prop :=
  (clk_service_state s = CLK_SERVICE_STATE_IDLE \/
   clk_service_state s = CLK_SERVICE_STATE_FAULT_ACTIVE \/
   clk_service_state s = CLK_SERVICE_STATE_RECOVERY_PENDING \/
   clk_service_state s = CLK_SERVICE_STATE_RECOVERY_CONFIRMED) /\
  0 <= clk_recovery_timeout_counter s < recovery_timeout_ticks /\
  0 <= clk_stability_counter s <= stability_check_duration /\
  (clk_service_state s = CLK_SERVICE_STATE_RECOVERY_PENDING ->
   clk_stability_counter s < stability_check_duration).

(* ------------------------------------------------------------------ *)
(** ** interrupt_handler.c *)

(** A C array of three elements, one per fault source. *)
Record array3 := mk_array3 { elt0 : Z; elt1 : Z; elt2 : Z }.

Definition array3_get (i : nat) (a : array3) : Z :=
  match i with
  | 0%nat => elt0 a
  | 1%nat => elt1 a
  | _ => elt2 a
  end.

Definition array3_set (i : nat) (v : Z) (a : array3) : array3 :=
  match i with
  | 0%nat => mk_array3 v (elt1 a) (elt2 a)
  | 1%nat => mk_array3 (elt0 a) v (elt2 a)
  | _ => mk_array3 (elt0 a) (elt1 a) v
  end.

Record isr_state_t := mk_isr_state {
  g_isr_call_counts : array3;
  g_isr_last_timestamp : array3;
  g_isr_nesting_level : array3
}.

Definition isr_boot : isr_state_t :=
  mk_isr_state (mk_array3 0 0 0) (mk_array3 0 0 0) (mk_array3 0 0 0).

(** The common body of [vdd_isr_handler], [clk_isr_handler] and
    [mem_isr_handler], which differ in the array index [k] only.  The
    inline assembly loads a constant into R0 and stores nothing.  [None]
    stands for the hard halt [while (1) { }]. *)
Definition fault_isr_handler (k : nat) (s : isr_state_t) : option isr_state_t :=
  let nesting :=
    array3_set k (wrap8 (array3_get k (g_isr_nesting_level s) + 1))
      (g_isr_nesting_level s) in
  if 2 <? array3_get k nesting then None
  else
    let counts :=
      array3_set k (wrap32 (array3_get k (g_isr_call_counts s) + 1))
        (g_isr_call_counts s) in
    let stamps := array3_set k 0 (g_isr_last_timestamp s) in
    let nesting := array3_set k (wrap8 (array3_get k nesting - 1)) nesting in
    Some (mk_isr_state counts stamps nesting).

Definition vdd_isr_handler : isr_state_t -> option isr_state_t :=
  fault_isr_handler 0.
Definition clk_isr_handler : isr_state_t -> option isr_state_t :=
  fault_isr_handler 1.
Definition mem_isr_handler : isr_state_t -> option isr_state_t :=
  fault_isr_handler 2.

(** [fsm_init], one run of [vdd_isr_handler] and one run of
    [fsm_aggregate_faults], in this order.  The handler works on the
    arrays of its own unit; the status word of [safety_fsm.c] is not in
    its reach and goes from the initialisation to the aggregation as it
    is.  [None]: the handler did not return. *)
Definition init_vdd_isr_aggregate (s : fsm_t) (i : isr_state_t)
    : option (bool * fsm_t * isr_state_t) :=
  let s1 := snd (fsm_init s) in
  match vdd_isr_handler i with
  | Some i' => Some (fsm_aggregate_faults s1, i')
  | None => None
  end.

Definition interrupt_handler_init (s : isr_state_t) : bool * isr_state_t :=
  (true,
   mk_isr_state (mk_array3 0 0 0) (g_isr_last_timestamp s) (mk_array3 0 0 0)).

Definition interrupt_handler_get_call_count (isr_number : Z) (s : isr_state_t) : Z :=
  if isr_number <? 3 then array3_get (Z.to_nat isr_number) (g_isr_call_counts s)
  else 0.

Definition interrupt_handler_check_health (s : isr_state_t) : bool :=
  (elt0 (g_isr_nesting_level s) <=? 1) &&
  (elt1 (g_isr_nesting_level s) <=? 1) &&
  (elt2 (g_isr_nesting_level s) <=? 1).

Definition interrupt_handler_disable_all (s : isr_state_t) : bool * isr_state_t :=
  (true, s).

Definition interrupt_handler_enable_all (s : isr_state_t) : bool * isr_state_t :=
  (true,
   mk_isr_state (g_isr_call_counts s) (g_isr_last_timestamp s)
     (mk_array3 0 0 0)).

Definition interrupt_handler_set_priority (isr_number priority : Z) : bool :=
  if (3 <=? isr_number) || (7 <? priority) then false else true.

(** [n] runs of one handler, each from entry to exit. *)
Fixpoint fault_isr_runs (k : nat) (n : nat) (s : isr_state_t)
  : option isr_state_t :=
  match n with
  | O => Some s
  | S n =>
    match fault_isr_handler k s with
    | Some s' => fault_isr_runs k n s'
    | None => None
    end
  end.

(* ------------------------------------------------------------------ *)
(** ** power_api.c

    The memory-mapped registers are fields of the unit's record:
    [POWER_STATUS_REG] is driven by the hardware and only read here,
    [POWER_MODE_REG] and [POWER_CONTROL_REG] hold what was last
    written. *)

Definition POWER_STATUS_OK : Z := 1.
Definition POWER_STATUS_VDD_LOW : Z := 2.
Definition POWER_STATUS_BROWNOUT : Z := 4.

Definition POWER_MODE_NORMAL : Z := 0x00.
Definition POWER_MODE_SAFE_STATE : Z := 0x01.
Definition POWER_MODE_SHUTDOWN : Z := 0xFF.

Record power_t := mk_power {
  g_power_module_initialized : bool;
  power_mode : Z;
  power_mode_cmp : Z;
  vdd_voltage_mv : Z;
  status_flags : Z;
  last_error : Z;
  POWER_STATUS_REG : Z;
  POWER_CONTROL_REG : Z;
  POWER_MODE_REG : Z
}.

Definition power_boot (status control mode : Z) : power_t :=
  mk_power false POWER_MODE_NORMAL (not8 POWER_MODE_NORMAL) 3300
    POWER_STATUS_OK 0 status control mode.

Definition power_init (p : power_t) : bool * power_t :=
  if g_power_module_initialized p then (false, p)
  else
    let status := POWER_STATUS_REG p in
    if negb (Z.land status POWER_STATUS_VDD_LOW =? 0) then (false, p)
    else
      (true,
       mk_power true POWER_MODE_NORMAL (not8 POWER_MODE_NORMAL) 3300
         POWER_STATUS_OK 0
         (POWER_STATUS_REG p) (POWER_CONTROL_REG p) (POWER_MODE_REG p)).

(** Returns the C return value and the pair stored through [mode] and
    [voltage_mv]. *)
Definition power_get_status (p : power_t) : bool * option (Z * Z) :=
  if negb (g_power_module_initialized p) then (false, None)
  else if negb (Z.lxor (power_mode p) (power_mode_cmp p) =? 0xFF) then
    (false, Some (0xFF, 0))
  else (true, Some (power_mode p, vdd_voltage_mv p)).

Definition power_enter_safe_state (p : power_t) : bool * power_t :=
  if negb (g_power_module_initialized p) then (false, p)
  else if negb (Z.lxor (power_mode p) (power_mode_cmp p) =? 0xFF) then
    (false, p)
  else
    (true,
     mk_power (g_power_module_initialized p)
       POWER_MODE_SAFE_STATE (not8 POWER_MODE_SAFE_STATE)
       (vdd_voltage_mv p) (status_flags p) (last_error p)
       (POWER_STATUS_REG p) (POWER_CONTROL_REG p) POWER_MODE_SAFE_STATE).

Definition power_request_recovery (p : power_t) : bool * power_t :=
  if negb (g_power_module_initialized p) then (false, p)
  else
    match power_get_status p with
    | (true, Some (current_mode, _)) =>
      if negb (current_mode =? POWER_MODE_SAFE_STATE) then (false, p)
      else
        (true,
         mk_power (g_power_module_initialized p)
           (power_mode p) (power_mode_cmp p)
           (vdd_voltage_mv p) (status_flags p) (last_error p)
           (POWER_STATUS_REG p)
           (wrap32 (Z.lor (POWER_CONTROL_REG p) (Z.shiftl 1 3)))
           (POWER_MODE_REG p))
    | _ => (false, p)
    end.

Definition power_get_last_error (p : power_t) : Z := last_error p.

Definition power_is_within_safe_range (p : power_t) : bool :=
  let MIN_SAFE_VDD := 2700 in
  let MAX_SAFE_VDD := 3600 in
  (MIN_SAFE_VDD <=? vdd_voltage_mv p) && (vdd_voltage_mv p <=? MAX_SAFE_VDD).

Definition power_update_voltage (voltage_mv : Z) (p : power_t) : bool * power_t :=
  if negb (g_power_module_initialized p) then (false, p)
  else
    let flags :=
      if voltage_mv <? 2700 then
        wrap8 (Z.lor (status_flags p) POWER_STATUS_VDD_LOW)
      else if 2900 <=? voltage_mv then
        wrap8 (Z.land (status_flags p) (Z.lnot POWER_STATUS_VDD_LOW))
      else status_flags p in
    (true,
     mk_power (g_power_module_initialized p)
       (power_mode p) (power_mode_cmp p) voltage_mv flags (last_error p)
       (POWER_STATUS_REG p) (POWER_CONTROL_REG p) (POWER_MODE_REG p)).

Definition power_write_enabled (p : power_t) : bool :=
  match power_get_status p with
  | (true, Some (mode, _)) => mode =? POWER_MODE_NORMAL
  | _ => false
  end.

Definition power_reset (p : power_t) : bool * power_t :=
  power_init
    (mk_power false (power_mode p) (power_mode_cmp p) (vdd_voltage_mv p)
       (status_flags p) (last_error p)
       (POWER_STATUS_REG p) (POWER_CONTROL_REG p) (POWER_MODE_REG p)).

(** Calls into the power API other than [power_init] and [power_reset]. *)
Inductive power_op :=
| PwrGetStatus
| PwrEnterSafeState
| PwrRequestRecovery
| PwrUpdateVoltage (voltage_mv : Z).

Definition power_apply (op : power_op) (p : power_t) : power_t :=
  match op with
  | PwrGetStatus => p
  | PwrEnterSafeState => snd (power_enter_safe_state p)
  | PwrRequestRecovery => snd (power_request_recovery p)
  | PwrUpdateVoltage v => snd (power_update_voltage v p)
  end.

Fixpoint power_run (ops : list power_op) (p : power_t) : power_t :=
  match ops with
  | [] => p
  | op :: ops => power_run ops (power_apply op p)
  end.

(* ------------------------------------------------------------------ *)
(** ** ecc_service.c

    [ECC_CTRL] holds what was last written to the control register; the
    counter and status registers are driven by the hardware and only
    read.  The field [ecc_state.ecc_enable] is named [ecc_enable_state]
    here, the name [ecc_enable] being the function's. *)

Module EccService.

Definition ECC_CTRL_ENABLE : Z := 0x01.
Definition ECC_CTRL_SBE_IRQ_EN : Z := 0x02.
Definition ECC_CTRL_MBE_IRQ_EN : Z := 0x04.
Definition ECC_CTRL_SBE_THRESH_MASK : Z := 0xF8.
Definition ECC_CTRL_SBE_THRESH_SHIFT : Z := 3.

Record ecc_service_state_t := mk_ecc_service_state {
  initialized : bool;
  ecc_enable_state : Z;
  sbe_threshold : Z;
  sbe_error_count : Z;
  mbe_error_count : Z
}.

Record ecc_unit_t := mk_ecc_unit {
  ecc_state : ecc_service_state_t;
  ECC_CTRL : Z;
  ECC_SBE_COUNT : Z;
  ECC_MBE_COUNT : Z;
  ECC_ERR_STATUS : Z
}.

Record ecc_status_t := mk_ecc_status {
  sbe_count : Z;
  mbe_count : Z;
  last_error_type : Z;
  last_error_pos : Z;
  ecc_enabled : bool
}.

Definition ecc_boot (sbe mbe err : Z) : ecc_unit_t :=
  mk_ecc_unit (mk_ecc_service_state false 0 0 0 0) 0 sbe mbe err.

Definition with_ecc_state (st : ecc_service_state_t) (ctrl : Z) (u : ecc_unit_t)
  : ecc_unit_t :=
  mk_ecc_unit st ctrl (ECC_SBE_COUNT u) (ECC_MBE_COUNT u) (ECC_ERR_STATUS u).

Definition ecc_init (u : ecc_unit_t) : bool * ecc_unit_t :=
  if initialized (ecc_state u) then (false, u)
  else
    let ctrl_val :=
      Z.lor (Z.lor (Z.lor ECC_CTRL_ENABLE ECC_CTRL_SBE_IRQ_EN)
                   ECC_CTRL_MBE_IRQ_EN)
            (Z.shiftl 10 ECC_CTRL_SBE_THRESH_SHIFT) in
    (true, with_ecc_state (mk_ecc_service_state true 1 10 0 0) ctrl_val u).

Definition ecc_configure (enable sbe_threshold sbe_irq_en mbe_irq_en : Z)
    (u : ecc_unit_t) : bool * ecc_unit_t :=
  if negb (initialized (ecc_state u)) then (false, u)
  else if 31 <? sbe_threshold then (false, u)
  else
    let ctrl_val := 0 in
    let ctrl_val :=
      if truthy enable then Z.lor ctrl_val ECC_CTRL_ENABLE else ctrl_val in
    let ctrl_val :=
      if truthy sbe_irq_en then Z.lor ctrl_val ECC_CTRL_SBE_IRQ_EN
      else ctrl_val in
    let ctrl_val :=
      if truthy mbe_irq_en then Z.lor ctrl_val ECC_CTRL_MBE_IRQ_EN
      else ctrl_val in
    let ctrl_val :=
      Z.lor ctrl_val (Z.shiftl sbe_threshold ECC_CTRL_SBE_THRESH_SHIFT) in
    let st := ecc_state u in
    (true,
     with_ecc_state
       (mk_ecc_service_state (initialized st) enable sbe_threshold
          (sbe_error_count st) (mbe_error_count st))
       ctrl_val u).

(** Returns the C return value and the structure stored through
    [status]. *)
Definition ecc_get_status (u : ecc_unit_t) : bool * option ecc_status_t :=
  if negb (initialized (ecc_state u)) then (false, None)
  else
    let err_status := ECC_ERR_STATUS u in
    (true,
     Some (mk_ecc_status
             (wrap16 (Z.land (ECC_SBE_COUNT u) 0xFFFF))
             (wrap16 (Z.land (ECC_MBE_COUNT u) 0xFFFF))
             (wrap8 (Z.land err_status 0x03))
             (wrap8 (Z.land (Z.shiftr err_status 8) 0x7F))
             (truthy (ecc_enable_state (ecc_state u))))).

Definition ecc_clear_counters (u : ecc_unit_t) : bool * ecc_unit_t :=
  if negb (initialized (ecc_state u)) then (false, u)
  else
    let st := ecc_state u in
    (true,
     with_ecc_state
       (mk_ecc_service_state (initialized st) (ecc_enable_state st)
          (sbe_threshold st) 0 0)
       (ECC_CTRL u) u).

Definition ecc_enable (u : ecc_unit_t) : bool * ecc_unit_t :=
  ecc_configure 1 (sbe_threshold (ecc_state u)) 1 1 u.

Definition ecc_disable (u : ecc_unit_t) : bool * ecc_unit_t :=
  ecc_configure 0 0 0 0 u.

Definition ecc_is_enabled (u : ecc_unit_t) : bool :=
  truthy (ecc_enable_state (ecc_state u)).

Definition ecc_set_sbe_threshold (threshold : Z) (u : ecc_unit_t)
  : bool * ecc_unit_t :=
  if 31 <? threshold then (false, u)
  else ecc_configure (ecc_enable_state (ecc_state u)) threshold 1 1 u.

Definition ecc_get_sbe_count (u : ecc_unit_t) : Z :=
  if negb (initialized (ecc_state u)) then 0
  else wrap16 (Z.land (ECC_SBE_COUNT u) 0xFFFF).

Definition ecc_get_mbe_count (u : ecc_unit_t) : Z :=
  if negb (initialized (ecc_state u)) then 0
  else wrap16 (Z.land (ECC_MBE_COUNT u) 0xFFFF).

Definition ecc_validate_config (u : ecc_unit_t) : bool :=
  if negb (initialized (ecc_state u)) then false
  else
    let sbe_count := ecc_get_sbe_count u in
    let mbe_count := ecc_get_mbe_count u in
    let MAX_COUNT := 0xFFFF in
    if (sbe_count =? MAX_COUNT) || (mbe_count =? MAX_COUNT) then false
    else if 31 <? sbe_threshold (ecc_state u) then false
    else true.

(** Calls that write the service, for sequences of calls; the arguments
    are bytes. *)
Inductive ecc_op :=
| EccInit
| EccConfigure (enable sbe_threshold sbe_irq_en mbe_irq_en : Z)
| EccClearCounters
| EccEnable
| EccDisable
| EccSetSbeThreshold (threshold : Z).

Definition ecc_apply (op : ecc_op) (u : ecc_unit_t) : ecc_unit_t :=
  match op with
  | EccInit => snd (ecc_init u)
  | EccConfigure e t s m => snd (ecc_configure e t s m u)
  | EccClearCounters => snd (ecc_clear_counters u)
  | EccEnable => snd (ecc_enable u)
  | EccDisable => snd (ecc_disable u)
  | EccSetSbeThreshold t => snd (ecc_set_sbe_threshold t u)
  end.

Fixpoint ecc_run (ops : list ecc_op) (u : ecc_unit_t) : ecc_unit_t :=
  match ops with
  | [] => u
  | op :: ops => ecc_run ops (ecc_apply op u)
  end.

(** The control register agrees with the shadow state. *)
Definition ecc_coherent (u : ecc_unit_t) : Prop :=
  0 <= sbe_threshold (ecc_state u) <= 31 /\
  Z.shiftr (Z.land (ECC_CTRL u) ECC_CTRL_SBE_THRESH_MASK)
           ECC_CTRL_SBE_THRESH_SHIFT = sbe_threshold (ecc_state u) /\
  truthy (Z.land (ECC_CTRL u) ECC_CTRL_ENABLE)
    = truthy (ecc_enable_state (ecc_state u)) /\
  0 <= ECC_CTRL u < 256.

End EccService.

(* ------------------------------------------------------------------ *)
(** ** Runs of the per-source ISRs and of the aggregation *)

Fixpoint clk_isr_runs (n : nat) (s : clk_handler_t) : clk_handler_t :=
  match n with
  | O => s
  | S n => clk_isr_runs n (clk_event_handler_clk_loss_isr s)
  end.

Fixpoint ecc_isr_runs (n : nat) (e : ecc_t) : ecc_t :=
  match n with
  | O => e
  | S n => ecc_isr_runs n (ecc_fault_isr e)
  end.

Fixpoint ecc_record_sbe_runs (n : nat) (e : ecc_t) : ecc_t :=
  match n with
  | O => e
  | S n => ecc_record_sbe_runs n (snd (ecc_fault_record_sbe e))
  end.

Fixpoint fsm_aggregate_runs (n : nat) (s : fsm_t) : fsm_t :=
  match n with
  | O => s
  | S n => fsm_aggregate_runs n (snd (fsm_aggregate_faults s))
  end.

(** All five dual-rail bytes of the status word are well formed. *)
Definition status_drb_ok (s : fsm_t) : Prop :=
  let g := g_safety_status s in
  let f := fault_flags g in
  drb_ok (current_state g) (current_state_cmp g) /\
  drb_ok (active_faults g) (active_faults_cmp g) /\
  drb_ok (pwr_fault f) (pwr_fault_cmp f) /\
  drb_ok (clk_fault f) (clk_fault_cmp f) /\
  drb_ok (mem_fault f) (mem_fault_cmp f).

(** The three well-formed flag pairs alone. *)
Definition flags_drb_ok (f : fault_flags_t) : Prop :=
  drb_ok (pwr_fault f) (pwr_fault_cmp f) /\
  drb_ok (clk_fault f) (clk_fault_cmp f) /\
  drb_ok (mem_fault f) (mem_fault_cmp f).

(** The status word as [fsm_aggregate_faults] leaves it before its
    closing transition: the aggregated set stored with its complement,
    and the fault counter advanced when the set is not empty. *)
Definition aggregated_status (s : fsm_t) : fsm_t :=
  let g := g_safety_status s in
  let a := flags_or (fault_flags g) in
  with_status
    (set_fault_count
       (if a =? 0 then fault_count g else wrap16 (fault_count g + 1))
       (set_active a (not8 a) g)) s.

(** The flags as [fsm_clear_faults] leaves them. *)
Definition cleared_flags (faults_to_clear : Z) (f : fault_flags_t) : fault_flags_t :=
  let f :=
    if truthy (Z.land faults_to_clear FAULT_TYPE_VDD)
    then set_pwr 0x00 0xFF f else f in
  let f :=
    if truthy (Z.land faults_to_clear FAULT_TYPE_CLK)
    then set_clk 0x00 0xFF f else f in
  if truthy (Z.land faults_to_clear FAULT_TYPE_MEM_ECC)
  then set_mem 0x00 0xFF f else f.

(** A value of an 8-bit C type. *)
Definition byte (x : Z) : Prop := 0 <= x < 256.

Definition ecc_op_bytes (op : EccService.ecc_op) : Prop :=
  match op with
  | EccService.EccConfigure e t s m => byte e /\ byte t /\ byte s /\ byte m
  | EccService.EccSetSbeThreshold t => byte t
  | _ => True
  end.

(** A fault set given by its three members. *)
Definition fault_bits (vdd clk mem : bool) : Z :=
  Z.lor (Z.lor (if vdd then FAULT_TYPE_VDD else 0)
               (if clk then FAULT_TYPE_CLK else 0))
        (if mem then FAULT_TYPE_MEM_ECC else 0).

(** The value stored through an output pointer, 0 when nothing was. *)
Definition out_value (r : bool * option Z) : Z :=
  match snd r with
  | Some v => v
  | None => 0
  end.

(* ================================================================== *)
(** * Properties *)

(** ** Bytes and dual-rail pairs *)

Lemma forall_byte (p : Z -> bool) :
  forallb p (map Z.of_nat (seq 0 256)) = true ->
  forall v, 0 <= v < 256 -> p v = true.
Proof.
  intros H v Hv.
  rewrite forallb_forall in H. apply H.
  replace v with (Z.of_nat (Z.to_nat v)) by lia.
  apply in_map, in_seq. lia.
Qed.

Lemma drb_not8 v : 0 <= v < 256 -> Z.lxor v (not8 v) = 0xFF.
Proof.
  intros Hv. apply Z.eqb_eq.
  apply (forall_byte (fun v => Z.lxor v (not8 v) =? 0xFF)); [|exact Hv].
  vm_compute. reflexivity.
Qed.

Lemma truthy_pos v : 0 < v -> truthy v = true.
Proof. intros H. unfold truthy. destruct (Z.eqb_spec v 0); [lia|reflexivity]. Qed.

(** ** The safety FSM *)

Lemma fsm_transition_keeps next s :
  let s' := snd (fsm_transition next s) in
  active_faults (g_safety_status s') = active_faults (g_safety_status s) /\
  active_faults_cmp (g_safety_status s') = active_faults_cmp (g_safety_status s) /\
  fault_count (g_safety_status s') = fault_count (g_safety_status s) /\
  fault_flags (g_safety_status s') = fault_flags (g_safety_status s) /\
  g_fsm_initialized s' = g_fsm_initialized s.
Proof.
  unfold fsm_transition.
  destruct (g_fsm_initialized s) eqn:Hi; simpl; [|tauto].
  destruct (matrix_at _ _); simpl; rewrite ?Hi; tauto.
Qed.

Lemma fsm_get_state_raw s :
  fsm_get_state s <> SAFETY_STATE_INVALID ->
  current_state (g_safety_status s) = fsm_get_state s.
Proof.
  unfold fsm_get_state.
  destruct (Z.lxor _ _ =? 0xFF); simpl; congruence.
Qed.

(** The state read back after [fsm_transition]: the requested state when
    the edge is in the matrix, the INVALID sink otherwise. *)
Lemma fsm_transition_state next s :
  g_fsm_initialized s = true ->
  0 <= next < 256 ->
  fsm_get_state (snd (fsm_transition next s)) =
    if matrix_at (fsm_state_to_index (current_state (g_safety_status s)))
                 (fsm_state_to_index next)
    then next else SAFETY_STATE_INVALID.
Proof.
  intros Hi Hn. unfold fsm_transition. rewrite Hi. simpl.
  destruct (matrix_at _ _); simpl.
  - unfold fsm_get_state. simpl. rewrite (drb_not8 next Hn). reflexivity.
  - reflexivity.
Qed.

(** What [fsm_aggregate_faults] leaves behind when it gets past the
    dual-rail checks: the aggregated set, its complement, and the flags
    untouched. *)
Lemma fsm_aggregate_active s r s' :
  fsm_aggregate_faults s = (r, s') ->
  fault_flags (g_safety_status s') = fault_flags (g_safety_status s) /\
  (r = true ->
   active_faults (g_safety_status s') =
     flags_or (fault_flags (g_safety_status s)) /\
   active_faults_cmp (g_safety_status s') =
     not8 (flags_or (fault_flags (g_safety_status s)))).
Proof.
  unfold fsm_aggregate_faults, flags_or.
  set (f := fault_flags (g_safety_status s)).
  destruct (fsm_get_state s =? SAFETY_STATE_INVALID);
    [intros H; inversion H; subst; split; [reflexivity|discriminate]|].
  destruct (VERIFY_FAULT_FLAG (pwr_fault f) (pwr_fault_cmp f)); simpl;
    [|intros H; inversion H; subst; split; [reflexivity|discriminate]].
  destruct (VERIFY_FAULT_FLAG (clk_fault f) (clk_fault_cmp f)); simpl;
    [|intros H; inversion H; subst; split; [reflexivity|discriminate]].
  destruct (VERIFY_FAULT_FLAG (mem_fault f) (mem_fault_cmp f)); simpl;
    [|intros H; inversion H; subst; split; [reflexivity|discriminate]].
  destruct (truthy (pwr_fault f)), (truthy (clk_fault f)),
    (truthy (mem_fault f)); simpl;
    try (intros H; inversion H; subst; simpl; split; [reflexivity|];
         intros _; split; reflexivity);
    (destruct (fsm_get_state s =? SAFETY_STATE_NORMAL);
     [ match goal with
       | |- fsm_transition ?n ?x = _ -> _ =>
         intros H; pose proof (fsm_transition_keeps n x) as K;
         rewrite H in K; simpl in K;
         destruct K as (Ka & Kc & _ & Kf & _);
         rewrite Ka, Kc, Kf; simpl; split; [reflexivity|];
         intros _; split; reflexivity
       end
     | intros H; inversion H; subst; simpl; split; [reflexivity|];
       intros _; split; reflexivity ]).
Qed.

(** C4.  Whatever the three per-source flag pairs hold, provided each
    pair is a well-formed dual-rail byte: when [fsm_aggregate_faults]
    returns true, [active_faults] is the bitwise OR of VDD (0x01), CLK
    (0x02) and MEM (0x04) over the flags that are set, and
    [active_faults_cmp] is the bitwise complement of that byte. *)
Theorem aggregate_active_faults_is_flag_or (s s' : fsm_t) :
  let f := fault_flags (g_safety_status s) in
  drb_ok (pwr_fault f) (pwr_fault_cmp f) ->
  drb_ok (clk_fault f) (clk_fault_cmp f) ->
  drb_ok (mem_fault f) (mem_fault_cmp f) ->
  fsm_aggregate_faults s = (true, s') ->
  active_faults (g_safety_status s') =
    Z.lor (Z.lor (if truthy (pwr_fault f) then FAULT_TYPE_VDD else 0)
                 (if truthy (clk_fault f) then FAULT_TYPE_CLK else 0))
          (if truthy (mem_fault f) then FAULT_TYPE_MEM_ECC else 0) /\
  active_faults_cmp (g_safety_status s') =
    not8 (active_faults (g_safety_status s')) /\
  Z.lxor (active_faults (g_safety_status s'))
         (active_faults_cmp (g_safety_status s')) = 0xFF.
Proof.
  intros f _ _ _ H.
  destruct (fsm_aggregate_active s true s' H) as (_ & K).
  destruct (K eq_refl) as (Ka & Kc).
  rewrite Kc, Ka. fold f. unfold flags_or.
  split; [reflexivity|]. split; [reflexivity|].
  destruct (truthy (pwr_fault f)), (truthy (clk_fault f)),
    (truthy (mem_fault f)); reflexivity.
Qed.

(** With well-formed flags the aggregation does succeed from every
    state other than INVALID once the FSM is initialised. *)
Lemma aggregate_succeeds (s : fsm_t) :
  let f := fault_flags (g_safety_status s) in
  g_fsm_initialized s = true ->
  fsm_get_state s <> SAFETY_STATE_INVALID ->
  drb_ok (pwr_fault f) (pwr_fault_cmp f) ->
  drb_ok (clk_fault f) (clk_fault_cmp f) ->
  drb_ok (mem_fault f) (mem_fault_cmp f) ->
  fst (fsm_aggregate_faults s) = true.
Proof.
  intros f Hi Hs Hp Hc Hm.
  unfold fsm_aggregate_faults. fold f.
  destruct (Z.eqb_spec (fsm_get_state s) SAFETY_STATE_INVALID); [contradiction|].
  unfold VERIFY_FAULT_FLAG. unfold drb_ok in *. rewrite Hp, Hc, Hm. simpl.
  match goal with
  | |- fst (if ?c then _ else _) = _ => destruct c; [|reflexivity]
  end.
  destruct (Z.eqb_spec (fsm_get_state s) SAFETY_STATE_NORMAL) as [E|]; [|reflexivity].
  unfold fsm_transition. simpl. rewrite Hi. simpl.
  rewrite (fsm_get_state_raw s Hs), E. reflexivity.
Qed.

Lemma aggregate_active_faults_is_flag_or_witness :
  let s := with_mem_fault 0x01
             (with_pwr_fault 0xAA (snd (fsm_init fsm_boot))) in
  active_faults (g_safety_status (snd (fsm_aggregate_faults s))) = 0x05 /\
  active_faults_cmp (g_safety_status (snd (fsm_aggregate_faults s))) = 0xFA.
Proof.
  intros s.
  destruct (aggregate_active_faults_is_flag_or s (snd (fsm_aggregate_faults s)))
    as (Ha & Hc & _); try reflexivity.
  split; [rewrite Ha|rewrite Hc, Ha]; reflexivity.
Defined.

(** C1, as the code has it.  Take the system as [fsm_init] has just
    left it, with a VDD flag pair [v], [c] that is well formed and
    asserted in place of the clear one.  One run of
    [fsm_aggregate_faults] succeeds, [active_faults] is VDD,
    [fault_count] is 1 and [fault_get_highest_priority] returns VDD with
    priority 1; the state read by [fsm_get_state] is still INIT,
    because the aggregator only moves NORMAL to FAULT.  How the pair
    came to be asserted is no part of the statement. *)
Theorem single_vdd_fault_after_init (s0 : fsm_t) (v c : Z) :
  g_fsm_initialized s0 = false ->
  Z.lxor v c = 0xFF ->
  v <> 0 ->
  let s1 := snd (fsm_init s0) in
  let g1 := g_safety_status s1 in
  let s2 := with_status (set_flags (set_pwr v c (fault_flags g1)) g1) s1 in
  let s3 := snd (fsm_aggregate_faults s2) in
  fst (fsm_init s0) = true /\
  fst (fsm_aggregate_faults s2) = true /\
  active_faults (g_safety_status s3) = FAULT_TYPE_VDD /\
  fsm_get_state s3 = SAFETY_STATE_INIT /\
  fault_count (g_safety_status s3) = 1 /\
  fault_get_highest_priority s3 = (FAULT_TYPE_VDD, 1).
Proof.
  intros Hi Hx Hv s1 g1 s2 s3.
  assert (Ht : truthy v = true)
    by (unfold truthy; apply negb_true_iff, Z.eqb_neq; exact Hv).
  assert (E : fsm_aggregate_faults s2 =
              (true,
               with_status
                 (set_fault_count 1
                    (set_active FAULT_TYPE_VDD (not8 FAULT_TYPE_VDD)
                       (g_safety_status s2))) s2)).
  { unfold fsm_aggregate_faults, fsm_get_state, s2, g1, s1, fsm_init,
      VERIFY_FAULT_FLAG.
    rewrite Hi. simpl. rewrite Hx, Ht. reflexivity. }
  unfold s3. rewrite E.
  unfold s2, g1, s1, fsm_init. rewrite Hi.
  repeat split; reflexivity.
Qed.

Lemma single_vdd_fault_after_init_witness :
  let s3 := snd (fsm_aggregate_faults
                   (with_pwr_fault 0x01 (snd (fsm_init fsm_boot)))) in
  active_faults (g_safety_status s3) = FAULT_TYPE_VDD /\
  fsm_get_state s3 = SAFETY_STATE_INIT /\
  fault_count (g_safety_status s3) = 1 /\
  fault_get_highest_priority s3 = (FAULT_TYPE_VDD, 1).
Proof.
  intros s3.
  destruct (single_vdd_fault_after_init fsm_boot 0x01 0xFE)
    as (_ & _ & Ha & Hs & Hc & Hp); [reflexivity | reflexivity | lia |].
  repeat split; assumption.
Defined.

(** C1 as stated fails.  On the sources as they are, [fsm_init], one
    run of [vdd_isr_handler] and one run of [fsm_aggregate_faults] leave
    the state at INIT: the handler returns without a store to the
    status word, so that the aggregation finds no flag asserted.  With
    the VDD pair asserted in the status word the state read after the
    aggregation is INIT all the same. *)
Lemma single_vdd_fault_state_is_not_fault :
  (exists (s3 : fsm_t) (i : isr_state_t),
     init_vdd_isr_aggregate fsm_boot isr_boot = Some (true, s3, i) /\
     fsm_get_state s3 = SAFETY_STATE_INIT /\
     active_faults (g_safety_status s3) = FAULT_TYPE_NONE /\
     fault_count (g_safety_status s3) = 0 /\
     fault_get_highest_priority s3 = (FAULT_TYPE_NONE, 0) /\
     ~ (active_faults (g_safety_status s3) = FAULT_TYPE_VDD /\
        fsm_get_state s3 = SAFETY_STATE_FAULT /\
        fault_count (g_safety_status s3) = 1 /\
        fault_get_highest_priority s3 = (FAULT_TYPE_VDD, 1))) /\
  (let s3 := snd (fsm_aggregate_faults
                    (with_pwr_fault 0x01 (snd (fsm_init fsm_boot)))) in
   ~ (active_faults (g_safety_status s3) = FAULT_TYPE_VDD /\
      fsm_get_state s3 = SAFETY_STATE_FAULT /\
      fault_count (g_safety_status s3) = 1 /\
      fault_get_highest_priority s3 = (FAULT_TYPE_VDD, 1))).
Proof.
  split.
  - eexists. eexists. split; [vm_compute; reflexivity|].
    repeat split; try reflexivity.
    intros (H & _). vm_compute in H. discriminate H.
  - intros s3 (_ & H & _). vm_compute in H. discriminate H.
Qed.

(** C2 as stated fails.  FAULT with an empty [active_faults] is reached
    by task-context calls alone (init, NORMAL, FAULT), and also by
    [fsm_clear_faults] clearing the only asserted flag while in FAULT. *)
Lemma fault_state_with_no_active_faults :
  (let s := fsm_run [OpInit; OpTransition SAFETY_STATE_NORMAL;
                     OpTransition SAFETY_STATE_FAULT] fsm_boot in
   fsm_get_state s = SAFETY_STATE_FAULT /\
   active_faults (g_safety_status s) = 0) /\
  (let s1 := fsm_run [OpAggregate]
               (with_pwr_fault 0x01
                  (fsm_run [OpInit; OpTransition SAFETY_STATE_NORMAL] fsm_boot)) in
   let s2 := fsm_run [OpClear FAULT_TYPE_VDD] s1 in
   fsm_get_state s1 = SAFETY_STATE_FAULT /\
   active_faults (g_safety_status s1) = FAULT_TYPE_VDD /\
   fst (fsm_clear_faults FAULT_TYPE_VDD s1) = true /\
   fsm_get_state s2 = SAFETY_STATE_FAULT /\
   active_faults (g_safety_status s2) = 0).
Proof. vm_compute. repeat split; reflexivity. Qed.

(** C2, as the code has it.  When a run of [fsm_aggregate_faults] takes
    the state read by [fsm_get_state] into FAULT, the [active_faults] it
    leaves is non-zero (and is the OR of the asserted flags). *)
Theorem aggregate_enters_fault_with_active_faults (s s' : fsm_t) (r : bool) :
  fsm_aggregate_faults s = (r, s') ->
  fsm_get_state s <> SAFETY_STATE_FAULT ->
  fsm_get_state s' = SAFETY_STATE_FAULT ->
  active_faults (g_safety_status s') <> 0 /\
  active_faults (g_safety_status s') =
    flags_or (fault_flags (g_safety_status s)).
Proof.
  unfold fsm_aggregate_faults.
  set (f := fault_flags (g_safety_status s)).
  destruct (fsm_get_state s =? SAFETY_STATE_INVALID);
    [intros H; inversion H; subst; congruence|].
  destruct (VERIFY_FAULT_FLAG (pwr_fault f) (pwr_fault_cmp f)); simpl;
    [|intros H; inversion H; subst; congruence].
  destruct (VERIFY_FAULT_FLAG (clk_fault f) (clk_fault_cmp f)); simpl;
    [|intros H; inversion H; subst; congruence].
  destruct (VERIFY_FAULT_FLAG (mem_fault f) (mem_fault_cmp f)); simpl;
    [|intros H; inversion H; subst; congruence].
  unfold flags_or.
  destruct (truthy (pwr_fault f)), (truthy (clk_fault f)),
    (truthy (mem_fault f)); simpl;
    try (intros H; inversion H; subst; unfold fsm_get_state; simpl;
         intros H1 H2; exfalso; apply H1; exact H2);
    (destruct (fsm_get_state s =? SAFETY_STATE_NORMAL);
     [ match goal with
       | |- fsm_transition ?n ?x = _ -> _ =>
         intros H _ _; pose proof (fsm_transition_keeps n x) as K;
         rewrite H in K; simpl in K;
         destruct K as (Ka & _); rewrite Ka; simpl;
         split; [discriminate|reflexivity]
       end
     | intros H; inversion H; subst; unfold fsm_get_state; simpl;
       intros H1 H2; exfalso; apply H1; exact H2 ]).
Qed.

Lemma aggregate_enters_fault_with_active_faults_witness :
  let s := with_clk_fault 0x01
             (fsm_run [OpInit; OpTransition SAFETY_STATE_NORMAL] fsm_boot) in
  active_faults (g_safety_status (snd (fsm_aggregate_faults s))) <> 0 /\
  active_faults (g_safety_status (snd (fsm_aggregate_faults s))) = FAULT_TYPE_CLK.
Proof.
  intros s.
  destruct (aggregate_enters_fault_with_active_faults
              s (snd (fsm_aggregate_faults s)) (fst (fsm_aggregate_faults s)))
    as (Hn & He).
  - reflexivity.
  - vm_compute. discriminate.
  - reflexivity.
  - split; [exact Hn | rewrite He; reflexivity].
Defined.

(** *** The INVALID sink *)

Lemma matrix_row_invalid next :
  matrix_at (fsm_state_to_index SAFETY_STATE_INVALID)
            (fsm_state_to_index next) = false.
Proof.
  unfold fsm_state_to_index at 2.
  repeat match goal with
         | |- context [if ?c then _ else _] => destruct c
         end; reflexivity.
Qed.

Lemma invalid_latched_reads s :
  invalid_latched s -> fsm_get_state s = SAFETY_STATE_INVALID.
Proof.
  intros (_ & Hs & Hc). unfold fsm_get_state. rewrite Hs, Hc. reflexivity.
Qed.

Lemma invalid_latched_aggregate s :
  invalid_latched s -> fsm_aggregate_faults s = (false, s).
Proof.
  intros H. unfold fsm_aggregate_faults.
  rewrite (invalid_latched_reads s H). reflexivity.
Qed.

Lemma invalid_latched_step op s :
  invalid_latched s -> invalid_latched (fsm_apply op s).
Proof.
  intros H. pose proof H as (Hi & Hs & Hc).
  destruct op as [|n| |m]; simpl.
  - unfold fsm_init. rewrite Hi. exact H.
  - unfold fsm_transition. rewrite Hi, Hs. simpl.
    rewrite matrix_row_invalid. simpl. repeat split; assumption.
  - rewrite (invalid_latched_aggregate s H). exact H.
  - unfold fsm_clear_faults.
    match goal with
    | |- invalid_latched (snd (fsm_aggregate_faults ?x)) =>
      assert (Hx : invalid_latched x) by (repeat split; assumption);
      rewrite (invalid_latched_aggregate x Hx); exact Hx
    end.
Qed.

Lemma invalid_latched_run ops : forall s,
  invalid_latched s -> invalid_latched (fsm_run ops s).
Proof.
  induction ops as [|op ops IH]; intros s H; simpl; [exact H|].
  apply IH, invalid_latched_step, H.
Qed.

Lemma fsm_run_initialized ops : forall s,
  g_fsm_initialized s = true -> g_fsm_initialized (fsm_run ops s) = true.
Proof.
  induction ops as [|op ops IH]; intros s H; simpl; [exact H|].
  apply IH. destruct op as [|n| |m]; simpl.
  - unfold fsm_init. rewrite H. exact H.
  - destruct (fsm_transition_keeps n s) as (_ & _ & _ & _ & K).
    rewrite K. exact H.
  - unfold fsm_aggregate_faults.
    repeat match goal with
           | |- context [if ?c then _ else _] => destruct c; simpl; try exact H
           end;
    match goal with
    | |- g_fsm_initialized (snd (fsm_transition ?n ?x)) = _ =>
      destruct (fsm_transition_keeps n x) as (_ & _ & _ & _ & K);
      rewrite K; exact H
    end.
  - unfold fsm_clear_faults, fsm_aggregate_faults.
    repeat match goal with
           | |- context [if ?c then _ else _] => destruct c; simpl; try exact H
           end;
    match goal with
    | |- g_fsm_initialized (snd (fsm_transition ?n ?x)) = _ =>
      destruct (fsm_transition_keeps n x) as (_ & _ & _ & _ & K);
      rewrite K; exact H
    end.
Qed.

(** Before [fsm_init] every transition request is ignored: nothing is
    stored, the sink included. *)
Lemma transition_before_init_is_ignored (next : Z) :
  fsm_transition next fsm_boot = (false, fsm_boot).
Proof. reflexivity. Qed.

(** C3.  After [fsm_init], let any sequence [pre] of [fsm_transition]
    calls run and let the next requested transition be one the static
    matrix does not admit from the state then stored.  From that call on
    [fsm_get_state] returns INVALID, whatever sequence [post] of
    [fsm_init], [fsm_transition], [fsm_aggregate_faults] and
    [fsm_clear_faults] calls follows, and every later [fsm_transition]
    is refused. *)
Theorem inadmissible_transition_latches_invalid
    (pre : list Z) (next : Z) (post : list fsm_op) (again : Z) :
  let s := fsm_run (map OpTransition pre) (snd (fsm_init fsm_boot)) in
  matrix_at (fsm_state_to_index (current_state (g_safety_status s)))
            (fsm_state_to_index next) = false ->
  let s' := fsm_run post (snd (fsm_transition next s)) in
  fst (fsm_transition next s) = false /\
  fsm_get_state s' = SAFETY_STATE_INVALID /\
  fst (fsm_transition again s') = false.
Proof.
  intros s Hm s'.
  assert (Hi : g_fsm_initialized s = true)
    by (apply fsm_run_initialized; reflexivity).
  assert (L : invalid_latched (snd (fsm_transition next s))).
  { unfold fsm_transition. rewrite Hi, Hm. simpl.
    repeat split. exact Hi. }
  assert (L' : invalid_latched s') by (apply invalid_latched_run, L).
  split; [|split].
  - unfold fsm_transition. rewrite Hi, Hm. reflexivity.
  - apply invalid_latched_reads, L'.
  - destruct L' as (Hi' & Hs' & _).
    unfold fsm_transition. rewrite Hi', Hs'. simpl.
    rewrite matrix_row_invalid. reflexivity.
Qed.

Lemma inadmissible_transition_latches_invalid_witness :
  fsm_get_state
    (fsm_run [OpTransition SAFETY_STATE_NORMAL; OpAggregate;
              OpClear FAULT_TYPE_MULTIPLE; OpInit]
       (snd (fsm_transition SAFETY_STATE_INIT
               (fsm_run (map OpTransition
                           [SAFETY_STATE_NORMAL; SAFETY_STATE_SAFE_STATE])
                        (snd (fsm_init fsm_boot))))))
  = SAFETY_STATE_INVALID.
Proof.
  apply (inadmissible_transition_latches_invalid
           [SAFETY_STATE_NORMAL; SAFETY_STATE_SAFE_STATE] SAFETY_STATE_INIT
           [OpTransition SAFETY_STATE_NORMAL; OpAggregate;
            OpClear FAULT_TYPE_MULTIPLE; OpInit] SAFETY_STATE_NORMAL).
  reflexivity.
Defined.

(** ** Dual-rail reads of the per-source handlers *)

Lemma clk_get_fault_flag_spec (s : clk_handler_t) :
  (Z.lxor (clk_fault_flag s) (clk_fault_flag_complement s) <> 0xFF ->
   clk_event_handler_get_fault_flag s = (SAFETY_DCLS_ERROR, Some false)) /\
  (Z.lxor (clk_fault_flag s) (clk_fault_flag_complement s) = 0xFF ->
   clk_event_handler_get_fault_flag s =
     (SAFETY_OK, Some (negb (clk_fault_flag s =? 0)))).
Proof.
  unfold clk_event_handler_get_fault_flag.
  destruct (Z.eqb_spec (Z.lxor (clk_fault_flag s) (clk_fault_flag_complement s)) 0xFF);
    simpl; split; intros; congruence.
Qed.

Lemma ecc_is_active_spec (e : ecc_t) :
  ecc_fault_is_active e = true <->
  Z.lxor (mem_flag e) (mem_complement e) = 0xFF /\ mem_flag e <> 0.
Proof.
  unfold ecc_fault_is_active.
  destruct (Z.eqb_spec (Z.lxor (mem_flag e) (mem_complement e)) 0xFF); simpl.
  - destruct (Z.eqb_spec (mem_flag e) 0); simpl; split;
      intros; try tauto; try discriminate.
  - split; [discriminate|tauto].
Qed.

Lemma fault_aggregate_bad_flag (a : aggregator_t) (s : fsm_t) :
  let f := fault_flags (g_safety_status s) in
  g_aggregator_busy a = false ->
  Z.lxor (pwr_fault f) (pwr_fault_cmp f) <> 0xFF \/
  Z.lxor (clk_fault f) (clk_fault_cmp f) <> 0xFF \/
  Z.lxor (mem_fault f) (mem_fault_cmp f) <> 0xFF ->
  let r := fault_aggregate a s in
  agg_ret r = false /\ agg_out r = None /\ agg_fsm r = s /\
  g_aggregator_busy (agg_unit r) = false.
Proof.
  intros f Hb Hbad. unfold fault_aggregate. rewrite Hb.
  unfold fsm_get_status.
  destruct (negb (Z.lxor (current_state _) _ =? 0xFF)); [repeat split|].
  destruct (negb (Z.lxor (active_faults _) _ =? 0xFF)); [repeat split|].
  fold f. unfold VERIFY_FAULT_FLAG.
  destruct (Z.eqb_spec (Z.lxor (pwr_fault f) (pwr_fault_cmp f)) 0xFF);
    simpl; [|repeat split].
  destruct (Z.eqb_spec (Z.lxor (clk_fault f) (clk_fault_cmp f)) 0xFF);
    simpl; [|repeat split].
  destruct (Z.eqb_spec (Z.lxor (mem_fault f) (mem_fault_cmp f)) 0xFF);
    simpl; [|repeat split].
  exfalso. tauto.
Qed.

(** C5 as stated fails: a corrupted clock flag is reported through the
    output as not asserted, and [ecc_fault_is_active] answers a
    corrupted memory flag exactly as it answers a clear one. *)
Lemma corrupted_flag_reads_as_not_asserted :
  let s := mk_clk_handler 0 0xFF 0xFF 0 8 in
  let bad := mk_ecc (mk_mem_fault_state 0x01 0x01 0 0)
                    (mk_ecc_handler_state true 0 0 0 0 0) in
  let clear := mk_ecc (mk_mem_fault_state 0x00 0xFF 0 0)
                      (mk_ecc_handler_state true 0 0 0 0 0) in
  Z.lxor (clk_fault_flag s) (clk_fault_flag_complement s) <> 0xFF /\
  snd (clk_event_handler_get_fault_flag s) = Some false /\
  Z.lxor (mem_flag bad) (mem_complement bad) <> 0xFF /\
  ecc_fault_is_active bad = false /\
  ecc_fault_is_active clear = false.
Proof. vm_compute. repeat split; discriminate. Qed.

(** C5, as the code has it.  On a flag pair that does not XOR to 0xFF:
    [clk_event_handler_get_fault_flag] returns SAFETY_DCLS_ERROR, a code
    it returns in no other case, and stores false through its output;
    [ecc_fault_is_active] returns false, and the corruption is visible
    through [ecc_fault_detect_corruption] only; [fault_aggregate], when
    not busy, returns false with nothing written through its output and
    the FSM status untouched, which is also its answer when busy. *)
Theorem corrupted_flag_read_behaviour :
  (forall s : clk_handler_t,
     (Z.lxor (clk_fault_flag s) (clk_fault_flag_complement s) <> 0xFF ->
      clk_event_handler_get_fault_flag s = (SAFETY_DCLS_ERROR, Some false)) /\
     (fst (clk_event_handler_get_fault_flag s) = SAFETY_DCLS_ERROR ->
      Z.lxor (clk_fault_flag s) (clk_fault_flag_complement s) <> 0xFF)) /\
  (forall e : ecc_t,
     Z.lxor (mem_flag e) (mem_complement e) <> 0xFF ->
     ecc_fault_is_active e = false /\ ecc_fault_detect_corruption e = true) /\
  (forall (a : aggregator_t) (s : fsm_t),
     let f := fault_flags (g_safety_status s) in
     g_aggregator_busy a = false ->
     Z.lxor (pwr_fault f) (pwr_fault_cmp f) <> 0xFF \/
     Z.lxor (clk_fault f) (clk_fault_cmp f) <> 0xFF \/
     Z.lxor (mem_fault f) (mem_fault_cmp f) <> 0xFF ->
     let r := fault_aggregate a s in
     agg_ret r = false /\ agg_out r = None /\ agg_fsm r = s /\
     g_aggregator_busy (agg_unit r) = false) /\
  (forall (a : aggregator_t) (s : fsm_t),
     g_aggregator_busy a = true ->
     let r := fault_aggregate a s in
     agg_ret r = false /\ agg_out r = None /\ agg_fsm r = s).
Proof.
  split; [|split; [|split]].
  - intros s. split.
    + apply clk_get_fault_flag_spec.
    + intros H E.
      destruct (clk_get_fault_flag_spec s) as (_ & K).
      rewrite (K E) in H. discriminate H.
  - intros e H. split.
    + destruct (ecc_fault_is_active e) eqn:A; [|reflexivity].
      apply ecc_is_active_spec in A. tauto.
    + unfold ecc_fault_detect_corruption.
      destruct (Z.eqb_spec (Z.lxor (mem_flag e) (mem_complement e)) 0xFF);
        [contradiction|reflexivity].
  - intros a s. apply fault_aggregate_bad_flag.
  - intros a s Hb. unfold fault_aggregate. rewrite Hb. repeat split.
Qed.

Lemma corrupted_flag_read_behaviour_witness :
  clk_event_handler_get_fault_flag (mk_clk_handler 0 0xFF 0xFF 0 8)
    = (SAFETY_DCLS_ERROR, Some false) /\
  agg_ret (fault_aggregate aggregator_boot
             (with_status
                (set_flags (mk_fault_flags 0 0xFF 1 1 0 0xFF)
                   (g_safety_status fsm_boot)) fsm_boot)) = false.
Proof.
  destruct corrupted_flag_read_behaviour as (Hc & _ & Ha & _).
  split.
  - apply (Hc (mk_clk_handler 0 0xFF 0xFF 0 8)). vm_compute. discriminate.
  - apply (Ha aggregator_boot
             (with_status
                (set_flags (mk_fault_flags 0 0xFF 1 1 0 0xFF)
                   (g_safety_status fsm_boot)) fsm_boot)).
    + reflexivity.
    + right. left. vm_compute. discriminate.
Defined.

(** C10.  [ecc_fault_clear] returns true exactly when the memory flag
    pair is well formed and asserted, and then leaves the pair at
    0x00 / 0xFF; otherwise, in particular on an already clear flag and
    on a pair failing its dual-rail check, it returns false and leaves
    the whole record, both flag words included, unchanged. *)
Theorem ecc_fault_clear_needs_active_flag (e : ecc_t) :
  (fst (ecc_fault_clear e) = true <->
   Z.lxor (mem_flag e) (mem_complement e) = 0xFF /\ mem_flag e <> 0) /\
  (fst (ecc_fault_clear e) = true ->
   mem_flag (snd (ecc_fault_clear e)) = 0x00 /\
   mem_complement (snd (ecc_fault_clear e)) = 0xFF) /\
  (fst (ecc_fault_clear e) = false -> snd (ecc_fault_clear e) = e) /\
  (mem_flag e = 0x00 -> ecc_fault_clear e = (false, e)) /\
  (Z.lxor (mem_flag e) (mem_complement e) <> 0xFF ->
   ecc_fault_clear e = (false, e)).
Proof.
  pose proof (ecc_is_active_spec e) as A.
  unfold ecc_fault_clear.
  destruct (ecc_fault_is_active e) eqn:Act; simpl.
  - repeat split; try tauto; discriminate.
  - repeat split; try tauto; discriminate.
Qed.

Lemma ecc_fault_clear_examples :
  let h := mk_ecc_handler_state true 0 0 0 0 0 in
  ecc_fault_clear (mk_ecc (mk_mem_fault_state 0x01 0xFE 0 3) h)
    = (true, mk_ecc (mk_mem_fault_state 0x00 0xFF 0 3) h) /\
  ecc_fault_clear (mk_ecc (mk_mem_fault_state 0x00 0xFF 0 3) h)
    = (false, mk_ecc (mk_mem_fault_state 0x00 0xFF 0 3) h) /\
  ecc_fault_clear (mk_ecc (mk_mem_fault_state 0x01 0x01 0 3) h)
    = (false, mk_ecc (mk_mem_fault_state 0x01 0x01 0 3) h).
Proof. vm_compute. repeat split. Qed.

(** ** Nested invocations of the fault ISRs *)

Section NestingBalance.
Variable St : Type.
Variable stmt : nat -> St -> St * option nat.
Variable level : St -> Z.
Variable held : nat -> bool.
Variable d : nat.

(** The entry point holds nothing, and while the counter stays within
    the bound each statement moves the counter by exactly the unit
    its invocation takes or gives back. *)
Hypothesis entry_free : held 0%nat = false.
Hypothesis stmt_level : forall pc s,
  Z.b2z (held pc) <= level s ->
  level s + (1 - Z.b2z (held pc)) <= Z.of_nat d ->
  level (fst (stmt pc s)) =
    level s - Z.b2z (held pc)
    + match snd (stmt pc s) with
      | Some pc' => Z.b2z (held pc')
      | None => 0
      end.

Lemma held_count_bounds stack :
  0 <= held_count held stack <= Z.of_nat (length stack).
Proof.
  induction stack as [|pc stack IH]; simpl held_count; simpl length; [lia|].
  destruct (held pc); simpl Z.b2z; lia.
Qed.

Lemma isr_exec1_balanced e s stack :
  level s = held_count held stack ->
  (length stack <= d)%nat ->
  level (fst (isr_exec1 stmt e (s, stack))) =
    held_count held (snd (isr_exec1 stmt e (s, stack))).
Proof.
  intros Hl Hd. destruct e; simpl.
  - rewrite entry_free. simpl. exact Hl.
  - destruct stack as [|pc stack]; simpl; [exact Hl|].
    simpl in Hl, Hd.
    pose proof (held_count_bounds stack) as B.
    assert (H1 : Z.b2z (held pc) <= level s) by lia.
    assert (H2 : level s + (1 - Z.b2z (held pc)) <= Z.of_nat d) by lia.
    pose proof (stmt_level pc s H1 H2) as K.
    destruct (stmt pc s) as [s' [pc'|]]; simpl in *; lia.
Qed.

Lemma isr_exec_balanced evs : forall s stack,
  level s = held_count held stack ->
  depth_within stmt d evs (s, stack) = true ->
  level (fst (isr_exec stmt evs (s, stack))) =
    held_count held (snd (isr_exec stmt evs (s, stack))).
Proof.
  induction evs as [|e evs IH]; intros s stack Hl Hd; simpl in *.
  - exact Hl.
  - apply andb_prop in Hd. destruct Hd as (Hd1 & Hd2).
    apply Nat.leb_le in Hd1.
    pose proof (isr_exec1_balanced e s stack Hl Hd1) as K.
    destruct (isr_exec1 stmt e (s, stack)) as [s1 stack1].
    apply IH; assumption.
Qed.

(** A run that starts and ends outside the handler, and never has
    more than [d] live invocations, gives the counter back. *)
Lemma nesting_returns_to_zero evs s :
  level s = 0 ->
  depth_within stmt d evs (s, []) = true ->
  snd (isr_exec stmt evs (s, [])) = [] ->
  level (fst (isr_exec stmt evs (s, []))) = 0.
Proof.
  intros Hl Hd He.
  rewrite (isr_exec_balanced evs s [] Hl Hd), He. reflexivity.
Qed.
End NestingBalance.

Lemma wrap8_small x : 0 <= x < 256 -> wrap8 x = x.
Proof. intros H. unfold wrap8. apply Z.mod_small. exact H. Qed.

Lemma clk_isr_stmt_level pc s :
  Z.b2z (clk_isr_held pc) <= clk_isr_nesting_level s ->
  clk_isr_nesting_level s + (1 - Z.b2z (clk_isr_held pc)) <= Z.of_nat 8 ->
  clk_isr_nesting_level (fst (clk_isr_stmt pc s)) =
    clk_isr_nesting_level s - Z.b2z (clk_isr_held pc)
    + match snd (clk_isr_stmt pc s) with
      | Some pc' => Z.b2z (clk_isr_held pc')
      | None => 0
      end.
Proof.
  intros H1 H2.
  destruct pc as [|[|[|[|[|[|[|pc]]]]]]]; cbn [clk_isr_held Z.b2z] in *.
  8: { simpl. lia. }
  all: cbn [clk_isr_stmt].
  - cbn. rewrite wrap8_small; lia.
  - unfold CLK_ISR_MAX_NESTING.
    destruct (Z.ltb_spec 8 (clk_isr_nesting_level s)); [lia|]. cbn. lia.
  - cbn. lia.
  - cbn. lia.
  - destruct (clk_fault_event_count s <? 0xFFFFFFFF); cbn; lia.
  - cbn. lia.
  - cbn. rewrite wrap8_small; lia.
Qed.

Lemma ecc_isr_stmt_level pc e :
  Z.b2z (ecc_isr_held pc) <= mem_nesting e ->
  mem_nesting e + (1 - Z.b2z (ecc_isr_held pc)) <= Z.of_nat 8 ->
  mem_nesting (fst (ecc_isr_stmt pc e)) =
    mem_nesting e - Z.b2z (ecc_isr_held pc)
    + match snd (ecc_isr_stmt pc e) with
      | Some pc' => Z.b2z (ecc_isr_held pc')
      | None => 0
      end.
Proof.
  intros H1 H2.
  destruct pc as [|[|[|[|[|[|[|[|pc]]]]]]]]; cbn [ecc_isr_held Z.b2z] in *.
  9: { simpl. lia. }
  all: cbn [ecc_isr_stmt]; unfold mem_nesting in *.
  - unfold ECC_ISR_NESTING_MAX.
    destruct (Z.leb_spec 8 (mem_isr_nesting_count (mem_fault_state e)));
      [lia|]. cbn. lia.
  - cbn. rewrite wrap8_small; lia.
  - cbn. lia.
  - cbn. lia.
  - cbn. lia.
  - destruct (mem_count e =? 0); cbn; lia.
  - cbn. lia.
  - cbn. rewrite wrap8_small; lia.
Qed.

(** The statement tables are the two functions. *)
Lemma clk_isr_run_whole s :
  isr_run clk_isr_stmt 7 0 s = Some (clk_event_handler_clk_loss_isr s).
Proof.
  unfold clk_event_handler_clk_loss_isr. cbn [isr_run clk_isr_stmt].
  cbn [clk_isr_nesting_level clk_set_nesting].
  destruct (CLK_ISR_MAX_NESTING <? wrap8 (clk_isr_nesting_level s + 1));
    reflexivity.
Qed.

Lemma ecc_isr_run_whole e :
  isr_run ecc_isr_stmt 8 0 e = Some (ecc_fault_isr e).
Proof.
  unfold ecc_fault_isr. cbn [isr_run ecc_isr_stmt].
  destruct (ECC_ISR_NESTING_MAX <=? mem_nesting e); reflexivity.
Qed.

(** C6 as stated fails for the memory handler: entered with its nesting
    counter at the limit, [ecc_fault_isr] writes 0xFF / 0x00, a
    well-formed pair, and the flag then reads as an active fault, not
    as corruption. *)
Lemma ecc_isr_overflow_keeps_dual_rail :
  let e := mk_ecc (mk_mem_fault_state 0x01 0xFE 8 8)
                  (mk_ecc_handler_state true 0 0 0 0 0) in
  mem_nesting e = ECC_ISR_NESTING_MAX /\
  mem_flag (ecc_fault_isr e) <> mem_complement (ecc_fault_isr e) /\
  Z.lxor (mem_flag (ecc_fault_isr e)) (mem_complement (ecc_fault_isr e)) = 0xFF /\
  ecc_fault_detect_corruption (ecc_fault_isr e) = false /\
  ecc_fault_is_active (ecc_fault_isr e) = true.
Proof. vm_compute. repeat split. discriminate. Qed.

(** C6, as the code has it.  For both handlers, a run of nested
    invocations that starts and ends outside the handler with at most
    8 invocations live at any time leaves the nesting counter at 0.
    An invocation of the clock ISR entered with the counter at 8 writes
    0xFF to both halves of the flag, keeps the counter at 8, and
    [clk_event_handler_get_fault_flag] then returns SAFETY_DCLS_ERROR.
    An invocation of the memory ISR entered with the counter at 8 or
    more writes the well-formed pair 0xFF / 0x00 and leaves the counter
    alone; the flag then reads as an active fault. *)
Theorem isr_nesting_depth_behaviour :
  (forall (evs : list isr_event) (s : clk_handler_t),
     clk_isr_nesting_level s = 0 ->
     depth_within clk_isr_stmt 8 evs (s, []) = true ->
     snd (isr_exec clk_isr_stmt evs (s, [])) = [] ->
     clk_isr_nesting_level (fst (isr_exec clk_isr_stmt evs (s, []))) = 0) /\
  (forall (evs : list isr_event) (e : ecc_t),
     mem_nesting e = 0 ->
     depth_within ecc_isr_stmt 8 evs (e, []) = true ->
     snd (isr_exec ecc_isr_stmt evs (e, [])) = [] ->
     mem_nesting (fst (isr_exec ecc_isr_stmt evs (e, []))) = 0) /\
  (forall s : clk_handler_t,
     clk_isr_nesting_level s = CLK_ISR_MAX_NESTING ->
     let s' := clk_event_handler_clk_loss_isr s in
     clk_fault_flag s' = 0xFF /\
     clk_fault_flag_complement s' = 0xFF /\
     Z.lxor (clk_fault_flag s') (clk_fault_flag_complement s') <> 0xFF /\
     clk_isr_nesting_level s' = CLK_ISR_MAX_NESTING /\
     clk_event_handler_get_fault_flag s' = (SAFETY_DCLS_ERROR, Some false)) /\
  (forall e : ecc_t,
     ECC_ISR_NESTING_MAX <= mem_nesting e ->
     let e' := ecc_fault_isr e in
     mem_flag e' = 0xFF /\
     mem_complement e' = 0x00 /\
     Z.lxor (mem_flag e') (mem_complement e') = 0xFF /\
     mem_nesting e' = mem_nesting e /\
     ecc_fault_is_active e' = true /\
     ecc_fault_detect_corruption e' = false).
Proof.
  split; [|split; [|split]].
  - intros evs s.
    apply (nesting_returns_to_zero clk_handler_t clk_isr_stmt
             clk_isr_nesting_level clk_isr_held 8 eq_refl clk_isr_stmt_level).
  - intros evs e.
    apply (nesting_returns_to_zero ecc_t ecc_isr_stmt
             mem_nesting ecc_isr_held 8 eq_refl ecc_isr_stmt_level).
  - intros s H s'. unfold s', clk_event_handler_clk_loss_isr.
    cbn [clk_isr_nesting_level clk_set_nesting]. rewrite H.
    vm_compute. repeat split. discriminate.
  - intros e H e'. unfold e', ecc_fault_isr.
    destruct (Z.leb_spec ECC_ISR_NESTING_MAX (mem_nesting e)) as [_|C];
      [|lia].
    vm_compute. repeat split.
Qed.

Lemma isr_nesting_depth_behaviour_witness :
  let evs := nested_entries 3 8 ++ repeat Advance 32 in
  depth_within clk_isr_stmt 8 evs (clk_handler_boot, []) = true /\
  clk_isr_nesting_level (fst (isr_exec clk_isr_stmt evs (clk_handler_boot, []))) = 0 /\
  clk_event_handler_get_fault_flag
    (clk_event_handler_clk_loss_isr (mk_clk_handler 8 0x01 0xFE 8 8))
    = (SAFETY_DCLS_ERROR, Some false).
Proof.
  intros evs.
  destruct isr_nesting_depth_behaviour as (Hc & _ & Ho & _).
  split; [reflexivity|]. split.
  - apply (Hc evs clk_handler_boot); reflexivity.
  - apply (Ho (mk_clk_handler 8 0x01 0xFE 8 8)). reflexivity.
Defined.

(** Nine nested entries of the clock ISR.  The ninth finds the counter
    at the limit and corrupts the pair.  Whether a read after the eight
    interrupted invocations have finished still sees the corruption
    depends on where they were preempted: before their own store of the
    flag they overwrite the marker with 0x01 / 0xFE, after it they do
    not. *)
Lemma clk_isr_nine_deep :
  let ninth := [Interrupt; Advance; Advance] in
  let early := isr_exec clk_isr_stmt (nested_entries 2 8 ++ ninth)
                 (clk_handler_boot, []) in
  let late := isr_exec clk_isr_stmt (nested_entries 4 8 ++ ninth)
                (clk_handler_boot, []) in
  clk_event_handler_get_fault_flag (fst early) = (SAFETY_DCLS_ERROR, Some false) /\
  length (snd early) = 8%nat /\
  clk_event_handler_get_fault_flag (fst late) = (SAFETY_DCLS_ERROR, Some false) /\
  isr_exec clk_isr_stmt (repeat Advance 40) early
    = (mk_clk_handler 8 0x01 0xFE 8 0, []) /\
  clk_event_handler_get_fault_flag (mk_clk_handler 8 0x01 0xFE 8 0)
    = (SAFETY_OK, Some true) /\
  isr_exec clk_isr_stmt (repeat Advance 24) late
    = (mk_clk_handler 8 0xFF 0xFF 8 0, []).
Proof. vm_compute. repeat split. Qed.

(** ** The clock recovery service *)

Lemma clk_service_fault_active_tick (hw : bool) (s : clk_service_t) :
  clk_service_state s = CLK_SERVICE_STATE_FAULT_ACTIVE ->
  0 <= clk_recovery_timeout_counter s < 4294967295 ->
  let s' := clk_service_task_hw hw s in
  (clk_recovery_timeout_counter s + 1 < recovery_timeout_ticks -> hw = true ->
   clk_service_state s' = CLK_SERVICE_STATE_FAULT_ACTIVE /\
   clk_recovery_timeout_counter s' = clk_recovery_timeout_counter s + 1) /\
  (recovery_timeout_ticks <= clk_recovery_timeout_counter s + 1 ->
   clk_service_state s' = CLK_SERVICE_STATE_IDLE /\
   clk_recovery_timeout_counter s' = 0).
Proof.
  intros Hs Hc. unfold clk_service_task_hw, clk_service_switch.
  cbn [clk_service_state svc_set_tick svc_set_timeout
       clk_recovery_timeout_counter].
  rewrite Hs. cbn [Z.eqb CLK_SERVICE_STATE_FAULT_ACTIVE
                   CLK_SERVICE_STATE_IDLE Pos.eqb].
  unfold wrap32. rewrite Z.mod_small by lia.
  destruct (Z.leb_spec recovery_timeout_ticks
              (clk_recovery_timeout_counter s + 1)) as [Hle|Hlt];
    split; intros; try lia.
  - split; reflexivity.
  - subst hw. split; [exact Hs|reflexivity].
Qed.



(** The placeholder of [clk_service_task] holds the signal asserted for
    five calls only, so as written the service leaves FAULT_ACTIVE for
    RECOVERY_PENDING on the sixth tick and never times out. *)
Lemma clk_service_task_placeholder_run :
  let s0 := snd (clk_service_handle_fault clk_service_boot) in
  map (fun k => clk_service_state (Nat.iter k clk_service_task s0)) (seq 0 12)
  = [CLK_SERVICE_STATE_FAULT_ACTIVE; CLK_SERVICE_STATE_FAULT_ACTIVE;
     CLK_SERVICE_STATE_FAULT_ACTIVE; CLK_SERVICE_STATE_FAULT_ACTIVE;
     CLK_SERVICE_STATE_FAULT_ACTIVE; CLK_SERVICE_STATE_FAULT_ACTIVE;
     CLK_SERVICE_STATE_RECOVERY_PENDING; CLK_SERVICE_STATE_RECOVERY_PENDING;
     CLK_SERVICE_STATE_RECOVERY_PENDING; CLK_SERVICE_STATE_RECOVERY_PENDING;
     CLK_SERVICE_STATE_RECOVERY_PENDING; CLK_SERVICE_STATE_RECOVERY_CONFIRMED].
Proof. vm_compute. reflexivity. Qed.

(** ** Statistics *)

Lemma wrap8_range x : 0 <= wrap8 x < 256.
Proof. unfold wrap8. apply Z.mod_pos_bound. lia. Qed.

(** The stored diagnostic coverage is always a percentage. *)
Lemma calculate_dc_range (fault_type : Z) (st : stats_t) (dc : Z) :
  fault_stats_calculate_dc fault_type st = (true, Some dc) ->
  0 <= dc <= 100.
Proof.
  unfold fault_stats_calculate_dc.
  destruct (counters_of fault_type (g_fault_stats st)) as [[d u]|];
    [|discriminate].
  destruct (wrap32 (d + u) =? 0); [intros H; inversion H; lia|].
  pose proof (wrap8_range (wrap32 (d * 100) / wrap32 (d + u))) as B.
  destruct (Z.ltb_spec 100 (wrap8 (wrap32 (d * 100) / wrap32 (d + u))))
    as [Hgt|Hle]; intros H; inversion H; lia.
Qed.

(** It is the floor of the quotient as long as neither the product
    [detected * 100] nor the sum of the counters leaves 32 bits. *)
Lemma calculate_dc_exact (fault_type : Z) (st : stats_t) (d u : Z) :
  counters_of fault_type (g_fault_stats st) = Some (d, u) ->
  0 <= d -> 0 <= u ->
  d * 100 < 4294967296 ->
  d + u < 4294967296 ->
  fault_stats_calculate_dc fault_type st =
    (true, Some (if d + u =? 0 then 0 else d * 100 / (d + u))).
Proof.
  intros Hc Hd Hu Hm Hs. unfold fault_stats_calculate_dc. rewrite Hc.
  unfold wrap32. rewrite !Z.mod_small by lia.
  destruct (Z.eqb_spec (d + u) 0); [reflexivity|].
  assert (Hq : 0 <= d * 100 / (d + u) <= 100).
  { split; [apply Z.div_pos; lia|].
    apply Z.div_le_upper_bound; lia. }
  rewrite wrap8_small by lia.
  destruct (Z.ltb_spec 100 (d * 100 / (d + u))); [lia|reflexivity].
Qed.

(** C8 on the code.  With 42,949,673 detected and no undetected VDD
    faults the product [detected * 100] wraps around 32 bits to 4;
    [fault_stats_calculate_dc] stores 0 where the floor of
    detected*100/(detected+undetected) is 100.  The same loss happens in
    the sum: 4,294,967,295 detected and 1 undetected give a 32-bit total
    of 0 and a stored 0, where the floor is 99. *)
Theorem calculate_dc_wraps_at_32_bits :
  let with_vdd d u :=
    mk_stats (mk_fault_statistics d u 0 0 0 0 0 0 0 0) false in
  fault_stats_calculate_dc FAULT_TYPE_VDD (with_vdd 42949673 0)
    = (true, Some 0) /\
  42949673 * 100 / (42949673 + 0) = 100 /\
  fault_stats_calculate_dc FAULT_TYPE_VDD (with_vdd 42949672 0)
    = (true, Some 100) /\
  fault_stats_calculate_dc FAULT_TYPE_VDD (with_vdd 4294967295 1)
    = (true, Some 0) /\
  4294967295 * 100 / (4294967295 + 1) = 99.
Proof. vm_compute. repeat split. Qed.

Lemma fault_rate_zero_guard (st : stats_t) :
  0 <= uptime_ms (g_fault_stats st) < 3600000 ->
  fault_stats_get_fault_rate_per_hour st = (true, Some 0).
Proof.
  intros H. unfold fault_stats_get_fault_rate_per_hour.
  change (1000 * 60 * 60) with 3600000.
  rewrite Z.div_small by exact H. reflexivity.
Qed.

(** C9 on the code.  One thousand detected faults in exactly one hour
    of uptime: the function stores 1, the quotient by [uptime_ms] of the
    total multiplied by 3,600, where total * 3,600,000 / uptime_ms is
    1000.  Before the first full hour it stores 0 although the
    denominator [uptime_ms] is not zero. *)
Theorem fault_rate_multiplies_by_3600 :
  let at_uptime n ms :=
    mk_stats (mk_fault_statistics n 0 0 0 0 0 0 0 ms 0) false in
  fault_stats_get_fault_rate_per_hour (at_uptime 1000 3600000)
    = (true, Some 1) /\
  1000 * 3600000 / 3600000 = 1000 /\
  fault_stats_get_fault_rate_per_hour (at_uptime 1000 1800000)
    = (true, Some 0) /\
  1000 * 3600000 / 1800000 = 2000 /\
  fault_stats_get_fault_rate_per_hour (at_uptime 1000 0) = (true, Some 0).
Proof. vm_compute. repeat split. Qed.

(** In general, from the first full hour on and while the product stays
    within 32 bits, the stored rate is (the low 16 bits of)
    total * 3600 / uptime_ms. *)
Lemma fault_rate_formula (st : stats_t) :
  let total := fault_stats_get_total_faults st in
  3600000 <= uptime_ms (g_fault_stats st) ->
  total * 3600 < 4294967296 ->
  fault_stats_get_fault_rate_per_hour st =
    (true, Some (wrap16 (total * 3600 / uptime_ms (g_fault_stats st)))).
Proof.
  intros total Hu Hm. unfold fault_stats_get_fault_rate_per_hour.
  fold total. change (1000 * 60 * 60) with 3600000.
  assert (Hq : 1 <= uptime_ms (g_fault_stats st) / 3600000)
    by (apply Z.div_le_lower_bound; lia).
  destruct (Z.eqb_spec (uptime_ms (g_fault_stats st) / 3600000) 0); [lia|].
  assert (Ht : 0 <= total).
  { unfold total, fault_stats_get_total_faults, wrap32.
    apply Z.mod_pos_bound. lia. }
  unfold wrap32 at 1. rewrite Z.mod_small by lia. reflexivity.
Qed.

(* ================================================================== *)
(** * Further properties of the sources *)

(** ** safety_fsm.c *)

Lemma matrix_admits_target i next :
  matrix_at i (fsm_state_to_index next) = true ->
  next = SAFETY_STATE_NORMAL \/ next = SAFETY_STATE_FAULT \/
  next = SAFETY_STATE_SAFE_STATE \/ next = SAFETY_STATE_RECOVERY.
Proof.
  unfold fsm_state_to_index.
  destruct (Z.eqb_spec next SAFETY_STATE_INIT);
    [destruct i as [|[|[|[|[|[|i]]]]]]; try discriminate;
     destruct i; discriminate|].
  destruct (Z.eqb_spec next SAFETY_STATE_NORMAL); [tauto|].
  destruct (Z.eqb_spec next SAFETY_STATE_FAULT); [tauto|].
  destruct (Z.eqb_spec next SAFETY_STATE_SAFE_STATE); [tauto|].
  destruct (Z.eqb_spec next SAFETY_STATE_RECOVERY); [tauto|].
  destruct (Z.eqb_spec next SAFETY_STATE_INVALID);
    destruct i as [|[|[|[|[|[|i]]]]]]; try discriminate;
    destruct i; discriminate.
Qed.

Lemma state_target_drb next :
  next = SAFETY_STATE_NORMAL \/ next = SAFETY_STATE_FAULT \/
  next = SAFETY_STATE_SAFE_STATE \/ next = SAFETY_STATE_RECOVERY ->
  Z.lxor next (not8 next) = 0xFF /\ next <> SAFETY_STATE_INIT /\
  next <> SAFETY_STATE_INVALID.
Proof.
  intros [H|[H|[H|H]]]; subst next; vm_compute; repeat split; discriminate.
Qed.

(** The state pair that [fsm_transition] stores. *)
Lemma fsm_transition_stored (next : Z) (s : fsm_t) :
  g_fsm_initialized s = true ->
  let admitted :=
    matrix_at (fsm_state_to_index (current_state (g_safety_status s)))
              (fsm_state_to_index next) in
  let s' := snd (fsm_transition next s) in
  fst (fsm_transition next s) = admitted /\
  fsm_get_state s' = (if admitted then next else SAFETY_STATE_INVALID) /\
  Z.lxor (current_state (g_safety_status s'))
         (current_state_cmp (g_safety_status s')) = 0xFF.
Proof.
  intros Hi admitted s'.
  pose proof (matrix_admits_target
                (fsm_state_to_index (current_state (g_safety_status s))) next) as T.
  fold admitted in T.
  unfold s', fsm_transition. rewrite Hi. simpl. fold admitted.
  destruct admitted; simpl.
  - destruct (state_target_drb next (T eq_refl)) as (Hx & _).
    unfold fsm_get_state. simpl. rewrite Hx. simpl. repeat split; reflexivity.
  - repeat split; reflexivity.
Qed.

(** [fsm_transition] on an initialised FSM returns true exactly when the
    matrix has the edge from the stored state to the requested one; the
    state then reads back as requested, and as INVALID otherwise.  The
    fault set, the fault counter and the flags are not touched. *)
Theorem fsm_transition_follows_matrix (next : Z) (s : fsm_t) :
  g_fsm_initialized s = true ->
  let admitted :=
    matrix_at (fsm_state_to_index (current_state (g_safety_status s)))
              (fsm_state_to_index next) in
  let s' := snd (fsm_transition next s) in
  fst (fsm_transition next s) = admitted /\
  fsm_get_state s' = (if admitted then next else SAFETY_STATE_INVALID) /\
  Z.lxor (current_state (g_safety_status s'))
         (current_state_cmp (g_safety_status s')) = 0xFF /\
  active_faults (g_safety_status s') = active_faults (g_safety_status s) /\
  fault_count (g_safety_status s') = fault_count (g_safety_status s) /\
  fault_flags (g_safety_status s') = fault_flags (g_safety_status s).
Proof.
  intros Hi admitted s'.
  destruct (fsm_transition_stored next s Hi) as (H1 & H2 & H3).
  destruct (fsm_transition_keeps next s) as (Ka & _ & Kc & Kf & _).
  repeat split; assumption.
Qed.

Lemma fsm_transition_follows_matrix_witness :
  let s := snd (fsm_init fsm_boot) in
  fst (fsm_transition SAFETY_STATE_NORMAL s) = true /\
  fsm_get_state (snd (fsm_transition SAFETY_STATE_FAULT s)) = SAFETY_STATE_INVALID.
Proof.
  intros s.
  destruct (fsm_transition_follows_matrix SAFETY_STATE_NORMAL s eq_refl)
    as (H1 & _).
  destruct (fsm_transition_follows_matrix SAFETY_STATE_FAULT s eq_refl)
    as (_ & H2 & _).
  split; [exact H1 | exact H2].
Defined.

(** The equation of [fsm_aggregate_faults] once it is past its checks. *)
Lemma fsm_aggregate_eq (s : fsm_t) :
  fsm_get_state s <> SAFETY_STATE_INVALID ->
  flags_drb_ok (fault_flags (g_safety_status s)) ->
  fsm_aggregate_faults s =
    if negb (flags_or (fault_flags (g_safety_status s)) =? 0)
       && (fsm_get_state s =? SAFETY_STATE_NORMAL)
    then fsm_transition SAFETY_STATE_FAULT (aggregated_status s)
    else (true, aggregated_status s).
Proof.
  intros Hs (Hp & Hc & Hm).
  unfold fsm_aggregate_faults, aggregated_status, flags_or, VERIFY_FAULT_FLAG.
  unfold drb_ok in *.
  destruct (Z.eqb_spec (fsm_get_state s) SAFETY_STATE_INVALID); [contradiction|].
  rewrite Hp, Hc, Hm. simpl.
  destruct (truthy (pwr_fault _)), (truthy (clk_fault _)),
    (truthy (mem_fault _)); simpl;
    destruct (fsm_get_state s =? SAFETY_STATE_NORMAL); simpl; reflexivity.
Qed.

Lemma fsm_aggregate_refused (s : fsm_t) :
  fsm_get_state s = SAFETY_STATE_INVALID \/
  ~ flags_drb_ok (fault_flags (g_safety_status s)) ->
  fsm_aggregate_faults s = (false, s).
Proof.
  intros H. unfold fsm_aggregate_faults, VERIFY_FAULT_FLAG.
  destruct (Z.eqb_spec (fsm_get_state s) SAFETY_STATE_INVALID); [reflexivity|].
  destruct H as [H|H]; [contradiction|].
  set (f := fault_flags (g_safety_status s)) in *.
  destruct (Z.eqb_spec (Z.lxor (pwr_fault f) (pwr_fault_cmp f)) 0xFF);
    [|reflexivity].
  destruct (Z.eqb_spec (Z.lxor (clk_fault f) (clk_fault_cmp f)) 0xFF);
    [|reflexivity].
  destruct (Z.eqb_spec (Z.lxor (mem_fault f) (mem_fault_cmp f)) 0xFF);
    [|reflexivity].
  exfalso. apply H. repeat split; assumption.
Qed.

Lemma flags_or_range f : 0 <= flags_or f < 8.
Proof.
  unfold flags_or.
  destruct (truthy (pwr_fault f)), (truthy (clk_fault f)),
    (truthy (mem_fault f)); vm_compute; split; congruence.
Qed.

Lemma flags_drb_ok_dec f : flags_drb_ok f \/ ~ flags_drb_ok f.
Proof.
  unfold flags_drb_ok, drb_ok.
  destruct (Z.eq_dec (Z.lxor (pwr_fault f) (pwr_fault_cmp f)) 0xFF);
    [|right; tauto].
  destruct (Z.eq_dec (Z.lxor (clk_fault f) (clk_fault_cmp f)) 0xFF);
    [|right; tauto].
  destruct (Z.eq_dec (Z.lxor (mem_fault f) (mem_fault_cmp f)) 0xFF);
    [left; tauto|right; tauto].
Qed.

Lemma fsm_transition_keeps_drb next s :
  status_drb_ok s -> status_drb_ok (snd (fsm_transition next s)).
Proof.
  intros (Hs & Ha & Hf).
  destruct (fsm_transition_keeps next s) as (Ka & Kc & _ & Kf & _).
  unfold status_drb_ok. rewrite Ka, Kc, Kf.
  split; [|split; assumption].
  destruct (g_fsm_initialized s) eqn:Hi.
  - destruct (fsm_transition_stored next s Hi) as (_ & _ & Hx).
    exact Hx.
  - unfold fsm_transition. rewrite Hi. exact Hs.
Qed.

Lemma aggregated_status_drb s :
  status_drb_ok s -> status_drb_ok (aggregated_status s).
Proof.
  intros (Hs & _ & Hf). unfold status_drb_ok, aggregated_status. simpl.
  split; [exact Hs|]. split; [|exact Hf].
  apply drb_not8. pose proof (flags_or_range (fault_flags (g_safety_status s))).
  lia.
Qed.

Lemma fsm_aggregate_keeps_drb s :
  status_drb_ok s -> status_drb_ok (snd (fsm_aggregate_faults s)).
Proof.
  intros H.
  destruct (Z.eq_dec (fsm_get_state s) SAFETY_STATE_INVALID) as [E|E];
    [rewrite fsm_aggregate_refused by (left; exact E); exact H|].
  assert (Hf : flags_drb_ok (fault_flags (g_safety_status s)))
    by (destruct H as (_ & _ & Hf); exact Hf).
  rewrite (fsm_aggregate_eq s E Hf).
  destruct (negb _ && _).
  - apply fsm_transition_keeps_drb, aggregated_status_drb, H.
  - apply aggregated_status_drb, H.
Qed.

Lemma fsm_clear_faults_eq m s :
  fsm_clear_faults m s =
    fsm_aggregate_faults
      (with_status
         (set_flags (cleared_flags m (fault_flags (g_safety_status s)))
            (g_safety_status s)) s).
Proof. reflexivity. Qed.

Lemma cleared_flags_drb m f : flags_drb_ok f -> flags_drb_ok (cleared_flags m f).
Proof.
  intros (Hp & Hc & Hm). unfold cleared_flags, flags_drb_ok, drb_ok in *.
  destruct (truthy (Z.land m FAULT_TYPE_VDD)),
    (truthy (Z.land m FAULT_TYPE_CLK)),
    (truthy (Z.land m FAULT_TYPE_MEM_ECC)); simpl; repeat split;
    assumption || reflexivity.
Qed.

Lemma fsm_apply_keeps_drb op s :
  status_drb_ok s -> status_drb_ok (fsm_apply op s).
Proof.
  intros H. destruct op as [|n| |m]; simpl.
  - unfold fsm_init. destruct (g_fsm_initialized s); [exact H|].
    vm_compute. repeat split.
  - apply fsm_transition_keeps_drb, H.
  - apply fsm_aggregate_keeps_drb, H.
  - rewrite fsm_clear_faults_eq. apply fsm_aggregate_keeps_drb.
    destruct H as (Hs & Ha & Hf).
    split; [exact Hs|]. split; [exact Ha|].
    apply (cleared_flags_drb m _ Hf).
Qed.

(** No operation of the unit asserts a flag: a flag that reads non-zero
    after a sequence of calls read non-zero before it. *)
Lemma fsm_apply_asserts_no_flag op s :
  let f := fault_flags (g_safety_status s) in
  let f' := fault_flags (g_safety_status (fsm_apply op s)) in
  (truthy (pwr_fault f') = true -> truthy (pwr_fault f) = true) /\
  (truthy (clk_fault f') = true -> truthy (clk_fault f) = true) /\
  (truthy (mem_fault f') = true -> truthy (mem_fault f) = true).
Proof.
  intros f f'. unfold f', f. destruct op as [|n| |m]; simpl.
  - unfold fsm_init. destruct (g_fsm_initialized s); simpl;
      repeat split; (tauto || discriminate).
  - destruct (fsm_transition_keeps n s) as (_ & _ & _ & Kf & _).
    rewrite Kf. tauto.
  - destruct (fsm_aggregate_active s _ _ (surjective_pairing _)) as (Kf & _).
    rewrite Kf. tauto.
  - rewrite fsm_clear_faults_eq.
    match goal with
    | |- context [fsm_aggregate_faults ?t] =>
      destruct (fsm_aggregate_active t _ _ (surjective_pairing _)) as (Kf & _)
    end.
    rewrite Kf. simpl. unfold cleared_flags.
    destruct (truthy (Z.land m FAULT_TYPE_VDD)),
      (truthy (Z.land m FAULT_TYPE_CLK)),
      (truthy (Z.land m FAULT_TYPE_MEM_ECC)); simpl;
      repeat split; (tauto || discriminate).
Qed.

Lemma fsm_run_asserts_no_flag ops : forall s,
  let f := fault_flags (g_safety_status s) in
  let f' := fault_flags (g_safety_status (fsm_run ops s)) in
  (truthy (pwr_fault f') = true -> truthy (pwr_fault f) = true) /\
  (truthy (clk_fault f') = true -> truthy (clk_fault f) = true) /\
  (truthy (mem_fault f') = true -> truthy (mem_fault f) = true).
Proof.
  induction ops as [|op ops IH]; intros s; simpl; [tauto|].
  destruct (IH (fsm_apply op s)) as (I1 & I2 & I3).
  destruct (fsm_apply_asserts_no_flag op s) as (A1 & A2 & A3).
  cbv zeta in *. tauto.
Qed.

(** Every dual-rail byte the FSM owns stays well formed under its own
    operations: from a status word whose state, fault set and three
    flags are well formed, any sequence of [fsm_init],
    [fsm_transition], [fsm_aggregate_faults] and [fsm_clear_faults]
    calls, with any arguments, leaves them well formed, so that
    [fsm_get_status] succeeds afterwards. *)
Theorem fsm_operations_keep_dual_rail (ops : list fsm_op) (s : fsm_t) :
  status_drb_ok s ->
  status_drb_ok (fsm_run ops s) /\
  fst (fsm_get_status (fsm_run ops s)) = true.
Proof.
  revert s. induction ops as [|op ops IH]; intros s H; simpl.
  - split; [exact H|].
    destruct H as (Hs & Ha & _). unfold fsm_get_status, drb_ok in *.
    rewrite Hs, Ha. reflexivity.
  - apply IH, fsm_apply_keeps_drb, H.
Qed.

Lemma fsm_operations_keep_dual_rail_witness :
  fst (fsm_get_status
         (fsm_run [OpInit; OpTransition SAFETY_STATE_NORMAL; OpAggregate;
                   OpTransition 0x42; OpClear FAULT_TYPE_MULTIPLE]
            (with_clk_fault 0x01 fsm_boot))) = true.
Proof.
  apply (fsm_operations_keep_dual_rail
           [OpInit; OpTransition SAFETY_STATE_NORMAL; OpAggregate;
            OpTransition 0x42; OpClear FAULT_TYPE_MULTIPLE]
           (with_clk_fault 0x01 fsm_boot)).
  vm_compute. repeat split.
Defined.

(** *** INIT is left for good *)

Lemma fsm_transition_not_init next s :
  g_fsm_initialized s = true ->
  g_fsm_initialized (snd (fsm_transition next s)) = true /\
  fsm_get_state (snd (fsm_transition next s)) <> SAFETY_STATE_INIT.
Proof.
  intros Hi.
  destruct (fsm_transition_keeps next s) as (_ & _ & _ & _ & Ki).
  split; [rewrite Ki; exact Hi|].
  destruct (fsm_transition_stored next s Hi) as (_ & Hg & _).
  rewrite Hg.
  destruct (matrix_at _ _) eqn:A; [|discriminate].
  apply matrix_admits_target in A.
  destruct (state_target_drb next A) as (_ & Hn & _). exact Hn.
Qed.

Lemma fsm_aggregate_not_init s :
  g_fsm_initialized s = true ->
  fsm_get_state s <> SAFETY_STATE_INIT ->
  g_fsm_initialized (snd (fsm_aggregate_faults s)) = true /\
  fsm_get_state (snd (fsm_aggregate_faults s)) <> SAFETY_STATE_INIT.
Proof.
  intros Hi Hn.
  destruct (Z.eq_dec (fsm_get_state s) SAFETY_STATE_INVALID) as [E|E];
    [rewrite fsm_aggregate_refused by (left; exact E); tauto|].
  destruct (flags_drb_ok_dec (fault_flags (g_safety_status s))) as [Hf|Hf];
    [|rewrite fsm_aggregate_refused by (right; exact Hf); tauto].
  rewrite (fsm_aggregate_eq s E Hf).
  destruct (negb _ && _).
  - apply fsm_transition_not_init. exact Hi.
  - split; [exact Hi | exact Hn].
Qed.

Lemma fsm_apply_not_init op s :
  g_fsm_initialized s = true ->
  fsm_get_state s <> SAFETY_STATE_INIT ->
  g_fsm_initialized (fsm_apply op s) = true /\
  fsm_get_state (fsm_apply op s) <> SAFETY_STATE_INIT.
Proof.
  intros Hi Hn. destruct op as [|n| |m]; simpl.
  - unfold fsm_init. rewrite Hi. tauto.
  - apply fsm_transition_not_init, Hi.
  - apply fsm_aggregate_not_init; assumption.
  - rewrite fsm_clear_faults_eq. apply fsm_aggregate_not_init; assumption.
Qed.

(** No operation leads back to INIT.  Once [fsm_transition] has been
    called on an initialised FSM, whatever was requested, the state
    never reads INIT again under any further sequence of [fsm_init],
    [fsm_transition], [fsm_aggregate_faults] and [fsm_clear_faults]
    calls. *)
Theorem init_state_is_never_reentered
    (next : Z) (ops : list fsm_op) (s : fsm_t) :
  g_fsm_initialized s = true ->
  fsm_get_state (fsm_run ops (snd (fsm_transition next s)))
    <> SAFETY_STATE_INIT.
Proof.
  intros Hi.
  destruct (fsm_transition_not_init next s Hi) as (H1 & H2).
  revert H1 H2. generalize (snd (fsm_transition next s)).
  induction ops as [|op ops IH]; intros t H1 H2; simpl; [exact H2|].
  destruct (fsm_apply_not_init op t H1 H2) as (K1 & K2).
  apply IH; assumption.
Qed.

Lemma init_state_is_never_reentered_witness :
  fsm_get_state
    (fsm_run [OpInit; OpTransition SAFETY_STATE_INIT; OpAggregate]
       (snd (fsm_transition SAFETY_STATE_INIT (snd (fsm_init fsm_boot)))))
  <> SAFETY_STATE_INIT.
Proof.
  apply (init_state_is_never_reentered SAFETY_STATE_INIT
           [OpInit; OpTransition SAFETY_STATE_INIT; OpAggregate]
           (snd (fsm_init fsm_boot))).
  reflexivity.
Defined.

(** *** What one aggregation does *)

(** What a run of [fsm_aggregate_faults] past its checks leaves in the
    status word. *)
Lemma fsm_aggregate_effect (s : fsm_t) :
  g_fsm_initialized s = true ->
  fsm_get_state s <> SAFETY_STATE_INVALID ->
  flags_drb_ok (fault_flags (g_safety_status s)) ->
  let a := flags_or (fault_flags (g_safety_status s)) in
  let s' := snd (fsm_aggregate_faults s) in
  fst (fsm_aggregate_faults s) = true /\
  active_faults (g_safety_status s') = a /\
  fsm_get_state s' =
    (if negb (a =? 0) && (fsm_get_state s =? SAFETY_STATE_NORMAL)
     then SAFETY_STATE_FAULT else fsm_get_state s) /\
  fault_count (g_safety_status s') =
    (if a =? 0 then fault_count (g_safety_status s)
     else wrap16 (fault_count (g_safety_status s) + 1)) /\
  fault_flags (g_safety_status s') = fault_flags (g_safety_status s).
Proof.
  intros Hi Hs Hf a s'. unfold s'.
  rewrite (fsm_aggregate_eq s Hs Hf). fold a.
  destruct (negb (a =? 0) && (fsm_get_state s =? SAFETY_STATE_NORMAL)) eqn:C.
  - apply andb_prop in C. destruct C as (_ & C). apply Z.eqb_eq in C.
    assert (Hi' : g_fsm_initialized (aggregated_status s) = true) by exact Hi.
    destruct (fsm_transition_stored SAFETY_STATE_FAULT
                (aggregated_status s) Hi') as (H1 & H2 & _).
    destruct (fsm_transition_keeps SAFETY_STATE_FAULT (aggregated_status s))
      as (H3 & _ & H4 & H5 & _).
    assert (R : current_state (g_safety_status (aggregated_status s))
                = SAFETY_STATE_NORMAL).
    { simpl. rewrite (fsm_get_state_raw s Hs). exact C. }
    rewrite R in H1, H2.
    rewrite H1, H2, H3, H4, H5. unfold aggregated_status. simpl. fold a.
    repeat split; reflexivity.
  - unfold aggregated_status. simpl. fold a. repeat split; reflexivity.
Qed.

(** On an initialised FSM that is not in INVALID and whose three flag
    pairs are well formed, [fsm_aggregate_faults] returns true, stores
    the OR of the asserted flags in [active_faults] with its complement
    beside it, and moves the state to FAULT exactly when the state was
    NORMAL and some flag is asserted; otherwise the state is kept, so
    that NORMAL without an asserted flag stays NORMAL with an empty
    fault set.  The flags themselves are left as they were. *)
Theorem aggregate_outcome (s : fsm_t) :
  g_fsm_initialized s = true ->
  fsm_get_state s <> SAFETY_STATE_INVALID ->
  flags_drb_ok (fault_flags (g_safety_status s)) ->
  let a := flags_or (fault_flags (g_safety_status s)) in
  let s' := snd (fsm_aggregate_faults s) in
  fst (fsm_aggregate_faults s) = true /\
  active_faults (g_safety_status s') = a /\
  fsm_get_state s' =
    (if negb (a =? 0) && (fsm_get_state s =? SAFETY_STATE_NORMAL)
     then SAFETY_STATE_FAULT else fsm_get_state s) /\
  fault_count (g_safety_status s') =
    (if a =? 0 then fault_count (g_safety_status s)
     else wrap16 (fault_count (g_safety_status s) + 1)) /\
  fault_flags (g_safety_status s') = fault_flags (g_safety_status s) /\
  active_faults_cmp (g_safety_status s') = not8 a /\
  g_fsm_initialized s' = true.
Proof.
  intros Hi Hs Hf a s'.
  destruct (fsm_aggregate_effect s Hi Hs Hf) as (K1 & K2 & K3 & K4 & K5).
  fold a s' in K1, K2, K3, K4, K5.
  do 5 (split; [assumption|]).
  split.
  - destruct (fsm_aggregate_active s true s') as (_ & A).
    + unfold s'. rewrite <- K1. apply surjective_pairing.
    + destruct (A eq_refl) as (_ & Ac). exact Ac.
  - exact (fsm_run_initialized [OpAggregate] s Hi).
Qed.

Lemma aggregate_outcome_witness :
  let s := with_mem_fault 0x01
             (fsm_run [OpInit; OpTransition SAFETY_STATE_NORMAL] fsm_boot) in
  fsm_get_state (snd (fsm_aggregate_faults s)) = SAFETY_STATE_FAULT /\
  active_faults (g_safety_status (snd (fsm_aggregate_faults s)))
    = FAULT_TYPE_MEM_ECC.
Proof.
  intros s.
  destruct (aggregate_outcome s) as (_ & Ha & Hs & _).
  - reflexivity.
  - vm_compute. discriminate.
  - vm_compute. repeat split.
  - split; [rewrite Hs|rewrite Ha]; reflexivity.
Defined.

Lemma wrap16_succ_n x n : wrap16 (wrap16 (x + 1) + n) = wrap16 (x + 1 + n).
Proof. unfold wrap16. apply Zplus_mod_idemp_l. Qed.

(** [fault_count] counts aggregation runs, not faults: while some flag
    stays asserted, each successive run of [fsm_aggregate_faults]
    advances the counter by one, modulo 65536, the fault set being the
    same every time. *)
Theorem fault_count_advances_every_run (n : nat) (s : fsm_t) :
  g_fsm_initialized s = true ->
  fsm_get_state s <> SAFETY_STATE_INVALID ->
  flags_drb_ok (fault_flags (g_safety_status s)) ->
  flags_or (fault_flags (g_safety_status s)) <> 0 ->
  let s' := fsm_aggregate_runs (S n) s in
  fault_count (g_safety_status s') =
    wrap16 (fault_count (g_safety_status s) + Z.of_nat (S n)) /\
  active_faults (g_safety_status s') =
    flags_or (fault_flags (g_safety_status s)) /\
  fsm_get_state s' <> SAFETY_STATE_INVALID.
Proof.
  revert s. induction n as [|n IH]; intros s Hi Hs Hf Ha;
    destruct (fsm_aggregate_effect s Hi Hs Hf) as (_ & Ka & Kst & Kc & Kf);
    apply Z.eqb_neq in Ha; rewrite Ha in Kc, Kst; simpl negb in Kst;
    simpl andb in Kst.
  - simpl. rewrite Ka, Kc, Kst. repeat split.
    destruct (fsm_get_state s =? SAFETY_STATE_NORMAL);
      [discriminate | exact Hs].
  - change (fsm_aggregate_runs (S (S n)) s)
      with (fsm_aggregate_runs (S n) (snd (fsm_aggregate_faults s))).
    assert (Hi' : g_fsm_initialized (snd (fsm_aggregate_faults s)) = true).
    { apply (fsm_run_initialized [OpAggregate] s Hi). }
    assert (Hs' : fsm_get_state (snd (fsm_aggregate_faults s))
                  <> SAFETY_STATE_INVALID).
    { rewrite Kst. destruct (fsm_get_state s =? SAFETY_STATE_NORMAL);
        [discriminate | exact Hs]. }
    assert (Hf' : flags_drb_ok
                    (fault_flags (g_safety_status (snd (fsm_aggregate_faults s)))))
      by (rewrite Kf; exact Hf).
    assert (Ha' : flags_or
                    (fault_flags (g_safety_status (snd (fsm_aggregate_faults s))))
                  <> 0)
      by (rewrite Kf; apply Z.eqb_neq; exact Ha).
    destruct (IH _ Hi' Hs' Hf' Ha') as (I1 & I2 & I3).
    cbv zeta in *. rewrite I1, I2, Kc, Kf.
    split; [|split; [reflexivity | exact I3]].
    rewrite wrap16_succ_n. f_equal. lia.
Qed.

Lemma fault_count_advances_every_run_witness :
  let s := with_pwr_fault 0x01 (snd (fsm_init fsm_boot)) in
  fault_count (g_safety_status (fsm_aggregate_runs 3 s)) = 3.
Proof.
  intros s.
  destruct (fault_count_advances_every_run 2 s) as (H & _).
  - reflexivity.
  - vm_compute. discriminate.
  - vm_compute. repeat split.
  - vm_compute. discriminate.
  - rewrite H. reflexivity.
Defined.

(** *** Clearing by mask *)

Lemma land_lnot_fault_bits (k m : Z) :
  0 <= k < 8 -> byte m ->
  Z.land k (Z.lnot m) =
    fault_bits
      (truthy (Z.land k FAULT_TYPE_VDD) && negb (truthy (Z.land m FAULT_TYPE_VDD)))
      (truthy (Z.land k FAULT_TYPE_CLK) && negb (truthy (Z.land m FAULT_TYPE_CLK)))
      (truthy (Z.land k FAULT_TYPE_MEM_ECC)
       && negb (truthy (Z.land m FAULT_TYPE_MEM_ECC))).
Proof.
  intros Hk Hm. apply Z.eqb_eq.
  assert (K : k = 0 \/ k = 1 \/ k = 2 \/ k = 3 \/ k = 4 \/ k = 5 \/ k = 6 \/ k = 7)
    by lia.
  apply (forall_byte
           (fun m =>
              Z.land k (Z.lnot m) =?
              fault_bits
                (truthy (Z.land k FAULT_TYPE_VDD)
                 && negb (truthy (Z.land m FAULT_TYPE_VDD)))
                (truthy (Z.land k FAULT_TYPE_CLK)
                 && negb (truthy (Z.land m FAULT_TYPE_CLK)))
                (truthy (Z.land k FAULT_TYPE_MEM_ECC)
                 && negb (truthy (Z.land m FAULT_TYPE_MEM_ECC)))));
    [|exact Hm].
  destruct K as [K|[K|[K|[K|[K|[K|[K|K]]]]]]]; subst k;
    vm_compute; reflexivity.
Qed.

Lemma cleared_flags_or (m : Z) (f : fault_flags_t) :
  byte m ->
  flags_or (cleared_flags m f) = Z.land (flags_or f) (Z.lnot m).
Proof.
  intros Hm.
  rewrite (land_lnot_fault_bits (flags_or f) m (flags_or_range f) Hm).
  unfold cleared_flags, flags_or, fault_bits.
  destruct (truthy (Z.land m FAULT_TYPE_VDD)),
    (truthy (Z.land m FAULT_TYPE_CLK)),
    (truthy (Z.land m FAULT_TYPE_MEM_ECC)); simpl;
    destruct (truthy (pwr_fault f)), (truthy (clk_fault f)),
      (truthy (mem_fault f)); reflexivity.
Qed.

(** [fsm_clear_faults] removes the sources named by the mask and no
    other: on an initialised FSM outside INVALID with well-formed flags
    it returns true and leaves [active_faults] equal to the OR of the
    flags asserted before the call, with the bits of the mask taken
    out. *)
Theorem clear_faults_removes_the_mask (m : Z) (s : fsm_t) :
  g_fsm_initialized s = true ->
  fsm_get_state s <> SAFETY_STATE_INVALID ->
  flags_drb_ok (fault_flags (g_safety_status s)) ->
  byte m ->
  let s' := snd (fsm_clear_faults m s) in
  fst (fsm_clear_faults m s) = true /\
  active_faults (g_safety_status s') =
    Z.land (flags_or (fault_flags (g_safety_status s))) (Z.lnot m) /\
  fault_flags (g_safety_status s') =
    cleared_flags m (fault_flags (g_safety_status s)) /\
  flags_drb_ok (fault_flags (g_safety_status s')).
Proof.
  intros Hi Hs Hf Hm s'. unfold s'. rewrite fsm_clear_faults_eq.
  set (t := with_status
              (set_flags (cleared_flags m (fault_flags (g_safety_status s)))
                 (g_safety_status s)) s).
  assert (Hf' : flags_drb_ok (fault_flags (g_safety_status t)))
    by (apply cleared_flags_drb; exact Hf).
  destruct (fsm_aggregate_effect t Hi Hs Hf') as (K1 & K2 & _ & _ & K5).
  rewrite K1, K2, K5. simpl.
  rewrite (cleared_flags_or m _ Hm).
  repeat split; try reflexivity; apply Hf'.
Qed.

Lemma clear_faults_removes_the_mask_witness :
  let s := fsm_run [OpAggregate]
             (with_mem_fault 0x01
                (with_pwr_fault 0x01
                   (fsm_run [OpInit; OpTransition SAFETY_STATE_NORMAL] fsm_boot))) in
  active_faults (g_safety_status s) = 0x05 /\
  active_faults (g_safety_status (snd (fsm_clear_faults FAULT_TYPE_VDD s)))
    = FAULT_TYPE_MEM_ECC.
Proof.
  intros s. split; [reflexivity|].
  destruct (clear_faults_removes_the_mask FAULT_TYPE_VDD s) as (_ & H & _).
  - reflexivity.
  - vm_compute. discriminate.
  - vm_compute. repeat split.
  - unfold byte, FAULT_TYPE_VDD. lia.
  - rewrite H. reflexivity.
Defined.

(** ** fault_aggregator.c *)

Lemma fsm_get_state_valid_drb s :
  fsm_get_state s <> SAFETY_STATE_INVALID ->
  Z.lxor (current_state (g_safety_status s))
         (current_state_cmp (g_safety_status s)) = 0xFF.
Proof.
  unfold fsm_get_state.
  destruct (Z.eqb_spec (Z.lxor (current_state (g_safety_status s))
                               (current_state_cmp (g_safety_status s))) 0xFF);
    simpl; [tauto|congruence].
Qed.

(** After a successful aggregation the status word can be read, and its
    fault set is the OR of the flags. *)
Lemma status_after_aggregate (s : fsm_t) :
  g_fsm_initialized s = true ->
  fsm_get_state s <> SAFETY_STATE_INVALID ->
  flags_drb_ok (fault_flags (g_safety_status s)) ->
  let s' := snd (fsm_aggregate_faults s) in
  fsm_get_status s' = (true, Some (g_safety_status s')) /\
  active_faults (g_safety_status s') =
    fault_bits (truthy (pwr_fault (fault_flags (g_safety_status s))))
               (truthy (clk_fault (fault_flags (g_safety_status s))))
               (truthy (mem_fault (fault_flags (g_safety_status s)))).
Proof.
  intros Hi Hs Hf s'.
  destruct (fsm_aggregate_effect s Hi Hs Hf) as (K1 & K2 & K3 & _).
  fold s' in K1, K2, K3.
  split; [|exact K2].
  assert (Hs' : fsm_get_state s' <> SAFETY_STATE_INVALID).
  { rewrite K3. destruct (negb _ && _); [discriminate | exact Hs]. }
  pose proof (fsm_get_state_valid_drb s' Hs') as Hx.
  destruct (fsm_aggregate_faults s) as [r t] eqn:E. simpl in K1. subst r.
  destruct (fsm_aggregate_active s true t E) as (_ & A).
  destruct (A eq_refl) as (Aa & Ac).
  unfold fsm_get_status. simpl in s'. subst s'.
  rewrite Hx, Ac, Aa. simpl.
  rewrite drb_not8; [reflexivity|].
  pose proof (flags_or_range (fault_flags (g_safety_status s))). lia.
Qed.

Lemma highest_priority_of_fault_bits (s : fsm_t) (p c m : bool) :
  fsm_get_status s = (true, Some (g_safety_status s)) ->
  active_faults (g_safety_status s) = fault_bits p c m ->
  fault_get_highest_priority s =
    if p then (FAULT_TYPE_VDD, 1)
    else if c then (FAULT_TYPE_CLK, 2)
    else if m then (FAULT_TYPE_MEM_ECC, 3)
    else (FAULT_TYPE_NONE, 0).
Proof.
  intros G A. unfold fault_get_highest_priority. rewrite G, A.
  destruct p, c, m; reflexivity.
Qed.

(** The highest-priority output follows the fixed order VDD, CLK, MEM
    over the flags: after a successful [fsm_aggregate_faults],
    [fault_get_highest_priority] returns VDD with priority 1 if the VDD
    flag is asserted, else CLK with 2 if the clock flag is, else MEM
    with 3 if the memory flag is, else NONE with 0. *)
Theorem highest_priority_follows_flags (s : fsm_t) :
  g_fsm_initialized s = true ->
  fsm_get_state s <> SAFETY_STATE_INVALID ->
  flags_drb_ok (fault_flags (g_safety_status s)) ->
  let f := fault_flags (g_safety_status s) in
  fault_get_highest_priority (snd (fsm_aggregate_faults s)) =
    if truthy (pwr_fault f) then (FAULT_TYPE_VDD, 1)
    else if truthy (clk_fault f) then (FAULT_TYPE_CLK, 2)
    else if truthy (mem_fault f) then (FAULT_TYPE_MEM_ECC, 3)
    else (FAULT_TYPE_NONE, 0).
Proof.
  intros Hi Hs Hf f.
  destruct (status_after_aggregate s Hi Hs Hf) as (G & A).
  exact (highest_priority_of_fault_bits _ _ _ _ G A).
Qed.

Lemma highest_priority_follows_flags_witness :
  fault_get_highest_priority
    (snd (fsm_aggregate_faults
            (with_mem_fault 0x01
               (with_clk_fault 0x01
                  (fsm_run [OpInit; OpTransition SAFETY_STATE_NORMAL] fsm_boot)))))
  = (FAULT_TYPE_CLK, 2).
Proof.
  rewrite highest_priority_follows_flags.
  - reflexivity.
  - reflexivity.
  - vm_compute. discriminate.
  - vm_compute. repeat split.
Defined.

(** After a successful aggregation [fault_is_active] answers for each
    source whether its flag is asserted, and
    [fault_has_multiple_active] whether at least two flags are. *)
Theorem active_queries_follow_flags (s : fsm_t) :
  g_fsm_initialized s = true ->
  fsm_get_state s <> SAFETY_STATE_INVALID ->
  flags_drb_ok (fault_flags (g_safety_status s)) ->
  let f := fault_flags (g_safety_status s) in
  let s' := snd (fsm_aggregate_faults s) in
  fault_is_active FAULT_TYPE_VDD s' = truthy (pwr_fault f) /\
  fault_is_active FAULT_TYPE_CLK s' = truthy (clk_fault f) /\
  fault_is_active FAULT_TYPE_MEM_ECC s' = truthy (mem_fault f) /\
  fault_has_multiple_active s' =
    (truthy (pwr_fault f) && truthy (clk_fault f))
    || (truthy (pwr_fault f) && truthy (mem_fault f))
    || (truthy (clk_fault f) && truthy (mem_fault f)).
Proof.
  intros Hi Hs Hf f s'.
  destruct (status_after_aggregate s Hi Hs Hf) as (G & A).
  fold s' in G, A. fold f in A.
  unfold fault_is_active, fault_get_all_active, fault_has_multiple_active.
  rewrite G, A.
  destruct (truthy (pwr_fault f)), (truthy (clk_fault f)),
    (truthy (mem_fault f)); repeat split; reflexivity.
Qed.

Lemma active_queries_follow_flags_witness :
  let s' := snd (fsm_aggregate_faults
                   (with_mem_fault 0x01
                      (with_clk_fault 0x01
                         (fsm_run [OpInit; OpTransition SAFETY_STATE_NORMAL]
                            fsm_boot)))) in
  fault_is_active FAULT_TYPE_VDD s' = false /\
  fault_has_multiple_active s' = true.
Proof.
  intros s'.
  destruct (active_queries_follow_flags
              (with_mem_fault 0x01
                 (with_clk_fault 0x01
                    (fsm_run [OpInit; OpTransition SAFETY_STATE_NORMAL] fsm_boot))))
    as (H1 & _ & _ & H4).
  - reflexivity.
  - vm_compute. discriminate.
  - vm_compute. repeat split.
  - split; [exact H1 | exact H4].
Defined.

(** When the status word fails its dual-rail check the queries of the
    aggregator disagree about the bias: [fault_get_highest_priority]
    returns INVALID with priority 0xFF and [fault_is_active] reports
    every source as active, while [fault_has_multiple_active] reports
    false. *)
Theorem queries_on_corrupted_status (s : fsm_t) :
  fst (fsm_get_status s) = false ->
  fault_get_highest_priority s = (FAULT_TYPE_INVALID, 0xFF) /\
  fault_get_all_active s = FAULT_TYPE_INVALID /\
  fault_is_active FAULT_TYPE_VDD s = true /\
  fault_is_active FAULT_TYPE_CLK s = true /\
  fault_is_active FAULT_TYPE_MEM_ECC s = true /\
  fault_has_multiple_active s = false.
Proof.
  intros H.
  unfold fault_get_highest_priority, fault_is_active, fault_get_all_active,
    fault_has_multiple_active.
  unfold fsm_get_status in *.
  destruct (negb (Z.lxor (current_state _) _ =? 0xFF)); [repeat split|].
  destruct (negb (Z.lxor (active_faults _) _ =? 0xFF)); [repeat split|].
  discriminate H.
Qed.

Lemma queries_on_corrupted_status_witness :
  let s := with_status (set_active 0x01 0x01 (g_safety_status fsm_boot)) fsm_boot in
  fault_is_active FAULT_TYPE_CLK s = true /\
  fault_has_multiple_active s = false.
Proof.
  intros s.
  destruct (queries_on_corrupted_status s) as (_ & _ & _ & H1 & _ & H2).
  - reflexivity.
  - split; [exact H1 | exact H2].
Defined.

(** [fault_aggregate] past its gate: with the aggregator not busy, on an
    initialised FSM outside INVALID whose five dual-rail bytes are well
    formed, it returns true, leaves the FSM as
    [fsm_aggregate_faults] does, writes through its output the same
    fault that [fault_get_highest_priority] then returns, counts one
    attempt and releases the busy flag. *)
Theorem fault_aggregate_outcome (a : aggregator_t) (s : fsm_t) :
  g_aggregator_busy a = false ->
  g_fsm_initialized s = true ->
  fsm_get_state s <> SAFETY_STATE_INVALID ->
  status_drb_ok s ->
  let r := fault_aggregate a s in
  agg_ret r = true /\
  agg_fsm r = snd (fsm_aggregate_faults s) /\
  agg_out r = Some (fst (fault_get_highest_priority (agg_fsm r))) /\
  g_aggregation_attempts (agg_unit r) = wrap32 (g_aggregation_attempts a + 1) /\
  g_aggregator_busy (agg_unit r) = false.
Proof.
  intros Hb Hi Hs (Hst & Hact & Hf) r.
  destruct (status_after_aggregate s Hi Hs Hf) as (G & A).
  pose proof (highest_priority_of_fault_bits _ _ _ _ G A) as P.
  pose proof (aggregate_succeeds s Hi Hs) as S.
  destruct Hf as (Hp & Hc & Hm).
  specialize (S Hp Hc Hm).
  unfold r, fault_aggregate. rewrite Hb.
  unfold fsm_get_status. unfold drb_ok in *. rewrite Hst, Hact. simpl.
  unfold VERIFY_FAULT_FLAG. rewrite Hp, Hc, Hm. simpl.
  destruct (fsm_aggregate_faults s) as [ok s'] eqn:E.
  simpl in S. subst ok. simpl in P |- *. rewrite P.
  destruct (truthy (pwr_fault _)), (truthy (clk_fault _)),
    (truthy (mem_fault _)); repeat split; reflexivity.
Qed.

Lemma fault_aggregate_outcome_witness :
  let s := with_clk_fault 0x01
             (fsm_run [OpInit; OpTransition SAFETY_STATE_NORMAL] fsm_boot) in
  agg_ret (fault_aggregate aggregator_boot s) = true /\
  agg_out (fault_aggregate aggregator_boot s) = Some FAULT_TYPE_CLK.
Proof.
  intros s.
  destruct (fault_aggregate_outcome aggregator_boot s) as (H1 & _ & H3 & _).
  - reflexivity.
  - reflexivity.
  - vm_compute. discriminate.
  - vm_compute. repeat split.
  - split; [exact H1 | rewrite H3; reflexivity].
Defined.

(** The busy gate is never left set: [fault_aggregate] and
    [fault_aggregator_reset] return with [g_aggregator_busy] as they
    found it, on every path; a call that finds it set changes nothing
    and a call of [fault_aggregate] that finds it clear counts one
    attempt whether it succeeds or not. *)
Theorem aggregator_gate_is_released (a : aggregator_t) (s : fsm_t) (m : Z) :
  g_aggregator_busy (agg_unit (fault_aggregate a s)) = g_aggregator_busy a /\
  g_aggregator_busy (snd (fst (fault_aggregator_reset m a s)))
    = g_aggregator_busy a /\
  g_aggregation_attempts (agg_unit (fault_aggregate a s)) =
    (if g_aggregator_busy a then g_aggregation_attempts a
     else wrap32 (g_aggregation_attempts a + 1)) /\
  (if g_aggregator_busy a
   then fault_aggregate a s = mk_aggregate_result false None a s /\
        fault_aggregator_reset m a s = (false, a, s)
   else True).
Proof.
  unfold fault_aggregate, fault_aggregator_reset.
  destruct (g_aggregator_busy a) eqn:Hb.
  - repeat split; simpl; try exact Hb; reflexivity.
  - split; [|split; [|split; [|exact I]]].
    + destruct (fsm_get_status s) as [[|] [st|]]; try reflexivity.
      repeat match goal with
             | |- context [if ?c then _ else _] => destruct c; try reflexivity
             end;
      destruct (fsm_aggregate_faults s) as [[|] s']; reflexivity.
    + destruct (fsm_clear_faults m s) as [ok s']. reflexivity.
    + destruct (fsm_get_status s) as [[|] [st|]]; try reflexivity.
      repeat match goal with
             | |- context [if ?c then _ else _] => destruct c; try reflexivity
             end;
      destruct (fsm_aggregate_faults s) as [[|] s']; reflexivity.
Qed.

(** [fault_set_priorities] accepts a configuration exactly when the
    aggregator is not busy and each of the three priorities lies in
    1..3; [fault_get_priorities] then returns the three values, and a
    refused call leaves the configuration as it was. *)
Theorem set_priorities_validates (v c m : Z) (a : aggregator_t) :
  let ok := (1 <=? v) && (v <=? 3) && (1 <=? c) && (c <=? 3)
            && (1 <=? m) && (m <=? 3) && negb (g_aggregator_busy a) in
  fst (fault_set_priorities v c m a) = ok /\
  fault_get_priorities (snd (fault_set_priorities v c m a)) =
    (true, Some (if ok then (v, c, m)
                 else (vdd_priority a, clk_priority a, mem_priority a))) /\
  g_aggregator_busy (snd (fault_set_priorities v c m a)) = g_aggregator_busy a /\
  g_aggregation_attempts (snd (fault_set_priorities v c m a))
    = g_aggregation_attempts a.
Proof.
  intros ok. unfold ok, fault_set_priorities, fault_get_priorities.
  rewrite !Z.ltb_antisym.
  destruct (1 <=? v), (v <=? 3), (1 <=? c), (c <=? 3), (1 <=? m), (m <=? 3);
    simpl; destruct (g_aggregator_busy a) eqn:Hb; simpl;
    rewrite ?Hb; repeat split; reflexivity.
Qed.

Lemma set_priorities_validates_examples :
  fst (fault_set_priorities 3 2 1 aggregator_boot) = true /\
  fst (fault_set_priorities 0 2 3 aggregator_boot) = false /\
  fst (fault_set_priorities 1 2 4 aggregator_boot) = false /\
  fst (fault_set_priorities 2 2 2 aggregator_boot) = true.
Proof. vm_compute. repeat split. Qed.

(** ** fault_statistics.c *)

Lemma wrap32_add_l x y : wrap32 (wrap32 x + y) = wrap32 (x + y).
Proof. unfold wrap32. apply Zplus_mod_idemp_l. Qed.

Lemma wrap32_add_r x y : wrap32 (x + wrap32 y) = wrap32 (x + y).
Proof. unfold wrap32. apply Zplus_mod_idemp_r. Qed.

Lemma wrap32_add_ll x y z : wrap32 (wrap32 x + y + z) = wrap32 (x + y + z).
Proof. rewrite <- !Z.add_assoc. apply wrap32_add_l. Qed.

Lemma wrap32_add_mid x y z : wrap32 (x + wrap32 y + z) = wrap32 (x + y + z).
Proof.
  rewrite (Z.add_comm x (wrap32 y)), wrap32_add_ll. f_equal. lia.
Qed.

Lemma counters_of_cases ft g :
  (ft = FAULT_TYPE_VDD \/ ft = FAULT_TYPE_CLK \/ ft = FAULT_TYPE_MEM_ECC) \/
  counters_of ft g = None.
Proof.
  unfold counters_of.
  destruct (Z.eqb_spec ft FAULT_TYPE_VDD); [tauto|].
  destruct (Z.eqb_spec ft FAULT_TYPE_CLK); [tauto|].
  destruct (Z.eqb_spec ft FAULT_TYPE_MEM_ECC); tauto.
Qed.

(** [fault_stats_record_detected] on an unlocked record: for VDD, CLK
    or MEM_ECC it returns true, advances the detected counter of that
    source by one modulo 2^32, and with it the total of
    [fault_stats_get_total_faults], and leaves the counters of the
    other sources and the recovery counters alone; for any other fault
    type (NONE, MULTIPLE, INVALID, ...) it returns false and changes no
    counter.  The lock is released either way. *)
Theorem record_detected_counts_one (ft : Z) (st : stats_t) :
  g_stats_locked st = false ->
  let r := fault_stats_record_detected ft st in
  let g := g_fault_stats st in
  let g' := g_fault_stats (snd r) in
  g_stats_locked (snd r) = false /\
  match counters_of ft g with
  | Some (d, u) =>
    fst r = true /\
    counters_of ft g' = Some (wrap32 (d + 1), u) /\
    fault_stats_get_total_faults (snd r) =
      wrap32 (fault_stats_get_total_faults st + 1) /\
    (forall ft', ft' <> ft -> counters_of ft' g' = counters_of ft' g) /\
    recovery_successes g' = recovery_successes g /\
    recovery_failures g' = recovery_failures g /\
    uptime_ms g' = uptime_ms g
  | None => fst r = false /\ g' = g
  end.
Proof.
  intros Hl r g g'. unfold g', r, fault_stats_record_detected. rewrite Hl.
  fold g.
  destruct (counters_of_cases ft g) as [[E|[E|E]]|E].
  4: { rewrite E. simpl. repeat split. }
  all: subst ft; unfold counters_of; simpl; repeat split;
    try (intros ft' Hne; unfold counters_of, set_detected; simpl;
         repeat match goal with
                | |- context [Z.eqb ?x ?y] =>
                  destruct (Z.eqb_spec x y); try congruence
                end; reflexivity).
  all: unfold fault_stats_get_total_faults; simpl; fold g;
    repeat (rewrite wrap32_add_l || rewrite wrap32_add_r
            || rewrite wrap32_add_ll || rewrite wrap32_add_mid);
    f_equal; lia.
Qed.

Lemma record_detected_counts_one_witness :
  g_stats_locked
    (snd (fault_stats_record_detected FAULT_TYPE_CLK stats_boot)) = false /\
  fault_stats_get_total_faults
    (snd (fault_stats_record_detected FAULT_TYPE_CLK stats_boot)) = 1 /\
  fst (fault_stats_record_detected FAULT_TYPE_MULTIPLE stats_boot) = false.
Proof.
  destruct (record_detected_counts_one FAULT_TYPE_CLK stats_boot eq_refl)
    as (H0 & H).
  destruct (record_detected_counts_one FAULT_TYPE_MULTIPLE stats_boot eq_refl)
    as (_ & K & _).
  split; [exact H0|]. split; [|exact K].
  destruct H as (_ & _ & H & _). exact H.
Defined.

Lemma calculate_dc_range_witness :
  0 <= out_value (fault_stats_calculate_dc FAULT_TYPE_VDD
          (mk_stats (mk_fault_statistics 4294967295 7 0 0 0 0 0 0 0 0) false))
    <= 100.
Proof.
  apply (calculate_dc_range FAULT_TYPE_VDD
           (mk_stats (mk_fault_statistics 4294967295 7 0 0 0 0 0 0 0 0) false)).
  reflexivity.
Defined.

Lemma calculate_dc_exact_witness :
  fault_stats_calculate_dc FAULT_TYPE_MEM_ECC
    (mk_stats (mk_fault_statistics 0 0 0 0 9 1 0 0 0 0) false)
  = (true, Some 90).
Proof.
  rewrite (calculate_dc_exact FAULT_TYPE_MEM_ECC _ 9 1);
    [reflexivity | reflexivity | lia | lia | lia | lia].
Defined.

Lemma calculate_dc_defined (ft : Z) (st : stats_t) :
  ft = FAULT_TYPE_VDD \/ ft = FAULT_TYPE_CLK \/ ft = FAULT_TYPE_MEM_ECC ->
  fault_stats_calculate_dc ft st =
    (true, Some (out_value (fault_stats_calculate_dc ft st))) /\
  0 <= out_value (fault_stats_calculate_dc ft st) <= 100.
Proof.
  intros H.
  assert (E : exists d, fault_stats_calculate_dc ft st = (true, Some d)).
  { unfold fault_stats_calculate_dc.
    destruct H as [H|[H|H]]; subst ft; unfold counters_of; simpl;
      match goal with
      | |- context [if ?c then _ else _] => destruct c
      end; eexists; reflexivity. }
  destruct E as (d & E). rewrite E. unfold out_value. simpl.
  split; [reflexivity|]. apply (calculate_dc_range ft st d E).
Qed.

(** [fault_stats_calculate_overall_dc] always succeeds, and stores the
    integer mean of the three per-source coverages, a value between 0
    and 100. *)
Theorem overall_dc_is_mean (st : stats_t) :
  let v := out_value (fault_stats_calculate_dc FAULT_TYPE_VDD st) in
  let c := out_value (fault_stats_calculate_dc FAULT_TYPE_CLK st) in
  let m := out_value (fault_stats_calculate_dc FAULT_TYPE_MEM_ECC st) in
  fault_stats_calculate_overall_dc st = (true, Some ((v + c + m) / 3)) /\
  0 <= (v + c + m) / 3 <= 100.
Proof.
  intros v c m.
  destruct (calculate_dc_defined FAULT_TYPE_VDD st) as (Ev & Rv); [tauto|].
  destruct (calculate_dc_defined FAULT_TYPE_CLK st) as (Ec & Rc); [tauto|].
  destruct (calculate_dc_defined FAULT_TYPE_MEM_ECC st) as (Em & Rm); [tauto|].
  fold v in Ev, Rv. fold c in Ec, Rc. fold m in Em, Rm.
  assert (Q : 0 <= (v + c + m) / 3 <= 100).
  { split; [apply Z.div_pos; lia|].
    apply Z.div_le_upper_bound; lia. }
  split; [|exact Q].
  unfold fault_stats_calculate_overall_dc. rewrite Ev, Ec, Em.
  unfold wrap16. rewrite (Z.mod_small (v + c + m)) by lia.
  rewrite wrap8_small by lia. reflexivity.
Qed.

(** [fault_stats_get_recovery_success_rate] always stores a percentage;
    it is 0 when no recovery was attempted, and otherwise the floor of
    successes * 100 / (successes + failures) as long as the product and
    the sum fit in 32 bits. *)
Theorem recovery_success_rate_value (st : stats_t) :
  let s := recovery_successes (g_fault_stats st) in
  let f := recovery_failures (g_fault_stats st) in
  let r := out_value (fault_stats_get_recovery_success_rate st) in
  fault_stats_get_recovery_success_rate st = (true, Some r) /\
  0 <= r <= 100 /\
  (0 <= s -> 0 <= f -> s * 100 < 4294967296 -> s + f < 4294967296 ->
   r = if s + f =? 0 then 0 else s * 100 / (s + f)).
Proof.
  intros s f r. unfold r, out_value, fault_stats_get_recovery_success_rate.
  fold s f.
  split; [destruct (wrap32 (s + f) =? 0); reflexivity|].
  split.
  - destruct (wrap32 (s + f) =? 0); simpl; [lia|].
    pose proof (wrap8_range (wrap32 (s * 100) / wrap32 (s + f))).
    destruct (Z.ltb_spec 100 (wrap8 (wrap32 (s * 100) / wrap32 (s + f)))); lia.
  - intros Hs Hf Hm Ha. unfold wrap32. rewrite !Z.mod_small by lia.
    destruct (Z.eqb_spec (s + f) 0); [reflexivity|]. simpl.
    assert (Hq : 0 <= s * 100 / (s + f) <= 100).
    { split; [apply Z.div_pos; lia|].
      apply Z.div_le_upper_bound; lia. }
    rewrite wrap8_small by lia.
    destruct (Z.ltb_spec 100 (s * 100 / (s + f))); [lia|reflexivity].
Qed.

Lemma recovery_success_rate_value_witness :
  out_value
    (fault_stats_get_recovery_success_rate
       (mk_stats (mk_fault_statistics 0 0 0 0 0 0 2 1 0 0) false)) = 66.
Proof.
  pose proof (recovery_success_rate_value
                (mk_stats (mk_fault_statistics 0 0 0 0 0 0 2 1 0 0) false)) as H.
  cbv zeta in H. destruct H as (_ & _ & V).
  rewrite V by (simpl; lia). reflexivity.
Defined.

(** ** clk_event_handler.c *)

Lemma clk_isr_once (s : clk_handler_t) :
  0 <= clk_isr_nesting_level s < CLK_ISR_MAX_NESTING ->
  clk_event_handler_clk_loss_isr s =
    let c := if clk_fault_event_count s <? 0xFFFFFFFF
             then clk_fault_event_count s + 1 else clk_fault_event_count s in
    mk_clk_handler c 0x01 0xFE c (clk_isr_nesting_level s).
Proof.
  unfold CLK_ISR_MAX_NESTING. intros H.
  unfold clk_event_handler_clk_loss_isr.
  cbn [clk_isr_nesting_level clk_set_nesting].
  rewrite wrap8_small by lia.
  unfold CLK_ISR_MAX_NESTING.
  destruct (Z.ltb_spec 8 (clk_isr_nesting_level s + 1)); [lia|].
  cbn -[wrap8 not8 Z.add Z.sub Z.ltb].
  destruct (clk_fault_event_count s <? 0xFFFFFFFF);
    cbn -[wrap8 Z.add Z.sub];
    rewrite wrap8_small by lia;
    replace (clk_isr_nesting_level s + 1 - 1) with (clk_isr_nesting_level s)
      by lia;
    reflexivity.
Qed.

(** The event counter of the clock handler saturates: [n] runs of the
    ISR, each from entry to exit, starting below the nesting limit,
    leave [clk_fault_event_count] at min(count + n, 0xFFFFFFFF) and the
    nesting level where it was; after at least one run the flag reads
    as asserted and the timestamp holds the event count. *)
Theorem clk_event_count_saturates (n : nat) (s : clk_handler_t) :
  0 <= clk_isr_nesting_level s < CLK_ISR_MAX_NESTING ->
  0 <= clk_fault_event_count s <= 0xFFFFFFFF ->
  let s' := clk_isr_runs n s in
  clk_fault_event_count s' =
    Z.min (clk_fault_event_count s + Z.of_nat n) 0xFFFFFFFF /\
  clk_isr_nesting_level s' = clk_isr_nesting_level s /\
  (n <> O ->
   clk_event_handler_get_fault_flag s' = (SAFETY_OK, Some true) /\
   clk_loss_timestamp s' = clk_fault_event_count s').
Proof.
  revert s. induction n as [|n IH]; intros s Hl Hc.
  - simpl. split; [lia|]. split; [reflexivity|congruence].
  - change (clk_isr_runs (S n) s)
      with (clk_isr_runs n (clk_event_handler_clk_loss_isr s)).
    pose proof (clk_isr_once s Hl) as E. cbv zeta in E.
    set (c := if clk_fault_event_count s <? 0xFFFFFFFF
              then clk_fault_event_count s + 1
              else clk_fault_event_count s) in E.
    assert (Hc' : 0 <= c <= 0xFFFFFFFF).
    { unfold c. destruct (Z.ltb_spec (clk_fault_event_count s) 0xFFFFFFFF); lia. }
    assert (Hc1 : Z.min (c + Z.of_nat n) 0xFFFFFFFF =
                  Z.min (clk_fault_event_count s + Z.of_nat (S n)) 0xFFFFFFFF).
    { unfold c. destruct (Z.ltb_spec (clk_fault_event_count s) 0xFFFFFFFF); lia. }
    rewrite E.
    destruct (IH (mk_clk_handler c 0x01 0xFE c (clk_isr_nesting_level s)))
      as (I1 & I2 & I3); [exact Hl | exact Hc' |].
    cbv zeta in *. simpl in I1, I2.
    split; [rewrite I1; exact Hc1|]. split; [exact I2|].
    intros _. destruct n as [|n].
    + simpl. split; reflexivity.
    + apply I3. discriminate.
Qed.

Lemma clk_event_count_saturates_witness :
  clk_fault_event_count
    (clk_isr_runs 3 (mk_clk_handler 0xFFFFFFFE 0 0xFF 0 0)) = 0xFFFFFFFF.
Proof.
  destruct (clk_event_count_saturates 3 (mk_clk_handler 0xFFFFFFFE 0 0xFF 0 0))
    as (H & _).
  - unfold CLK_ISR_MAX_NESTING. simpl. lia.
  - simpl. lia.
  - rewrite H. reflexivity.
Defined.

(** [clk_event_handler_clear_fault] and [clk_event_handler_init] never
    fail: whatever the flag pair held, a corrupted pair included, they
    return SAFETY_OK and leave a pair that reads as a valid clear flag;
    the clear keeps the event counter and the nesting level. *)
Theorem clk_clear_always_restores_flag (s : clk_handler_t) :
  let c := clk_event_handler_clear_fault s in
  let i := clk_event_handler_init s in
  fst c = SAFETY_OK /\
  clk_event_handler_get_fault_flag (snd c) = (SAFETY_OK, Some false) /\
  clk_fault_event_count (snd c) = clk_fault_event_count s /\
  clk_isr_nesting_level (snd c) = clk_isr_nesting_level s /\
  fst i = SAFETY_OK /\
  clk_event_handler_get_fault_flag (snd i) = (SAFETY_OK, Some false) /\
  clk_fault_event_count (snd i) = 0 /\
  clk_isr_nesting_level (snd i) = 0.
Proof. repeat split. Qed.

(** ** ecc_handler.c *)

(** Whatever state it is entered in, [ecc_fault_isr] leaves a
    well-formed, asserted flag pair: [ecc_fault_is_active] is true and
    [ecc_fault_detect_corruption] false afterwards.  A first
    [ecc_fault_clear] then succeeds and leaves the flag inactive, and a
    second one is refused. *)
Theorem ecc_isr_always_asserts_flag (e : ecc_t) :
  let e1 := ecc_fault_isr e in
  let e2 := snd (ecc_fault_clear e1) in
  ecc_fault_is_active e1 = true /\
  ecc_fault_detect_corruption e1 = false /\
  fst (ecc_fault_clear e1) = true /\
  ecc_fault_is_active e2 = false /\
  ecc_fault_detect_corruption e2 = false /\
  ecc_fault_clear e2 = (false, e2).
Proof.
  unfold ecc_fault_isr.
  destruct (ECC_ISR_NESTING_MAX <=? mem_nesting e); [repeat split|].
  cbn -[wrap8 wrap32].
  destruct (wrap32 (mem_fault_event_count (mem_fault_state e) + 1) =? 0);
    repeat split.
Qed.

Lemma ecc_isr_once (e : ecc_t) :
  0 <= mem_nesting e < ECC_ISR_NESTING_MAX ->
  0 <= mem_count e <= 0xFFFFFFFF ->
  ecc_fault_isr e =
    mk_ecc
      (mk_mem_fault_state 0x01 0xFE (mem_nesting e)
         (Z.min (mem_count e + 1) 0xFFFFFFFF))
      (mk_ecc_handler_state
         (handler_enabled (ecc_handler_state e))
         (total_sbe_events (ecc_handler_state e))
         (total_mbe_events (ecc_handler_state e))
         (last_error_type (ecc_handler_state e))
         (last_error_position (ecc_handler_state e)) 0).
Proof.
  unfold ECC_ISR_NESTING_MAX, mem_nesting, mem_count. intros Hn Hc.
  unfold ecc_fault_isr, ECC_ISR_NESTING_MAX, mem_nesting.
  destruct (Z.leb_spec 8 (mem_isr_nesting_count (mem_fault_state e))); [lia|].
  unfold mem_set_nesting, mem_set_flag, mem_set_complement, mem_set_count,
    ecc_set_timestamp, mem_count, mem_nesting.
  cbn -[wrap8 wrap32 Z.min Z.add Z.sub].
  rewrite (wrap8_small (mem_isr_nesting_count (mem_fault_state e) + 1)) by lia.
  destruct (Z.eq_dec (mem_fault_event_count (mem_fault_state e)) 0xFFFFFFFF)
    as [E|E].
  - rewrite E. change (wrap32 (4294967295 + 1)) with 0.
    cbn -[wrap8 Z.add Z.sub].
    replace (mem_isr_nesting_count (mem_fault_state e) + 1 - 1)
      with (mem_isr_nesting_count (mem_fault_state e)) by lia.
    rewrite wrap8_small by lia. reflexivity.
  - unfold wrap32. rewrite Z.mod_small by lia.
    destruct (Z.eqb_spec (mem_fault_event_count (mem_fault_state e) + 1) 0);
      [lia|].
    cbn -[wrap8 Z.min Z.add Z.sub].
    replace (mem_isr_nesting_count (mem_fault_state e) + 1 - 1)
      with (mem_isr_nesting_count (mem_fault_state e)) by lia.
    rewrite wrap8_small by lia. rewrite Z.min_l by lia. reflexivity.
Qed.

(** The event counter of the memory handler saturates as well: [n] runs
    of [ecc_fault_isr] starting below the nesting limit leave
    [mem_fault_event_count] at min(count + n, 0xFFFFFFFF), the wrap of
    the increment to 0 being put back to the maximum, and the nesting
    count where it was. *)
Theorem ecc_event_count_saturates (n : nat) (e : ecc_t) :
  0 <= mem_nesting e < ECC_ISR_NESTING_MAX ->
  0 <= mem_count e <= 0xFFFFFFFF ->
  mem_count (ecc_isr_runs n e) = Z.min (mem_count e + Z.of_nat n) 0xFFFFFFFF /\
  mem_nesting (ecc_isr_runs n e) = mem_nesting e.
Proof.
  revert e. induction n as [|n IH]; intros e Hn Hc.
  - simpl. split; [lia|reflexivity].
  - change (ecc_isr_runs (S n) e) with (ecc_isr_runs n (ecc_fault_isr e)).
    rewrite (ecc_isr_once e Hn Hc).
    match goal with
    | |- context [ecc_isr_runs n ?x] => set (e1 := x)
    end.
    assert (C1 : mem_count e1 = Z.min (mem_count e + 1) 0xFFFFFFFF)
      by reflexivity.
    assert (N1 : mem_nesting e1 = mem_nesting e) by reflexivity.
    destruct (IH e1) as (I1 & I2); [rewrite N1; exact Hn | rewrite C1; lia |].
    rewrite I1, I2, C1, N1.
    split; [lia|reflexivity].
Qed.

Lemma ecc_event_count_saturates_witness :
  mem_count
    (ecc_isr_runs 2
       (mk_ecc (mk_mem_fault_state 0x00 0xFF 0 0xFFFFFFFF)
               (mk_ecc_handler_state true 0 0 0 0 0))) = 0xFFFFFFFF.
Proof.
  destruct (ecc_event_count_saturates 2
              (mk_ecc (mk_mem_fault_state 0x00 0xFF 0 0xFFFFFFFF)
                      (mk_ecc_handler_state true 0 0 0 0 0))) as (H & _).
  - change (0 <= 0 < 8). lia.
  - change (0 <= 4294967295 <= 4294967295). lia.
  - rewrite H. reflexivity.
Defined.

(** [ecc_fault_record_sbe] counts with saturation at 0xFFFF and marks
    the last error as a single-bit one: after [n] calls the SBE count
    is min(count + n, 0xFFFF), the MBE count and the fault flag are
    untouched. *)
Theorem record_sbe_saturates (n : nat) (e : ecc_t) :
  0 <= ecc_fault_get_sbe_count e <= 0xFFFF ->
  let e' := ecc_record_sbe_runs n e in
  ecc_fault_get_sbe_count e' =
    Z.min (ecc_fault_get_sbe_count e + Z.of_nat n) 0xFFFF /\
  ecc_fault_get_mbe_count e' = ecc_fault_get_mbe_count e /\
  mem_fault_state e' = mem_fault_state e /\
  (n <> O -> ecc_fault_get_last_error_type e' = 1).
Proof.
  revert e. induction n as [|n IH]; intros e Hc.
  - simpl. repeat split; [lia|congruence].
  - change (ecc_record_sbe_runs (S n) e)
      with (ecc_record_sbe_runs n (snd (ecc_fault_record_sbe e))).
    set (e1 := snd (ecc_fault_record_sbe e)).
    assert (H1 : ecc_fault_get_sbe_count e1 =
                 Z.min (ecc_fault_get_sbe_count e + 1) 0xFFFF).
    { unfold e1, ecc_fault_record_sbe, ecc_fault_get_sbe_count in *. simpl.
      destruct (Z.ltb_spec (total_sbe_events (ecc_handler_state e)) 0xFFFF);
        lia. }
    destruct (IH e1) as (I1 & I2 & I3 & I4); [rewrite H1; lia|].
    cbv zeta. rewrite I1, I2, I3, H1.
    split; [lia|]. split; [reflexivity|]. split; [reflexivity|].
    intros _. destruct n as [|n]; [reflexivity|].
    apply I4. discriminate.
Qed.

Lemma record_sbe_saturates_witness :
  ecc_fault_get_sbe_count
    (ecc_record_sbe_runs 5
       (mk_ecc (mk_mem_fault_state 0x00 0xFF 0 0)
               (mk_ecc_handler_state true 0xFFFD 0 0 0 0))) = 0xFFFF.
Proof.
  destruct (record_sbe_saturates 5
              (mk_ecc (mk_mem_fault_state 0x00 0xFF 0 0)
                      (mk_ecc_handler_state true 0xFFFD 0 0 0 0))) as (H & _).
  - change (0 <= 65533 <= 65535). lia.
  - rewrite H. reflexivity.
Defined.



(** ** clk_monitor_service.c *)

Ltac svc_fields :=
  cbn [clk_service_state clk_recovery_timeout_counter clk_stability_counter
       clk_recovery_attempts tick_count
       svc_set_state svc_set_timeout svc_set_stability svc_set_attempts
       svc_set_tick] in *.

Ltac svc_bounded_done :=
  unfold clk_service_bounded, recovery_timeout_ticks,
    stability_check_duration, CLK_SERVICE_STATE_IDLE,
    CLK_SERVICE_STATE_FAULT_ACTIVE, CLK_SERVICE_STATE_RECOVERY_PENDING,
    CLK_SERVICE_STATE_RECOVERY_CONFIRMED;
  svc_fields; repeat split; try tauto; try lia.

Lemma wrap32_small x : 0 <= x < 4294967296 -> wrap32 x = x.
Proof. intros H. unfold wrap32. apply Z.mod_small. exact H. Qed.

(** One tick in each of the four states. *)
Lemma clk_service_tick_eq (hw : bool) (s : clk_service_t) :
  0 <= clk_recovery_timeout_counter s < recovery_timeout_ticks ->
  0 <= clk_stability_counter s <= stability_check_duration ->
  let tk := wrap32 (tick_count s + 1) in
  let to := clk_recovery_timeout_counter s in
  let sb := clk_stability_counter s in
  let att := clk_recovery_attempts s in
  (clk_service_state s = CLK_SERVICE_STATE_IDLE ->
   clk_service_task_hw hw s =
     if hw then mk_clk_service CLK_SERVICE_STATE_FAULT_ACTIVE 0 0 att tk
     else mk_clk_service CLK_SERVICE_STATE_IDLE to sb att tk) /\
  (clk_service_state s = CLK_SERVICE_STATE_FAULT_ACTIVE ->
   clk_service_task_hw hw s =
     if recovery_timeout_ticks <=? to + 1
     then mk_clk_service CLK_SERVICE_STATE_IDLE 0 sb att tk
     else if hw
          then mk_clk_service CLK_SERVICE_STATE_FAULT_ACTIVE (to + 1) sb att tk
          else mk_clk_service CLK_SERVICE_STATE_RECOVERY_PENDING (to + 1) 0 att tk) /\
  (clk_service_state s = CLK_SERVICE_STATE_RECOVERY_PENDING ->
   clk_service_task_hw hw s =
     if hw then mk_clk_service CLK_SERVICE_STATE_FAULT_ACTIVE 0 0 att tk
     else if stability_check_duration <=? sb + 1
          then mk_clk_service CLK_SERVICE_STATE_RECOVERY_CONFIRMED to (sb + 1) att tk
          else mk_clk_service CLK_SERVICE_STATE_RECOVERY_PENDING to (sb + 1) att tk) /\
  (clk_service_state s = CLK_SERVICE_STATE_RECOVERY_CONFIRMED ->
   clk_service_task_hw hw s =
     if hw then mk_clk_service CLK_SERVICE_STATE_FAULT_ACTIVE 0 0 att tk
     else mk_clk_service CLK_SERVICE_STATE_RECOVERY_CONFIRMED to sb att tk).
Proof.
  unfold recovery_timeout_ticks, stability_check_duration.
  destruct s as [st to sb att tk]. svc_fields. intros Hto Hsb.
  unfold clk_service_task_hw, clk_service_switch, recovery_timeout_ticks,
    stability_check_duration.
  svc_fields.
  repeat split; intros Hst; subst st;
    cbn [Z.eqb Pos.eqb CLK_SERVICE_STATE_IDLE CLK_SERVICE_STATE_FAULT_ACTIVE
         CLK_SERVICE_STATE_RECOVERY_PENDING
         CLK_SERVICE_STATE_RECOVERY_CONFIRMED];
    svc_fields.
  - destruct hw; reflexivity.
  - rewrite !(wrap32_small (to + 1)) by lia.
    destruct (10 <=? to + 1); [reflexivity|]. destruct hw; reflexivity.
  - destruct hw; [reflexivity|].
    rewrite !(wrap32_small (sb + 1)) by lia.
    destruct (5 <=? sb + 1); reflexivity.
  - destruct hw; reflexivity.
Qed.

Lemma clk_service_tick_bounded (hw : bool) (s : clk_service_t) :
  clk_service_bounded s -> clk_service_bounded (clk_service_task_hw hw s).
Proof.
  intros (Hst & Hto & Hsb & Hp).
  destruct (clk_service_tick_eq hw s Hto Hsb) as (E0 & E1 & E2 & E3).
  unfold recovery_timeout_ticks, stability_check_duration in *.
  destruct Hst as [H|[H|[H|H]]].
  - rewrite (E0 H). destruct hw; svc_bounded_done; discriminate.
  - rewrite (E1 H).
    destruct (Z.leb_spec 10 (clk_recovery_timeout_counter s + 1));
      [|destruct hw]; svc_bounded_done; discriminate.
  - rewrite (E2 H). specialize (Hp H).
    destruct hw; [svc_bounded_done; discriminate|].
    destruct (Z.leb_spec 5 (clk_stability_counter s + 1));
      svc_bounded_done; discriminate.
  - rewrite (E3 H). destruct hw; svc_bounded_done; discriminate.
Qed.

Lemma clk_service_apply_bounded (op : clk_service_op) (s : clk_service_t) :
  clk_service_bounded s -> clk_service_bounded (clk_service_apply op s).
Proof.
  intros H. destruct op as [| | | |hw]; simpl.
  - svc_bounded_done; discriminate.
  - pose proof H as (Hst & Hto & Hsb & Hp).
    unfold clk_service_handle_fault.
    destruct (Z.eqb_spec (clk_service_state s) CLK_SERVICE_STATE_IDLE);
      simpl; [|exact H].
    svc_bounded_done; discriminate.
  - pose proof H as (Hst & Hto & Hsb & Hp).
    unfold clk_service_request_recovery.
    destruct (Z.eqb_spec (clk_service_state s) CLK_SERVICE_STATE_IDLE);
      simpl; [exact H|].
    destruct (Z.eqb_spec (clk_service_state s)
                CLK_SERVICE_STATE_RECOVERY_CONFIRMED); simpl.
    + unfold clk_service_bounded in *. svc_fields.
      repeat split; try tauto. discriminate.
    + destruct (_ || _); exact H.
  - exact H.
  - apply clk_service_tick_bounded, H.
Qed.

(** The recovery service keeps its state word and its counters within
    bounds: starting with one of the four states, the timeout counter
    below 10 and the stability counter at most 5 (below 5 while in
    RECOVERY_PENDING), every sequence of init, handle-fault,
    request-recovery, reset-statistics and tick calls, with any values
    of the fault signal, ends within the same bounds. *)
Theorem clk_service_stays_bounded (ops : list clk_service_op) (s : clk_service_t) :
  clk_service_bounded s -> clk_service_bounded (clk_service_run ops s).
Proof.
  revert s. induction ops as [|op ops IH]; intros s H; simpl; [exact H|].
  apply IH, clk_service_apply_bounded, H.
Qed.

Lemma clk_service_stays_bounded_witness :
  clk_service_bounded
    (clk_service_run
       [SvcHandleFault; SvcTick true; SvcTick false; SvcTick false;
        SvcTick true; SvcRequestRecovery; SvcTick false]
       clk_service_boot).
Proof.
  apply clk_service_stays_bounded.
  unfold clk_service_boot. svc_bounded_done.
Defined.

(** A state word outside the four states is put back to IDLE by the
    next tick, counters untouched. *)
Lemma clk_service_tick_repairs_state (hw : bool) (s : clk_service_t) :
  clk_service_state s <> CLK_SERVICE_STATE_IDLE ->
  clk_service_state s <> CLK_SERVICE_STATE_FAULT_ACTIVE ->
  clk_service_state s <> CLK_SERVICE_STATE_RECOVERY_PENDING ->
  clk_service_state s <> CLK_SERVICE_STATE_RECOVERY_CONFIRMED ->
  clk_service_switch hw s = svc_set_state CLK_SERVICE_STATE_IDLE s.
Proof.
  intros H0 H1 H2 H3. unfold clk_service_switch.
  destruct (Z.eqb_spec (clk_service_state s) CLK_SERVICE_STATE_IDLE);
    [contradiction|].
  destruct (Z.eqb_spec (clk_service_state s) CLK_SERVICE_STATE_FAULT_ACTIVE);
    [contradiction|].
  destruct (Z.eqb_spec (clk_service_state s) CLK_SERVICE_STATE_RECOVERY_PENDING);
    [contradiction|].
  destruct (Z.eqb_spec (clk_service_state s) CLK_SERVICE_STATE_RECOVERY_CONFIRMED);
    [contradiction|reflexivity].
Qed.

(** The stability window: in RECOVERY_PENDING, with the fault signal
    deasserted on every tick, the stability counter advances by one per
    tick; the service stays in RECOVERY_PENDING, where
    [clk_service_request_recovery] answers SAFETY_PENDING, for as long
    as the counter is below 5, and is in RECOVERY_CONFIRMED on the tick
    that brings it to 5, where the request returns SAFETY_OK and puts
    the service back to IDLE. *)
Theorem stability_window_confirms_at_five (k : nat) (s : clk_service_t) :
  clk_service_state s = CLK_SERVICE_STATE_RECOVERY_PENDING ->
  0 <= clk_recovery_timeout_counter s < recovery_timeout_ticks ->
  0 <= clk_stability_counter s ->
  clk_stability_counter s + Z.of_nat k <= stability_check_duration ->
  let s' := clk_service_run (repeat (SvcTick false) k) s in
  clk_stability_counter s' = clk_stability_counter s + Z.of_nat k /\
  clk_recovery_timeout_counter s' = clk_recovery_timeout_counter s /\
  (clk_stability_counter s + Z.of_nat k < stability_check_duration ->
   clk_service_state s' = CLK_SERVICE_STATE_RECOVERY_PENDING /\
   clk_service_request_recovery s' = (SAFETY_PENDING, s')) /\
  (k <> O ->
   clk_stability_counter s + Z.of_nat k = stability_check_duration ->
   clk_service_state s' = CLK_SERVICE_STATE_RECOVERY_CONFIRMED /\
   fst (clk_service_request_recovery s') = SAFETY_OK /\
   clk_service_state (snd (clk_service_request_recovery s'))
     = CLK_SERVICE_STATE_IDLE).
Proof.
  revert s. induction k as [|k IH]; intros s Hs Hto H0 Hk.
  - simpl. rewrite Z.add_0_r. repeat split; try congruence.
    unfold clk_service_request_recovery. rewrite Hs. reflexivity.
  - simpl repeat.
    change (clk_service_run (SvcTick false :: repeat (SvcTick false) k) s)
      with (clk_service_run (repeat (SvcTick false) k)
              (clk_service_task_hw false s)).
    assert (Hsb : 0 <= clk_stability_counter s <= stability_check_duration)
      by lia.
    destruct (clk_service_tick_eq false s Hto Hsb) as (_ & _ & E & _).
    rewrite (E Hs). clear E.
    unfold stability_check_duration in *.
    destruct k as [|k].
    + simpl clk_service_run.
      destruct (Z.leb_spec 5 (clk_stability_counter s + 1)); svc_fields.
      * repeat split; try lia.
      * repeat split; try lia.
    + destruct (Z.leb_spec 5 (clk_stability_counter s + 1)); [lia|].
      match goal with
      | |- context [clk_service_run _ ?x] =>
        destruct (IH x) as (I1 & I2 & I3 & I4);
          [reflexivity | exact Hto | svc_fields; lia | svc_fields; lia |]
      end.
      cbv zeta in *. svc_fields.
      split; [rewrite I1; lia|]. split; [exact I2|]. split.
      * intros Hlt. apply I3. lia.
      * intros _ Heq. apply I4; [discriminate | lia].
Qed.

Lemma stability_window_confirms_at_five_witness :
  let s := clk_service_run [SvcHandleFault; SvcTick true; SvcTick false]
             clk_service_boot in
  clk_service_state s = CLK_SERVICE_STATE_RECOVERY_PENDING /\
  clk_service_state (clk_service_run (repeat (SvcTick false) 4) s)
    = CLK_SERVICE_STATE_RECOVERY_PENDING /\
  clk_service_state (clk_service_run (repeat (SvcTick false) 5) s)
    = CLK_SERVICE_STATE_RECOVERY_CONFIRMED.
Proof.
  intros s. split; [reflexivity|]. split.
  - destruct (stability_window_confirms_at_five 4 s) as (_ & _ & H & _).
    + reflexivity.
    + change (0 <= 2 < 10). lia.
    + change (0 <= 0). lia.
    + change (0 + 4 <= 5). lia.
    + apply H. change (0 + 4 < 5). lia.
  - destruct (stability_window_confirms_at_five 5 s) as (_ & _ & _ & H).
    + reflexivity.
    + change (0 <= 2 < 10). lia.
    + change (0 <= 0). lia.
    + change (0 + 5 <= 5). lia.
    + apply H; [discriminate | reflexivity].
Defined.

(** A fault signal that comes back during or after validation restarts
    the timeout budget: an asserted tick in RECOVERY_PENDING or
    RECOVERY_CONFIRMED puts the service in FAULT_ACTIVE with both
    counters at 0.  No tick, whatever the state and the signal, changes
    the count of recovery attempts, which only
    [clk_service_handle_fault] advances, and only from IDLE. *)
Theorem refault_restarts_timeout_budget (hw : bool) (s : clk_service_t) :
  (clk_service_state s = CLK_SERVICE_STATE_RECOVERY_PENDING \/
   clk_service_state s = CLK_SERVICE_STATE_RECOVERY_CONFIRMED ->
   clk_service_state (clk_service_task_hw true s)
     = CLK_SERVICE_STATE_FAULT_ACTIVE /\
   clk_recovery_timeout_counter (clk_service_task_hw true s) = 0 /\
   clk_stability_counter (clk_service_task_hw true s) = 0) /\
  clk_recovery_attempts (clk_service_task_hw hw s) = clk_recovery_attempts s /\
  clk_recovery_attempts (clk_service_task s) = clk_recovery_attempts s /\
  clk_recovery_attempts (snd (clk_service_handle_fault s)) =
    (if clk_service_state s =? CLK_SERVICE_STATE_IDLE
     then wrap32 (clk_recovery_attempts s + 1) else clk_recovery_attempts s).
Proof.
  destruct s as [st to sb att tk].
  split; [|split; [|split]].
  - svc_fields. intros [H|H]; subst st; repeat split.
  - unfold clk_service_task_hw, clk_service_switch. svc_fields.
    repeat match goal with
           | |- context [if ?c then _ else _] => destruct c
           end; reflexivity.
  - unfold clk_service_task, clk_service_switch. svc_fields.
    repeat match goal with
           | |- context [if ?c then _ else _] => destruct c
           end; reflexivity.
  - unfold clk_service_handle_fault. svc_fields.
    destruct (st =? CLK_SERVICE_STATE_IDLE); reflexivity.
Qed.

Lemma refault_restarts_timeout_budget_witness :
  let s := clk_service_run
             [SvcHandleFault; SvcTick true; SvcTick false; SvcTick false]
             clk_service_boot in
  clk_service_state s = CLK_SERVICE_STATE_RECOVERY_PENDING /\
  clk_recovery_timeout_counter s = 2 /\
  clk_service_state (clk_service_task_hw true s) = CLK_SERVICE_STATE_FAULT_ACTIVE /\
  clk_recovery_timeout_counter (clk_service_task_hw true s) = 0.
Proof.
  intros s. split; [reflexivity|]. split; [reflexivity|].
  destruct (refault_restarts_timeout_budget true s) as (H & _).
  destruct H as (H1 & H2 & _); [left; reflexivity|].
  split; [exact H1 | exact H2].
Defined.

(** The timeout budget is a bound: from FAULT_ACTIVE with [n + 1]
    ticks of budget left, whatever the fault signal does, the service
    leaves FAULT_ACTIVE on some tick among the next [n + 1] (for
    RECOVERY_PENDING if the signal was seen deasserted in time, for
    IDLE when the budget ran out), having stayed in FAULT_ACTIVE until
    then. *)
Theorem fault_active_ends_within_budget (n : nat) (hws : list bool)
    (s : clk_service_t) :
  clk_service_state s = CLK_SERVICE_STATE_FAULT_ACTIVE ->
  0 <= clk_recovery_timeout_counter s ->
  0 <= clk_stability_counter s <= stability_check_duration ->
  clk_recovery_timeout_counter s + Z.of_nat (S n) = recovery_timeout_ticks ->
  length hws = S n ->
  exists k : nat,
    (1 <= k <= S n)%nat /\
    clk_service_state (clk_service_run (map SvcTick (firstn k hws)) s)
      <> CLK_SERVICE_STATE_FAULT_ACTIVE /\
    forall j : nat, (j < k)%nat ->
      clk_service_state (clk_service_run (map SvcTick (firstn j hws)) s)
        = CLK_SERVICE_STATE_FAULT_ACTIVE.
Proof.
  revert hws s. induction n as [|n IH]; intros hws s Hs Hto Hsb Hn Hl;
    destruct hws as [|hw tl]; try discriminate Hl;
    assert (Hb : 0 <= clk_recovery_timeout_counter s < recovery_timeout_ticks)
      by lia;
    destruct (clk_service_tick_eq hw s Hb Hsb) as (_ & E & _);
    specialize (E Hs); unfold recovery_timeout_ticks in *.
  - exists 1%nat. split; [lia|]. split.
    + simpl. rewrite E.
      destruct (Z.leb_spec 10 (clk_recovery_timeout_counter s + 1)); [|lia].
      discriminate.
    + intros j Hj. assert (j = 0%nat) by lia. subst j. exact Hs.
  - destruct (Z.leb_spec 10 (clk_recovery_timeout_counter s + 1)); [lia|].
    destruct hw.
    + injection Hl as Hl.
      destruct (IH tl (clk_service_task_hw true s)) as (k & Hk & Hout & Hin).
      * rewrite E. reflexivity.
      * rewrite E. svc_fields. lia.
      * rewrite E. exact Hsb.
      * rewrite E. svc_fields. lia.
      * exact Hl.
      * exists (S k). split; [lia|]. split; [exact Hout|].
        intros [|j] Hj; [exact Hs|]. apply Hin. lia.
    + exists 1%nat. split; [lia|]. split.
      * simpl. rewrite E. discriminate.
      * intros j Hj. assert (j = 0%nat) by lia. subst j. exact Hs.
Qed.

Lemma fault_active_ends_within_budget_witness :
  exists k : nat,
    (1 <= k <= 10)%nat /\
    clk_service_state
      (clk_service_run
         (map SvcTick
            (firstn k [true; true; true; false; true; true; true; true;
                       true; true]))
         (snd (clk_service_handle_fault clk_service_boot)))
    <> CLK_SERVICE_STATE_FAULT_ACTIVE.
Proof.
  destruct (fault_active_ends_within_budget 9
              [true; true; true; false; true; true; true; true; true; true]
              (snd (clk_service_handle_fault clk_service_boot)))
    as (k & Hk & Hout & _).
  - reflexivity.
  - change (0 <= 0). lia.
  - change (0 <= 0 <= 5). lia.
  - reflexivity.
  - reflexivity.
  - exists k. split; [exact Hk | exact Hout].
Defined.

(** ** interrupt_handler.c *)

Lemma array3_get_set_same (k : nat) (v : Z) (a : array3) :
  array3_get k (array3_set k v a) = v.
Proof. destruct k as [|[|k]]; reflexivity. Qed.

Lemma array3_get_set_other (j k : nat) (v : Z) (a : array3) :
  (j < 3)%nat -> (k < 3)%nat -> j <> k ->
  array3_get j (array3_set k v a) = array3_get j a.
Proof.
  intros Hj Hk Hne.
  destruct j as [|[|[|j]]]; destruct k as [|[|[|k]]];
    try lia; try reflexivity; congruence.
Qed.

Lemma array3_set_set_back (k : nat) (v : Z) (a : array3) :
  array3_set k (array3_get k a) (array3_set k v a) = a.
Proof. destruct a, k as [|[|k]]; reflexivity. Qed.

Lemma fault_isr_handler_once (k : nat) (s : isr_state_t) :
  0 <= array3_get k (g_isr_nesting_level s) <= 1 ->
  fault_isr_handler k s =
    Some (mk_isr_state
            (array3_set k (wrap32 (array3_get k (g_isr_call_counts s) + 1))
               (g_isr_call_counts s))
            (array3_set k 0 (g_isr_last_timestamp s))
            (g_isr_nesting_level s)).
Proof.
  intros H. unfold fault_isr_handler.
  rewrite !array3_get_set_same.
  rewrite (wrap8_small (array3_get k (g_isr_nesting_level s) + 1)) by lia.
  destruct (Z.ltb_spec 2 (array3_get k (g_isr_nesting_level s) + 1)); [lia|].
  replace (array3_get k (g_isr_nesting_level s) + 1 - 1)
    with (array3_get k (g_isr_nesting_level s)) by lia.
  rewrite wrap8_small by lia.
  f_equal. f_equal.
  destruct (g_isr_nesting_level s), k as [|[|k]]; reflexivity.
Qed.

Lemma get_call_count_slot (j : nat) (s : isr_state_t) :
  (j < 3)%nat ->
  interrupt_handler_get_call_count (Z.of_nat j) s =
    array3_get j (g_isr_call_counts s).
Proof.
  intros Hj. unfold interrupt_handler_get_call_count.
  destruct (Z.ltb_spec (Z.of_nat j) 3); [|lia].
  rewrite Nat2Z.id. reflexivity.
Qed.

(** The three fault ISRs of the vector table.  Entered with the nesting
    level of their source at 0 or 1 they return, count the call in
    their own slot modulo 2^32 (no saturation here), and leave the
    other slots and every nesting level as they were, so [n] runs count
    [n] calls.  Entered with the level at 2 or more (up to 254) they
    never return: the handler halts in its endless loop. *)
Theorem vector_isr_counts_or_halts (k n : nat) (s : isr_state_t) :
  (k < 3)%nat ->
  0 <= array3_get k (g_isr_call_counts s) < 4294967296 ->
  (0 <= array3_get k (g_isr_nesting_level s) <= 1 ->
   exists s',
     fault_isr_runs k n s = Some s' /\
     interrupt_handler_get_call_count (Z.of_nat k) s' =
       wrap32 (interrupt_handler_get_call_count (Z.of_nat k) s + Z.of_nat n) /\
     (forall j, (j < 3)%nat -> j <> k ->
        interrupt_handler_get_call_count (Z.of_nat j) s' =
        interrupt_handler_get_call_count (Z.of_nat j) s) /\
     g_isr_nesting_level s' = g_isr_nesting_level s) /\
  (2 <= array3_get k (g_isr_nesting_level s) < 255 ->
   fault_isr_handler k s = None).
Proof.
  intros Hk Hc. split.
  - revert s Hc. induction n as [|n IH]; intros s Hc Hl.
    + exists s. simpl. rewrite Z.add_0_r, get_call_count_slot by exact Hk.
      rewrite wrap32_small by exact Hc. repeat split.
    + simpl. rewrite (fault_isr_handler_once k s Hl).
      match goal with
      | |- context [fault_isr_runs k n ?x] => set (s1 := x)
      end.
      assert (C1 : array3_get k (g_isr_call_counts s1) =
                   wrap32 (array3_get k (g_isr_call_counts s) + 1)).
      { unfold s1. simpl. apply array3_get_set_same. }
      destruct (IH s1) as (s' & R & Ck & Cj & Nl).
      * rewrite C1. unfold wrap32. apply Z.mod_pos_bound. lia.
      * exact Hl.
      * exists s'. split; [exact R|]. split; [|split].
        -- rewrite Ck, !get_call_count_slot, C1 by exact Hk.
           rewrite wrap32_add_l. f_equal. lia.
        -- intros j Hj Hne. rewrite (Cj j Hj Hne).
           rewrite !get_call_count_slot by exact Hj.
           unfold s1. simpl. apply array3_get_set_other; assumption.
        -- exact Nl.
  - intros Hl. unfold fault_isr_handler.
    rewrite array3_get_set_same.
    rewrite wrap8_small by lia.
    destruct (Z.ltb_spec 2 (array3_get k (g_isr_nesting_level s) + 1));
      [reflexivity|lia].
Qed.

Lemma vector_isr_counts_or_halts_witness :
  (exists s', fault_isr_runs 1 3 isr_boot = Some s' /\
              interrupt_handler_get_call_count 1 s' = 3) /\
  clk_isr_handler
    (mk_isr_state (mk_array3 0 0 0) (mk_array3 0 0 0) (mk_array3 0 2 0)) = None.
Proof.
  split.
  - destruct (vector_isr_counts_or_halts 1 3 isr_boot) as (H & _).
    + lia.
    + change (0 <= 0 < 4294967296). lia.
    + destruct H as (s' & R & C & _).
      * change (0 <= 0 <= 1). lia.
      * exists s'. split; [exact R|]. exact C.
  - apply (vector_isr_counts_or_halts 1 0
             (mk_isr_state (mk_array3 0 0 0) (mk_array3 0 0 0)
                (mk_array3 0 2 0))).
    + lia.
    + change (0 <= 0 < 4294967296). lia.
    + change (2 <= 2 < 255). lia.
Defined.

(** ** power_api.c *)

(** The mode pair of the safe state, as [power_enter_safe_state] stores
    it. *)
Lemma power_safe_state_step (op : power_op) (p : power_t) :
  g_power_module_initialized p = true ->
  power_mode p = POWER_MODE_SAFE_STATE ->
  power_mode_cmp p = not8 POWER_MODE_SAFE_STATE ->
  POWER_MODE_REG p = POWER_MODE_SAFE_STATE ->
  g_power_module_initialized (power_apply op p) = true /\
  power_mode (power_apply op p) = POWER_MODE_SAFE_STATE /\
  power_mode_cmp (power_apply op p) = not8 POWER_MODE_SAFE_STATE /\
  POWER_MODE_REG (power_apply op p) = POWER_MODE_SAFE_STATE.
Proof.
  intros Hi Hm Hc Hr. destruct op as [| | |v]; simpl.
  - tauto.
  - unfold power_enter_safe_state. rewrite Hi, Hm, Hc. simpl. tauto.
  - unfold power_request_recovery, power_get_status. rewrite Hi, Hm, Hc.
    simpl. tauto.
  - unfold power_update_voltage. rewrite Hi. simpl. tauto.
Qed.

(** Safe-state entry is one way.  Once [power_enter_safe_state] has
    returned true, after any sequence of status queries, further
    safe-state entries, recovery requests and voltage updates the mode
    still reads SAFE_STATE, write operations are still disabled, the
    mode register still holds SAFE_STATE and a recovery request is
    still accepted; only a re-initialisation leaves the state. *)
Theorem safe_state_entry_is_one_way (ops : list power_op) (p : power_t) :
  fst (power_enter_safe_state p) = true ->
  let p' := power_run ops (snd (power_enter_safe_state p)) in
  power_get_status p' = (true, Some (POWER_MODE_SAFE_STATE, vdd_voltage_mv p')) /\
  power_write_enabled p' = false /\
  POWER_MODE_REG p' = POWER_MODE_SAFE_STATE /\
  fst (power_request_recovery p') = true.
Proof.
  intros H.
  assert (I : g_power_module_initialized (snd (power_enter_safe_state p)) = true /\
              power_mode (snd (power_enter_safe_state p)) = POWER_MODE_SAFE_STATE /\
              power_mode_cmp (snd (power_enter_safe_state p))
                = not8 POWER_MODE_SAFE_STATE /\
              POWER_MODE_REG (snd (power_enter_safe_state p))
                = POWER_MODE_SAFE_STATE).
  { unfold power_enter_safe_state in *.
    destruct (g_power_module_initialized p) eqn:Hi; [|discriminate H].
    simpl in *.
    destruct (negb (Z.lxor (power_mode p) (power_mode_cmp p) =? 0xFF));
      [discriminate H|].
    simpl. tauto. }
  revert I. generalize (snd (power_enter_safe_state p)). clear H p.
  induction ops as [|op ops IH]; intros p (Hi & Hm & Hc & Hr).
  - simpl. unfold power_write_enabled, power_request_recovery, power_get_status.
    rewrite Hi, Hm, Hc. simpl. repeat split. exact Hr.
  - simpl. apply IH. apply power_safe_state_step; assumption.
Qed.

Lemma safe_state_entry_is_one_way_witness :
  let p := snd (power_init (power_boot POWER_STATUS_OK 0 0)) in
  power_write_enabled p = true /\
  power_write_enabled
    (power_run [PwrUpdateVoltage 3300; PwrRequestRecovery; PwrEnterSafeState]
       (snd (power_enter_safe_state p))) = false.
Proof.
  intros p. split; [reflexivity|].
  apply (safe_state_entry_is_one_way
           [PwrUpdateVoltage 3300; PwrRequestRecovery; PwrEnterSafeState] p).
  reflexivity.
Defined.

Lemma vdd_low_set_byte (f : Z) :
  byte f ->
  truthy (Z.land (wrap8 (Z.lor f POWER_STATUS_VDD_LOW)) POWER_STATUS_VDD_LOW)
    = true /\
  Z.land (wrap8 (Z.lor f POWER_STATUS_VDD_LOW)) 0xFD = Z.land f 0xFD /\
  byte (wrap8 (Z.lor f POWER_STATUS_VDD_LOW)).
Proof.
  intros Hf.
  pose proof (forall_byte
    (fun f =>
       truthy (Z.land (wrap8 (Z.lor f POWER_STATUS_VDD_LOW)) POWER_STATUS_VDD_LOW)
       && (Z.land (wrap8 (Z.lor f POWER_STATUS_VDD_LOW)) 0xFD =? Z.land f 0xFD))
    eq_refl f Hf) as H.
  apply andb_prop in H. destruct H as (H1 & H2). apply Z.eqb_eq in H2.
  split; [exact H1|]. split; [exact H2|]. apply wrap8_range.
Qed.

Lemma vdd_low_clear_byte (f : Z) :
  byte f ->
  truthy (Z.land (wrap8 (Z.land f (Z.lnot POWER_STATUS_VDD_LOW)))
                 POWER_STATUS_VDD_LOW) = false /\
  Z.land (wrap8 (Z.land f (Z.lnot POWER_STATUS_VDD_LOW))) 0xFD = Z.land f 0xFD /\
  byte (wrap8 (Z.land f (Z.lnot POWER_STATUS_VDD_LOW))).
Proof.
  intros Hf.
  pose proof (forall_byte
    (fun f =>
       negb (truthy (Z.land (wrap8 (Z.land f (Z.lnot POWER_STATUS_VDD_LOW)))
                            POWER_STATUS_VDD_LOW))
       && (Z.land (wrap8 (Z.land f (Z.lnot POWER_STATUS_VDD_LOW))) 0xFD
           =? Z.land f 0xFD))
    eq_refl f Hf) as H.
  apply andb_prop in H. destruct H as (H1 & H2). apply Z.eqb_eq in H2.
  apply negb_true_iff in H1.
  split; [exact H1|]. split; [exact H2|]. apply wrap8_range.
Qed.

(** The VDD_LOW status flag has hysteresis: [power_update_voltage]
    sets it below 2700 mV, clears it from 2900 mV on, and leaves it as
    it was in between; the other status bits are never touched.  The
    measurement is stored as given, so that
    [power_is_within_safe_range] then answers whether it lies in
    2700..3600 mV. *)
Theorem vdd_low_flag_has_hysteresis (voltage_mv : Z) (p : power_t) :
  g_power_module_initialized p = true ->
  byte (status_flags p) ->
  let p' := snd (power_update_voltage voltage_mv p) in
  fst (power_update_voltage voltage_mv p) = true /\
  truthy (Z.land (status_flags p') POWER_STATUS_VDD_LOW) =
    (voltage_mv <? 2700)
    || (truthy (Z.land (status_flags p) POWER_STATUS_VDD_LOW)
        && (voltage_mv <? 2900)) /\
  Z.land (status_flags p') 0xFD = Z.land (status_flags p) 0xFD /\
  byte (status_flags p') /\
  vdd_voltage_mv p' = voltage_mv /\
  power_is_within_safe_range p' =
    (2700 <=? voltage_mv) && (voltage_mv <=? 3600) /\
  power_mode p' = power_mode p /\ power_mode_cmp p' = power_mode_cmp p.
Proof.
  intros Hi Hf p'. unfold p', power_update_voltage, power_is_within_safe_range.
  rewrite Hi. simpl.
  destruct (vdd_low_set_byte _ Hf) as (S1 & S2 & S3).
  destruct (vdd_low_clear_byte _ Hf) as (C1 & C2 & C3).
  destruct (Z.ltb_spec voltage_mv 2700).
  - rewrite S1. repeat split; try assumption; apply S3.
  - destruct (Z.leb_spec 2900 voltage_mv);
      destruct (Z.ltb_spec voltage_mv 2900); try lia.
    + rewrite C1, andb_false_r. repeat split; try assumption; apply C3.
    + rewrite andb_true_r. repeat split; apply Hf.
Qed.

Lemma vdd_low_flag_has_hysteresis_witness :
  let p := snd (power_init (power_boot POWER_STATUS_OK 0 0)) in
  let low := snd (power_update_voltage 2650 p) in
  truthy (Z.land (status_flags low) POWER_STATUS_VDD_LOW) = true /\
  truthy (Z.land (status_flags (snd (power_update_voltage 2800 low)))
                 POWER_STATUS_VDD_LOW) = true /\
  truthy (Z.land (status_flags (snd (power_update_voltage 2900 low)))
                 POWER_STATUS_VDD_LOW) = false.
Proof.
  intros p low.
  destruct (vdd_low_flag_has_hysteresis 2650 p) as (_ & H1 & _);
    [reflexivity | unfold byte; change (0 <= 1 < 256); lia |].
  destruct (vdd_low_flag_has_hysteresis 2800 low) as (_ & H2 & _);
    [reflexivity | unfold byte; change (0 <= 3 < 256); lia |].
  destruct (vdd_low_flag_has_hysteresis 2900 low) as (_ & H3 & _);
    [reflexivity | unfold byte; change (0 <= 3 < 256); lia |].
  split; [exact (eq_trans H1 eq_refl)|].
  split; [exact (eq_trans H2 eq_refl) | exact (eq_trans H3 eq_refl)].
Defined.

(** [power_reset] re-initialises only under a stable supply.  With the
    VDD_LOW bit clear in the status register it returns true and the
    module is back in NORMAL mode at the default 3300 mV with writes
    enabled, whatever the mode was, the safe state included.  With the
    bit set it returns false and leaves the module uninitialised: every
    later [power_get_status], [power_enter_safe_state],
    [power_request_recovery] and [power_update_voltage] is refused. *)
Theorem power_reset_needs_stable_supply (v : Z) (p : power_t) :
  let r := power_reset p in
  let low := truthy (Z.land (POWER_STATUS_REG p) POWER_STATUS_VDD_LOW) in
  fst r = negb low /\
  (low = false ->
   power_get_status (snd r) = (true, Some (POWER_MODE_NORMAL, 3300)) /\
   power_write_enabled (snd r) = true) /\
  (low = true ->
   g_power_module_initialized (snd r) = false /\
   power_mode (snd r) = power_mode p /\
   power_get_status (snd r) = (false, None) /\
   power_write_enabled (snd r) = false /\
   power_enter_safe_state (snd r) = (false, snd r) /\
   power_request_recovery (snd r) = (false, snd r) /\
   power_update_voltage v (snd r) = (false, snd r) /\
   power_mode_cmp (snd r) = power_mode_cmp p).
Proof.
  intros r low. unfold r, low, power_reset, power_init, truthy. simpl.
  destruct (Z.land (POWER_STATUS_REG p) POWER_STATUS_VDD_LOW =? 0); simpl.
  - split; [reflexivity|]. split; [|discriminate]. intros _. split; reflexivity.
  - split; [reflexivity|]. split; [discriminate|]. intros _. repeat split.
Qed.

Lemma power_reset_needs_stable_supply_witness :
  let safe := snd (power_enter_safe_state
                     (snd (power_init (power_boot POWER_STATUS_OK 0 0)))) in
  let brown :=
    mk_power true (power_mode safe) (power_mode_cmp safe) 2500 3 0
      (Z.lor POWER_STATUS_VDD_LOW POWER_STATUS_BROWNOUT) 0 1 in
  power_write_enabled (snd (power_reset safe)) = true /\
  power_enter_safe_state (snd (power_reset brown)) = (false, snd (power_reset brown)).
Proof.
  intros safe brown. split.
  - destruct (power_reset_needs_stable_supply 0 safe) as (_ & H & _).
    destruct H as (_ & H); [reflexivity | exact H].
  - destruct (power_reset_needs_stable_supply 0 brown) as (_ & _ & H).
    destruct H as (_ & _ & _ & _ & H & _); [reflexivity | exact H].
Defined.

Lemma power_reset_needs_stable_supply_examples :
  let safe := snd (power_enter_safe_state
                     (snd (power_init (power_boot POWER_STATUS_OK 0 0)))) in
  let brown :=
    mk_power true (power_mode safe) (power_mode_cmp safe) 2500 3 0
      (Z.lor POWER_STATUS_VDD_LOW POWER_STATUS_BROWNOUT) 0 1 in
  power_write_enabled (snd (power_reset safe)) = true /\
  fst (power_reset brown) = false /\
  fst (power_enter_safe_state (snd (power_reset brown))) = false.
Proof. vm_compute. repeat split. Qed.

(** ** ecc_service.c *)

Lemma ecc_ctrl_packing (enable sbe_irq mbe_irq : bool) (threshold : Z) :
  0 <= threshold <= 31 ->
  let ctrl :=
    Z.lor
      (Z.lor (Z.lor (if enable then EccService.ECC_CTRL_ENABLE else 0)
                    (if sbe_irq then EccService.ECC_CTRL_SBE_IRQ_EN else 0))
             (if mbe_irq then EccService.ECC_CTRL_MBE_IRQ_EN else 0))
      (Z.shiftl threshold EccService.ECC_CTRL_SBE_THRESH_SHIFT) in
  Z.shiftr (Z.land ctrl EccService.ECC_CTRL_SBE_THRESH_MASK)
           EccService.ECC_CTRL_SBE_THRESH_SHIFT = threshold /\
  truthy (Z.land ctrl EccService.ECC_CTRL_ENABLE) = enable /\
  truthy (Z.land ctrl EccService.ECC_CTRL_SBE_IRQ_EN) = sbe_irq /\
  truthy (Z.land ctrl EccService.ECC_CTRL_MBE_IRQ_EN) = mbe_irq /\
  0 <= ctrl < 256.
Proof.
  intros Ht ctrl.
  assert (Hb : 0 <= threshold < 256) by lia.
  pose proof (forall_byte
    (fun t =>
       implb (t <=? 31)
         (let c :=
            Z.lor
              (Z.lor (Z.lor (if enable then EccService.ECC_CTRL_ENABLE else 0)
                            (if sbe_irq then EccService.ECC_CTRL_SBE_IRQ_EN
                             else 0))
                     (if mbe_irq then EccService.ECC_CTRL_MBE_IRQ_EN else 0))
              (Z.shiftl t EccService.ECC_CTRL_SBE_THRESH_SHIFT) in
          (Z.shiftr (Z.land c EccService.ECC_CTRL_SBE_THRESH_MASK)
                    EccService.ECC_CTRL_SBE_THRESH_SHIFT =? t)
          && Bool.eqb (truthy (Z.land c EccService.ECC_CTRL_ENABLE)) enable
          && Bool.eqb (truthy (Z.land c EccService.ECC_CTRL_SBE_IRQ_EN)) sbe_irq
          && Bool.eqb (truthy (Z.land c EccService.ECC_CTRL_MBE_IRQ_EN)) mbe_irq
          && (0 <=? c) && (c <? 256)))) as H.
  assert (H' := H (ltac:(destruct enable, sbe_irq, mbe_irq;
                         vm_compute; reflexivity)) threshold Hb).
  clear H. cbv beta zeta in H'. fold ctrl in H'.
  destruct (Z.leb_spec threshold 31); [|lia]. simpl implb in H'.
  repeat (apply andb_prop in H'; destruct H' as (H' & ?)).
  repeat match goal with
         | H : Bool.eqb _ _ = true |- _ => apply Bool.eqb_prop in H
         | H : (_ =? _) = true |- _ => apply Z.eqb_eq in H
         | H : (_ <=? _) = true |- _ => apply Z.leb_le in H
         | H : (_ <? _) = true |- _ => apply Z.ltb_lt in H
         end.
  repeat split; assumption.
Qed.

Lemma ecc_configure_eq (enable sbe_threshold sbe_irq_en mbe_irq_en : Z)
    (u : EccService.ecc_unit_t) :
  EccService.initialized (EccService.ecc_state u) = true ->
  sbe_threshold <= 31 ->
  EccService.ecc_configure enable sbe_threshold sbe_irq_en mbe_irq_en u =
    (true,
     EccService.with_ecc_state
       (EccService.mk_ecc_service_state true enable sbe_threshold
          (EccService.sbe_error_count (EccService.ecc_state u))
          (EccService.mbe_error_count (EccService.ecc_state u)))
       (Z.lor
          (Z.lor (Z.lor (if truthy enable then EccService.ECC_CTRL_ENABLE else 0)
                        (if truthy sbe_irq_en
                         then EccService.ECC_CTRL_SBE_IRQ_EN else 0))
                 (if truthy mbe_irq_en then EccService.ECC_CTRL_MBE_IRQ_EN else 0))
          (Z.shiftl sbe_threshold EccService.ECC_CTRL_SBE_THRESH_SHIFT))
       u).
Proof.
  intros Hi Ht. unfold EccService.ecc_configure. rewrite Hi. simpl negb.
  destruct (Z.ltb_spec 31 sbe_threshold); [lia|].
  cbv zeta.
  destruct (truthy enable), (truthy sbe_irq_en), (truthy mbe_irq_en);
    reflexivity.
Qed.

Lemma ecc_configure_coherent (enable sbe_threshold sbe_irq_en mbe_irq_en : Z)
    (u : EccService.ecc_unit_t) :
  EccService.initialized (EccService.ecc_state u) = true ->
  EccService.ecc_coherent u ->
  0 <= sbe_threshold ->
  let u' := snd (EccService.ecc_configure enable sbe_threshold sbe_irq_en
                   mbe_irq_en u) in
  EccService.initialized (EccService.ecc_state u') = true /\
  EccService.ecc_coherent u' /\
  EccService.ECC_SBE_COUNT u' = EccService.ECC_SBE_COUNT u /\
  EccService.ECC_MBE_COUNT u' = EccService.ECC_MBE_COUNT u /\
  EccService.ECC_ERR_STATUS u' = EccService.ECC_ERR_STATUS u.
Proof.
  intros Hi Hc H0 u'. unfold u'.
  destruct (Z.leb_spec sbe_threshold 31) as [Hle|Hgt].
  - rewrite (ecc_configure_eq _ _ _ _ u Hi Hle). simpl.
    destruct (ecc_ctrl_packing (truthy enable) (truthy sbe_irq_en)
                (truthy mbe_irq_en) sbe_threshold (conj H0 Hle))
      as (P1 & P2 & _ & _ & P5).
    unfold EccService.ecc_coherent. simpl.
    repeat split; try assumption; try lia; apply P5.
  - unfold EccService.ecc_configure. rewrite Hi. simpl negb.
    destruct (Z.ltb_spec 31 sbe_threshold); [|lia].
    cbn [snd]. split; [exact Hi|]. split; [exact Hc|]. repeat split.
Qed.

Lemma ecc_apply_coherent (op : EccService.ecc_op) (u : EccService.ecc_unit_t) :
  ecc_op_bytes op ->
  EccService.initialized (EccService.ecc_state u) = true ->
  EccService.ecc_coherent u ->
  let u' := EccService.ecc_apply op u in
  EccService.initialized (EccService.ecc_state u') = true /\
  EccService.ecc_coherent u' /\
  EccService.ECC_SBE_COUNT u' = EccService.ECC_SBE_COUNT u /\
  EccService.ECC_MBE_COUNT u' = EccService.ECC_MBE_COUNT u /\
  EccService.ECC_ERR_STATUS u' = EccService.ECC_ERR_STATUS u.
Proof.
  intros Hb Hi Hc.
  destruct op as [|e t s m| | | |t]; simpl.
  - unfold EccService.ecc_init. rewrite Hi. cbn [snd].
    split; [exact Hi|]. split; [exact Hc|]. repeat split.
  - destruct Hb as (_ & Ht & _). unfold byte in Ht.
    apply ecc_configure_coherent; [exact Hi | exact Hc | lia].
  - unfold EccService.ecc_clear_counters. rewrite Hi. simpl.
    split; [reflexivity|]. split; [exact Hc|]. repeat split.
  - unfold EccService.ecc_enable.
    apply ecc_configure_coherent; [exact Hi | exact Hc | apply Hc].
  - unfold EccService.ecc_disable.
    apply ecc_configure_coherent; [exact Hi | exact Hc | lia].
  - unfold EccService.ecc_set_sbe_threshold. unfold ecc_op_bytes, byte in Hb.
    destruct (Z.ltb_spec 31 t); cbn [snd];
      [split; [exact Hi|]; split; [exact Hc|]; repeat split|].
    apply ecc_configure_coherent; [exact Hi | exact Hc | lia].
Qed.

(** The control register and the shadow state of the ECC service never
    drift apart.  After [ecc_init], any sequence of init, configure,
    clear-counters, enable, disable and set-threshold calls with byte
    arguments leaves the threshold within 0..31 and equal to bits 7:3
    of the last value written to [ECC_CTRL], and the enable bit of that
    value equal to the enable state.  None of these calls changes what
    the counter getters read, [ecc_clear_counters] included, and
    [ecc_validate_config] fails exactly when a hardware counter reads
    0xFFFF. *)
Theorem ecc_service_register_stays_coherent
    (ops : list EccService.ecc_op) (u : EccService.ecc_unit_t) :
  EccService.initialized (EccService.ecc_state u) = false ->
  Forall ecc_op_bytes ops ->
  let u' := EccService.ecc_run ops (snd (EccService.ecc_init u)) in
  EccService.ecc_coherent u' /\
  EccService.ecc_get_sbe_count u' =
    wrap16 (Z.land (EccService.ECC_SBE_COUNT u) 0xFFFF) /\
  EccService.ecc_get_mbe_count u' =
    wrap16 (Z.land (EccService.ECC_MBE_COUNT u) 0xFFFF) /\
  EccService.ecc_validate_config u' =
    negb ((EccService.ecc_get_sbe_count u' =? 0xFFFF)
          || (EccService.ecc_get_mbe_count u' =? 0xFFFF)).
Proof.
  intros Hu Hops.
  assert (I : EccService.initialized
                (EccService.ecc_state (snd (EccService.ecc_init u))) = true /\
              EccService.ecc_coherent (snd (EccService.ecc_init u)) /\
              EccService.ECC_SBE_COUNT (snd (EccService.ecc_init u))
                = EccService.ECC_SBE_COUNT u /\
              EccService.ECC_MBE_COUNT (snd (EccService.ecc_init u))
                = EccService.ECC_MBE_COUNT u).
  { unfold EccService.ecc_init. rewrite Hu. simpl.
    split; [reflexivity|]. split; [|split; reflexivity].
    unfold EccService.ecc_coherent. simpl. vm_compute.
    repeat split; congruence. }
  revert I. generalize (snd (EccService.ecc_init u)).
  induction Hops as [|op ops Hop Hops IH]; intros w (Hi & Hc & Hs & Hm).
  - simpl. split; [exact Hc|].
    unfold EccService.ecc_validate_config, EccService.ecc_get_sbe_count,
      EccService.ecc_get_mbe_count.
    rewrite Hi, Hs, Hm. simpl negb. cbv zeta.
    split; [reflexivity|]. split; [reflexivity|].
    destruct (_ || _); [reflexivity|].
    destruct Hc as (Ht & _).
    destruct (Z.ltb_spec 31 (EccService.sbe_threshold (EccService.ecc_state w)));
      [lia|reflexivity].
  - simpl.
    destruct (ecc_apply_coherent op w Hop Hi Hc) as (Ji & Jc & Js & Jm & _).
    apply IH. rewrite Js, Jm.
    split; [exact Ji|]. split; [exact Jc|]. split; assumption.
Qed.

Lemma ecc_service_register_stays_coherent_witness :
  let u := EccService.ecc_run
             [EccService.EccSetSbeThreshold 5; EccService.EccClearCounters;
              EccService.EccConfigure 1 40 1 1; EccService.EccDisable]
             (snd (EccService.ecc_init (EccService.ecc_boot 0x1FFFF 3 0))) in
  EccService.ecc_coherent u /\
  EccService.ecc_get_sbe_count u = 0xFFFF /\
  EccService.ecc_validate_config u = false.
Proof.
  intros u.
  destruct (ecc_service_register_stays_coherent
              [EccService.EccSetSbeThreshold 5; EccService.EccClearCounters;
               EccService.EccConfigure 1 40 1 1; EccService.EccDisable]
              (EccService.ecc_boot 0x1FFFF 3 0)) as (H1 & H2 & _ & H4).
  - reflexivity.
  - repeat constructor; unfold byte; lia.
  - split; [exact H1|]. split; [exact (eq_trans H2 eq_refl)|].
    exact (eq_trans H4 eq_refl).
Defined.

(** Disabling does not remember the configuration: [ecc_disable]
    writes 0 to the control register and resets the SBE threshold, so a
    following [ecc_enable] turns protection and both interrupts back on
    with the threshold at 0 (the documented "disabled" value), whatever
    it was before. *)
Theorem ecc_disable_forgets_threshold (u : EccService.ecc_unit_t) :
  EccService.initialized (EccService.ecc_state u) = true ->
  let d := snd (EccService.ecc_disable u) in
  let e := snd (EccService.ecc_enable d) in
  fst (EccService.ecc_disable u) = true /\
  EccService.ECC_CTRL d = 0 /\
  EccService.ecc_is_enabled d = false /\
  fst (EccService.ecc_enable d) = true /\
  EccService.ecc_is_enabled e = true /\
  EccService.sbe_threshold (EccService.ecc_state e) = 0 /\
  EccService.ECC_CTRL e = 0x07.
Proof.
  intros Hi d e. unfold e, d, EccService.ecc_disable, EccService.ecc_enable.
  rewrite (ecc_configure_eq 0 0 0 0 u Hi) by lia. simpl.
  repeat split.
Qed.

Lemma ecc_disable_forgets_threshold_witness :
  let u := snd (EccService.ecc_init (EccService.ecc_boot 0 0 0)) in
  EccService.sbe_threshold (EccService.ecc_state u) = 10 /\
  EccService.sbe_threshold
    (EccService.ecc_state
       (snd (EccService.ecc_enable (snd (EccService.ecc_disable u))))) = 0.
Proof.
  intros u. split; [reflexivity|].
  apply (ecc_disable_forgets_threshold u). reflexivity.
Defined.
